(** * NLC-Receiver: the [Camera] class of [nlc-receiver/camera.cpp]

    A shallow embedding of the camera life-cycle code (open, configure,
    start, grab, stop, close) over an abstract libdc1394 driver.  The
    driver is an oracle: it sees the history of native calls and answers
    the next one, so every theorem quantified over [drv] holds whatever
    the hardware does.  C++ exceptions are the [Throw] outcome of a small
    state-and-error monad over the members of the object. *)

From Stdlib Require Import ZArith List String Bool Lia RelationClasses.
From Stdlib Require Import DecimalString.
Import ListNotations.
Local Open Scope Z_scope.

(** ** libdc1394, as far as the class uses it *)

Definition dc1394error_t := Z.
Definition DC1394_SUCCESS : dc1394error_t := 0.

Inductive dc1394switch_t := DC1394_OFF | DC1394_ON.

(** [dc1394video_frame_t]: the ring position of the buffer ([id]), the
    frame size and the raw RGB8 bytes. *)
Record Frame := mkFrame {
  frame_id : nat;
  frame_size : Z * Z;
  image : list Z
}.

(** The native functions called by the class.  The first (handle)
    argument of each is kept in the [Event]; the constant arguments of
    [dc1394_format7_set_roi] (video mode, colour coding, packet size) and
    the capture flags are fixed in the source and left out. *)
Inductive Call :=
| dc1394_new
| dc1394_camera_new (guid : Z)
| dc1394_camera_free
| dc1394_free
| dc1394_video_set_transmission (pwr : dc1394switch_t)
| dc1394_video_set_iso_speed (speed : Z)
| dc1394_format7_set_roi (left top width height : Z)
| dc1394_video_set_framerate (framerate : Z)
| dc1394_capture_setup (num_dma_buffers : Z)
| dc1394_capture_stop
| dc1394_capture_dequeue
| dc1394_capture_enqueue (frame : Frame).

(** What a native call gives back: its return value ([rc], an error code,
    or the pointer for [dc1394_new] and [dc1394_camera_new], 0 being the
    null pointer) and the frame stored through
    the out-pointer of [dc1394_capture_dequeue] (ignored elsewhere). *)
Record Reply := mkReply { rc : Z; out : Frame }.

Record Event := mkEvent { ev_handle : Z; ev_call : Call; ev_reply : Reply }.

Definition Driver := list Event -> Z -> Call -> Reply.

Definition failed (e : dc1394error_t) : bool := negb (e =? DC1394_SUCCESS).

Definition is_free (e : Event) : bool :=
  match ev_call e with dc1394_camera_free => true | _ => false end.

(** How many times [dc1394_camera_free] was called on handle [h]. *)
Definition releases (h : Z) (l : list Event) : nat :=
  List.length (filter (fun e => is_free e && (ev_handle e =? h)) l).

(** The native calls of a history, without handles and replies. *)
Definition calls (l : list Event) : list Call := map ev_call l.

Fixpoint remove_one (i : nat) (l : list nat) : list nat :=
  match l with
  | [] => []
  | j :: l' => if Nat.eqb i j then l' else j :: remove_one i l'
  end.

(** One step of the DMA ring bookkeeping: a successful dequeue lends a
    buffer out, a successful enqueue gives it back. *)
Definition track (lent : list nat) (e : Event) : list nat :=
  match ev_call e with
  | dc1394_capture_dequeue =>
      if failed (rc (ev_reply e)) then lent
      else frame_id (out (ev_reply e)) :: lent
  | dc1394_capture_enqueue f =>
      if failed (rc (ev_reply e)) then lent
      else remove_one (frame_id f) lent
  | _ => lent
  end.

(** The buffers dequeued and not yet returned, after history [l]. *)
Definition outstanding (l : list Event) : list nat := fold_left track l [].

(** ** OpenCV *)

Record Mat := mkMat { mat_size : Z * Z; data : list Z }.

Fixpoint cvtColor_RGB2BGR (px : list Z) : list Z :=
  match px with
  | r :: g :: b :: rest => b :: g :: r :: cvtColor_RGB2BGR rest
  | _ => []
  end.

(** ** The object *)

(** The members of [Camera] that [camera.cpp] reads and writes (the
    class itself is declared in [camera.hpp]), with two ghost fields:
    [log], the native calls made so far with their replies, and
    [viewer], the images handed to [frameViewer->showImage]. *)
Record Camera := mkCamera {
  objHandle : Z;
  camHandle : Z;
  err : dc1394error_t;
  isDeviceOpened : bool;
  isTransmitting : bool;
  isCapturingVideo : bool;
  frameHandle : Frame;
  log : list Event;
  viewer : list Mat
}.

Definition set_objHandle (h : Z) (c : Camera) : Camera :=
  mkCamera h (camHandle c) (err c) (isDeviceOpened c) (isTransmitting c)
           (isCapturingVideo c) (frameHandle c) (log c) (viewer c).
Definition set_camHandle (h : Z) (c : Camera) : Camera :=
  mkCamera (objHandle c) h (err c) (isDeviceOpened c) (isTransmitting c)
           (isCapturingVideo c) (frameHandle c) (log c) (viewer c).
Definition set_err (e : dc1394error_t) (c : Camera) : Camera :=
  mkCamera (objHandle c) (camHandle c) e (isDeviceOpened c) (isTransmitting c)
           (isCapturingVideo c) (frameHandle c) (log c) (viewer c).
Definition set_isDeviceOpened (b : bool) (c : Camera) : Camera :=
  mkCamera (objHandle c) (camHandle c) (err c) b (isTransmitting c)
           (isCapturingVideo c) (frameHandle c) (log c) (viewer c).
Definition set_isTransmitting (b : bool) (c : Camera) : Camera :=
  mkCamera (objHandle c) (camHandle c) (err c) (isDeviceOpened c) b
           (isCapturingVideo c) (frameHandle c) (log c) (viewer c).
Definition set_isCapturingVideo (b : bool) (c : Camera) : Camera :=
  mkCamera (objHandle c) (camHandle c) (err c) (isDeviceOpened c)
           (isTransmitting c) b (frameHandle c) (log c) (viewer c).
Definition set_frameHandle (f : Frame) (c : Camera) : Camera :=
  mkCamera (objHandle c) (camHandle c) (err c) (isDeviceOpened c)
           (isTransmitting c) (isCapturingVideo c) f (log c) (viewer c).
Definition set_log (l : list Event) (c : Camera) : Camera :=
  mkCamera (objHandle c) (camHandle c) (err c) (isDeviceOpened c)
           (isTransmitting c) (isCapturingVideo c) (frameHandle c) l (viewer c).
Definition set_viewer (v : list Mat) (c : Camera) : Camera :=
  mkCamera (objHandle c) (camHandle c) (err c) (isDeviceOpened c)
           (isTransmitting c) (isCapturingVideo c) (frameHandle c) (log c) v.

(** ** Exceptions and the monad of member functions *)

(** [oss << guid] for a [uint64_t]. *)
Definition show_uint64 (n : Z) : string :=
  NilZero.string_of_uint (N.to_uint (Z.to_N n)).

Inductive exn :=
| runtime_error (what : string)
| out_of_range (what : string).

Inductive outcome (A : Type) :=
| Return (a : A) (c : Camera)
| Throw (e : exn) (c : Camera).
Arguments Return {A} a c.
Arguments Throw {A} e c.

Definition final {A} (o : outcome A) : Camera :=
  match o with Return _ c => c | Throw _ c => c end.

Definition M (A : Type) := Camera -> outcome A.

Definition ret {A} (a : A) : M A := fun c => Return a c.
Definition bind {A B} (m : M A) (k : A -> M B) : M B :=
  fun c => match m c with
           | Return a c' => k a c'
           | Throw e c' => Throw e c'
           end.
Definition throw {A} (e : exn) : M A := fun c => Throw e c.
Definition get {A} (f : Camera -> A) : M A := fun c => Return (f c) c.
Definition put (f : Camera -> Camera) : M unit := fun c => Return tt (f c).

Declare Scope cam_scope.
Delimit Scope cam_scope with cam.
Notation "x <- m ;; k" := (bind m (fun x => k))
  (at level 61, m at next level, right associativity) : cam_scope.
Notation "m ;; k" := (bind m (fun _ => k))
  (at level 61, right associativity) : cam_scope.
Local Open Scope cam_scope.

(** [Camera::Parameters], by the [case] labels of [setParameter], with
    the values that follow each tag in its variadic argument list: the
    list is kept in decoded form, [count] being its length.  [Unknown]
    is any other tag (the [default] label). *)
Inductive Parameters :=
| BusSpeed (busSpeed : Z)
| Resolution (left top width height : Z)
| FrameRate (frameRate : Z)
| Unknown (tag : Z).

Section Camera.

Variable drv : Driver.

(** [Device::cameraDmaCounts], declared outside [camera.cpp]. *)
Variable cameraDmaCounts : Z.

(** A native call on handle [h]: the driver answers from the history,
    and the call is appended to it. *)
Definition native (h : Z) (f : Call) : M Reply :=
  fun c =>
    let r := drv (log c) h f in
    Return r (set_log (log c ++ [mkEvent h f r]) c).

(** A native call on [camHandle]. *)
Definition dc (f : Call) : M Reply :=
  h <- get camHandle ;; native h f.

(** [err = f(camHandle, ...)]. *)
Definition dc_err (f : Call) : M unit :=
  r <- dc f ;; put (set_err (rc r)).

(** [Camera::Camera()], run on the raw storage of the object: the two
    flags of the initialiser list, then the library handle.  The other
    members keep whatever the storage held. *)
Definition constructor : M unit :=
  put (set_isDeviceOpened false) ;;
  put (set_isTransmitting false) ;;
  r <- native 0 dc1394_new ;;
  put (set_objHandle (rc r)) ;;
  o <- get objHandle ;;
  if o =? 0 then throw (runtime_error "Failed to initialize libdc1394")
  else ret tt.

Definition freeObject : M unit :=
  h <- get objHandle ;; native h dc1394_free ;; ret tt.

Definition freeCamera : M unit :=
  dc dc1394_camera_free ;; ret tt.

Definition open (guid : Z) : M unit :=
  o <- get objHandle ;;
  r <- native o (dc1394_camera_new guid) ;;
  put (set_camHandle (rc r)) ;;
  h <- get camHandle ;;
  if h =? 0
  then throw (runtime_error
                (String.append "Failed to initialize camera with GUID "
                               (show_uint64 guid)))
  else put (set_isDeviceOpened true).

Definition stopTransmission : M unit :=
  dc_err (dc1394_video_set_transmission DC1394_OFF) ;;
  e <- get err ;;
  if failed e then throw (runtime_error "Failed to stop the transmission")
  else put (set_isTransmitting false).

Definition stopAcquisition : M unit :=
  dc_err dc1394_capture_stop ;;
  e <- get err ;;
  if failed e
  then throw (runtime_error "Failed to stop the acquisition session")
  else stopTransmission.

Definition startTransmission : M unit :=
  dc_err (dc1394_video_set_transmission DC1394_ON) ;;
  e <- get err ;;
  if failed e
  then stopAcquisition ;; freeCamera ;;
       throw (runtime_error "Failed to start isochronous transmission")
  else put (set_isTransmitting true).

Definition startAcquisition : M unit :=
  dc_err (dc1394_capture_setup cameraDmaCounts) ;;
  e <- get err ;;
  if failed e
  then freeCamera ;;
       throw (runtime_error "Failed to start the acquisition session")
  else startTransmission.

Definition close : M unit :=
  (tx <- get isTransmitting ;;
   if tx then stopAcquisition ;; put (set_isTransmitting false)
   else ret tt) ;;
  op <- get isDeviceOpened ;;
  if op then freeCamera ;; put (set_isDeviceOpened false)
  else ret tt.

(** [~Camera()]; an exception leaving it ends the program. *)
Definition destructor : M unit := close ;; freeObject.

(** One round of the [switch] in [setParameter]. *)
Definition applyParameter (p : Parameters) : M unit :=
  match p with
  | BusSpeed busSpeed =>
      dc_err (dc1394_video_set_iso_speed busSpeed) ;;
      e <- get err ;;
      if failed e then throw (runtime_error "Failed to switch bus speed")
      else ret tt
  | Resolution roi_left roi_top width height =>
      dc_err (dc1394_format7_set_roi roi_left roi_top width height) ;;
      e <- get err ;;
      if failed e
      then freeCamera ;;
           throw (runtime_error "Failed to set format 7 configurations")
      else ret tt
  | FrameRate frameRate =>
      dc_err (dc1394_video_set_framerate frameRate) ;;
      e <- get err ;;
      if failed e
      then freeCamera ;;
           throw (runtime_error "Failed to update frame rate")
      else ret tt
  | Unknown _ => throw (out_of_range "Unknown camera parameter")
  end.

(** The [for] loop of [setParameter]. *)
Fixpoint applyParameters (ps : list Parameters) : M unit :=
  match ps with
  | [] => ret tt
  | p :: rest => applyParameter p ;; applyParameters rest
  end.

(** The two unchecked calls at the head of [setParameter]. *)
Definition forceStop : M unit :=
  dc (dc1394_video_set_transmission DC1394_OFF) ;;
  dc dc1394_capture_stop ;;
  ret tt.

Definition setParameter (ps : list Parameters) : M unit :=
  forceStop ;; applyParameters ps.

Definition dc1394frameToMat (frame : Frame) : Mat :=
  let '(w, h) := frame_size frame in
  mkMat (w, h)
        (cvtColor_RGB2BGR (firstn (Z.to_nat (w * h * 3)) (image frame))).

(** [frameHandle] holds what the dequeue left in it, [out]; it is read
    only after a dequeue that succeeded. *)
Definition grabFrame : M Mat :=
  r <- dc dc1394_capture_dequeue ;;
  put (set_err (rc r)) ;;
  put (set_frameHandle (out r)) ;;
  e <- get err ;;
  (if failed e
   then stopAcquisition ;; freeCamera ;;
        throw (runtime_error "Failed to grab a frame")
   else ret tt) ;;
  f <- get frameHandle ;;
  let newFrame := dc1394frameToMat f in
  dc_err (dc1394_capture_enqueue f) ;;
  e <- get err ;;
  (if failed e
   then stopAcquisition ;; freeCamera ;;
        throw (runtime_error "Failed to enqueue back the frame buffer")
   else ret tt) ;;
  ret newFrame.

Definition showImage (img : Mat) : M unit :=
  put (fun c => set_viewer (viewer c ++ [img]) c).

(** [std::this_thread::sleep_for]: no effect on the object. *)
Definition sleep_for (ms : Z) : M unit := ret tt.

(** The body of the [while] in [grabVideo]. *)
Definition grabVideo_body : M unit :=
  img <- grabFrame ;; showImage img ;; sleep_for 33.

(** [grabVideo] as run by one thread alone: [None] when [fuel] rounds
    did not end the loop. *)
Fixpoint grabVideo (fuel : nat) (c : Camera) : option (outcome unit) :=
  match fuel with
  | O => None
  | S n =>
      if isCapturingVideo c then
        match grabVideo_body c with
        | Return _ c' => grabVideo n c'
        | Throw e c' => Some (Throw e c')
        end
      else Some (Return tt c)
  end.

End Camera.

(** ** Reading a run *)

Section Runs.

Variable drv : Driver.

(** The driver's answer to [f] in state [c], and the state once the
    call is made and its code stored in [err]. *)
Definition reply (c : Camera) (f : Call) : Reply :=
  drv (log c) (camHandle c) f.

Definition called (c : Camera) (f : Call) : Camera :=
  set_log (log c ++ [mkEvent (camHandle c) f (reply c f)]) c.

Definition recorded (c : Camera) (f : Call) : Camera :=
  set_err (rc (reply c f)) (called c f).

End Runs.

(** The part of the history made between state [c] and a later state
    [c'], and the native calls in it. *)
Definition since (c c' : Camera) : list Event :=
  skipn (List.length (log c)) (log c').

Definition steps (c c' : Camera) : list Call := calls (since c c').

Definition is_tx_off (f : Call) : bool :=
  match f with dc1394_video_set_transmission DC1394_OFF => true | _ => false end.

Definition is_capture_stop (f : Call) : bool :=
  match f with dc1394_capture_stop => true | _ => false end.

(** [first_then p q l]: some call satisfying [p] is made in [l] and a
    call satisfying [q] is made later. *)
Fixpoint first_then (p q : Call -> bool) (l : list Call) : bool :=
  match l with
  | [] => false
  | f :: l' => (p f && existsb q l') || first_then p q l'
  end.

(** ** Concrete drivers and objects, for the examples *)

Definition frame0 : Frame := mkFrame 0 (2, 1) [10; 20; 30; 40; 50; 60].

(** A driver that never fails and always delivers [frame0]. *)
Definition drv_ok : Driver := fun _ _ _ => mkReply DC1394_SUCCESS frame0.

(** A driver that fails exactly the calls selected by [bad]. *)
Definition drv_bad (bad : Call -> bool) : Driver :=
  fun _ _ f => mkReply (if bad f then -1 else DC1394_SUCCESS) frame0.

Definition is_dequeue (f : Call) : bool :=
  match f with dc1394_capture_dequeue => true | _ => false end.
Definition is_enqueue (f : Call) : bool :=
  match f with dc1394_capture_enqueue _ => true | _ => false end.
Definition is_iso_speed (f : Call) : bool :=
  match f with dc1394_video_set_iso_speed _ => true | _ => false end.
Definition is_set_roi (f : Call) : bool :=
  match f with dc1394_format7_set_roi _ _ _ _ => true | _ => false end.
Definition is_framerate (f : Call) : bool :=
  match f with dc1394_video_set_framerate _ => true | _ => false end.
Definition is_capture_setup (f : Call) : bool :=
  match f with dc1394_capture_setup _ => true | _ => false end.
Definition is_tx_on (f : Call) : bool :=
  match f with dc1394_video_set_transmission DC1394_ON => true | _ => false end.

(** The storage of an object before its constructor ran, with nothing
    called or shown yet; the object once constructed (library handle 1),
    once [open] gave it camera handle 2, and once [startAcquisition]
    returned. *)
Definition raw : Camera := mkCamera 0 0 0 true true false frame0 [] [].

Definition drv_open : Driver :=
  fun _ _ f => match f with
               | dc1394_new => mkReply 1 frame0
               | dc1394_camera_new _ => mkReply 2 frame0
               | _ => mkReply DC1394_SUCCESS frame0
               end.

Definition cam_new : Camera := final (constructor drv_open raw).

Definition cam_open : Camera := final (open drv_open 7 cam_new).
Definition cam_tx : Camera := final (startAcquisition drv_ok 4 cam_open).

(** ** The capture thread beside the control thread

    [startCaptureVideo] starts a [std::thread] running [grabVideo];
    [stopCaptureVideo] clears [isCapturingVideo] and joins it.  The two
    threads are interleaved statement by statement under a schedule: the
    test of the loop condition is one turn of the capture thread and the
    call of [grabFrame] that follows it is another, so that the control
    thread can run between the two.  An exception that leaves [grabVideo] leaves the thread's entry function,
    and assigning to a [std::thread] that is still joinable is an error:
    both end the whole program ([std::terminate]). *)

(** The member [videoThread], with the point its function has reached. *)
Inductive thread :=
| NoThread                  (* default-constructed, not joinable *)
| AtLoopHead                (* about to test [isCapturingVideo] *)
| Grabbing                  (* the flag was read as set, [grabFrame] is
                               called and has not returned *)
| Grabbed (img : Mat)       (* [grabFrame] returned, [showImage] is next *)
| Sleeping                  (* in [sleep_for] *)
| Exited                    (* [grabVideo] returned, not joined yet *)
| Joined.                   (* [join] returned, not joinable any more *)

Definition joinable (t : thread) : bool :=
  match t with
  | NoThread | Joined => false
  | AtLoopHead | Grabbing | Grabbed _ | Sleeping | Exited => true
  end.

(** The control thread is outside [stopCaptureVideo], or inside it,
    waiting in [join] with the flag already cleared. *)
Inductive control := Idle | Joining.

Inductive abort :=
| uncaught (e : exn)        (* an exception left the thread function *)
| joinable_assigned.        (* a joinable [std::thread] was assigned to *)

Record Process := mkProcess {
  cam : Camera;
  ctl : control;
  videoThread : thread;
  terminated : option abort
}.

(** Other member functions the control thread may call. *)
Inductive Op :=
| OpSetParameter (ps : list Parameters)
| OpStartAcquisition
| OpStopAcquisition
| OpClose.

Inductive Turn :=
| Worker                    (* the capture thread runs its next statement *)
| Start                     (* the control thread calls [startCaptureVideo] *)
| Stop                      (* ... calls, or goes on in, [stopCaptureVideo] *)
| Member (op : Op).         (* ... calls another member function *)

Section Threads.

Variable drv : Driver.
Variable cameraDmaCounts : Z.

Definition run_op (op : Op) : M unit :=
  match op with
  | OpSetParameter ps => setParameter drv ps
  | OpStartAcquisition => startAcquisition drv cameraDmaCounts
  | OpStopAcquisition => stopAcquisition drv
  | OpClose => close drv
  end.

(** [isCapturingVideo = true; videoThread = std::thread(grabVideo)]. *)
Definition startCaptureVideo (p : Process) : Process :=
  let c := set_isCapturingVideo true (cam p) in
  if joinable (videoThread p)
  then mkProcess c (ctl p) (videoThread p) (Some joinable_assigned)
  else mkProcess c (ctl p) AtLoopHead (terminated p).

(** [isCapturingVideo = false; videoThread.join();].  From [Idle] the
    flag is cleared and [join] entered; without a joinable thread [join]
    throws [std::system_error] and the call is over.  From [Joining],
    [join] returns once the thread function has returned. *)
Definition stopCaptureVideo (p : Process) : option Process :=
  match ctl p with
  | Idle =>
      let c := set_isCapturingVideo false (cam p) in
      if joinable (videoThread p)
      then Some (mkProcess c Joining (videoThread p) (terminated p))
      else Some (mkProcess c Idle (videoThread p) (terminated p))
  | Joining =>
      match videoThread p with
      | Exited => Some (mkProcess (cam p) Idle Joined (terminated p))
      | _ => None
      end
  end.

(** The next statement of [grabVideo] in the capture thread.  The loop
    condition reads the flag; the call of [grabFrame] is completed in a
    later turn, on the object as it is then. *)
Definition worker_step (p : Process) : option Process :=
  match videoThread p with
  | AtLoopHead =>
      if isCapturingVideo (cam p)
      then Some (mkProcess (cam p) (ctl p) Grabbing (terminated p))
      else Some (mkProcess (cam p) (ctl p) Exited (terminated p))
  | Grabbing =>
      match grabFrame drv (cam p) with
      | Return img c' =>
          Some (mkProcess c' (ctl p) (Grabbed img) (terminated p))
      | Throw e c' =>
          Some (mkProcess c' (ctl p) (videoThread p) (Some (uncaught e)))
      end
  | Grabbed img =>
      Some (mkProcess (final (showImage img (cam p))) (ctl p) Sleeping
                      (terminated p))
  | Sleeping =>
      Some (mkProcess (final (sleep_for 33 (cam p))) (ctl p) AtLoopHead
                      (terminated p))
  | NoThread | Exited | Joined => None
  end.

Definition control_call (op : Op) (p : Process) : Process :=
  mkProcess (final (run_op op (cam p))) (ctl p) (videoThread p)
            (terminated p).

(** One turn of the schedule; [None] when the thread cannot move (it
    is blocked or done, or the program has been terminated). *)
Definition next (t : Turn) (p : Process) : option Process :=
  match terminated p with
  | Some _ => None
  | None =>
      match t, ctl p with
      | Worker, _ => worker_step p
      | Stop, _ => stopCaptureVideo p
      | Start, Idle => Some (startCaptureVideo p)
      | Member op, Idle => Some (control_call op p)
      | Start, Joining | Member _, Joining => None
      end
  end.

Definition turn (p : Process) (t : Turn) : Process :=
  match next t p with Some p' => p' | None => p end.

Definition run (sched : list Turn) (p : Process) : Process :=
  fold_left turn sched p.

End Threads.

Definition is_start (t : Turn) : bool :=
  match t with Start => true | _ => false end.

(** The program with no capture thread yet, on object [c]. *)
Definition boot (c : Camera) : Process := mkProcess c Idle NoThread None.

(** ** Vocabulary of the statements *)

(** The exceptions of [grabFrame] itself and of the two stop functions. *)
Definition FrameGrabError (e : exn) : Prop :=
  e = runtime_error "Failed to grab a frame" \/
  e = runtime_error "Failed to enqueue back the frame buffer".

Definition StopError (e : exn) : Prop :=
  e = runtime_error "Failed to stop the acquisition session" \/
  e = runtime_error "Failed to stop the transmission".

(** What the specification expects of [stopAcquisition], to be compared
    with the calls it makes: the transmission is stopped before the
    capture buffers are released; both steps are attempted and the object
    is left not transmitting, whatever fails. *)
Definition claimed_stop_order (drv : Driver) (c : Camera) : Prop :=
  first_then is_tx_off is_capture_stop
             (steps c (final (stopAcquisition drv c))) = true.

Definition claimed_best_effort_stop (drv : Driver) (c : Camera) : Prop :=
  existsb is_capture_stop (steps c (final (stopAcquisition drv c))) = true /\
  existsb is_tx_off (steps c (final (stopAcquisition drv c))) = true /\
  isTransmitting (final (stopAcquisition drv c)) = false.

(** What holds of the two threads at every point of every schedule:
    inside [stopCaptureVideo] the flag is cleared and there is a thread
    to join; outside it, a thread that can be joined sees the flag set
    and has not left its loop. *)
Definition thread_inv (p : Process) : Prop :=
  match ctl p with
  | Joining =>
      isCapturingVideo (cam p) = false /\ joinable (videoThread p) = true
  | Idle =>
      joinable (videoThread p) = true ->
      isCapturingVideo (cam p) = true /\ videoThread p <> Exited
  end.

(** [respects R m]: [R] relates the object before [m] to the object
    after it, whether [m] returns or throws.  [preserves f m]: the
    observation [f] is the same before and after. *)
Definition respects {A : Type} (R : Camera -> Camera -> Prop) (m : M A) : Prop :=
  forall c, R c (final (m c)).

Definition same {X : Type} (f : Camera -> X) (c c' : Camera) : Prop :=
  f c' = f c.

Definition preserves {X A : Type} (f : Camera -> X) (m : M A) : Prop :=
  respects (same f) m.

(** The history only grows. *)
Definition grown (c c' : Camera) : Prop := exists l, log c' = log c ++ l.

(** The releases of the object's own camera handle. *)
Definition released (c : Camera) : nat := releases (camHandle c) (log c).

Section Sequences.

Variable drv : Driver.
Variable cameraDmaCounts : Z.

(** The object after the dequeue of [grabFrame], and after its
    enqueue. *)
Definition dequeued (c : Camera) : Camera :=
  set_frameHandle (out (reply drv c dc1394_capture_dequeue))
                  (recorded drv c dc1394_capture_dequeue).

Definition enqueued (c : Camera) : Camera :=
  recorded drv (dequeued c)
           (dc1394_capture_enqueue (frameHandle (dequeued c))).

(** The state in which [grabFrame] finds that the dequeue or the
    enqueue failed, if one of them does. *)
Definition grab_failure (c : Camera) : option Camera :=
  if failed (err (dequeued c)) then Some (dequeued c)
  else if failed (err (enqueued c)) then Some (enqueued c)
  else None.

(** [n] calls of [grabFrame] in a row, each of which must return. *)
Fixpoint grabFrames (n : nat) : M (list Mat) :=
  match n with
  | O => ret []
  | S k => img <- grabFrame drv ;; imgs <- grabFrames k ;; ret (img :: imgs)
  end.

(** The object after [k] complete rounds of the capture loop. *)
Fixpoint rounds (k : nat) (c : Camera) : option Camera :=
  match k with
  | O => Some c
  | S k' =>
      match grabVideo_body drv c with
      | Return _ c' => rounds k' c'
      | Throw _ _ => None
      end
  end.

(** The calls that release the camera on an error path of their own. *)
Inductive ErrorPath :=
| InSetParameter (ps : list Parameters)
| InStartAcquisition
| InGrabFrame.

Definition run_path (p : ErrorPath) : M unit :=
  match p with
  | InSetParameter ps => setParameter drv ps
  | InStartAcquisition => startAcquisition drv cameraDmaCounts
  | InGrabFrame => grabFrame drv ;; ret tt
  end.

End Sequences.

(** ** The rest of the class *)

(** The native setter that one parameter of [setParameter] is applied
    with; an unknown tag has none. *)
Definition setter (p : Parameters) : list Call :=
  match p with
  | BusSpeed busSpeed => [dc1394_video_set_iso_speed busSpeed]
  | Resolution roi_left roi_top width height =>
      [dc1394_format7_set_roi roi_left roi_top width height]
  | FrameRate frameRate => [dc1394_video_set_framerate frameRate]
  | Unknown _ => []
  end.

Definition setters (ps : list Parameters) : list Call := flat_map setter ps.

(** [dc1394camera_id_t] and [dc1394camera_list_t]: [num] entries are
    valid in [ids]. *)
Record dc1394camera_id_t := mkCameraId { unit_number : Z; guid : Z }.

Record dc1394camera_list_t := mkCameraList {
  num : nat;
  ids : list dc1394camera_id_t
}.

(** The two native calls of [listDevices], kept in a history of their
    own, and the bus: what [dc1394_camera_enumerate] returns on the
    library handle, given the camera calls made so far. *)
Inductive BusCall :=
| dc1394_camera_enumerate (handle : Z)
| dc1394_camera_free_list (cameras : dc1394camera_list_t).

Definition Bus := list Event -> Z -> dc1394error_t * dc1394camera_list_t.

(** The [for] loop of [listDevices]: [i] counts up while [todo = num - i]
    entries remain.  An index past the end of [ids] reads an entry the
    library never filled in, taken as all zero. *)
Fixpoint push_guids (cameras : dc1394camera_list_t) (i todo : nat)
         (deviceList : list Z) : list Z :=
  match todo with
  | O => deviceList
  | S todo' =>
      push_guids cameras (S i) todo'
                 (deviceList ++ [guid (nth i (ids cameras) (mkCameraId 0 0))])
  end.

(** [Camera::listDevices]: the bus calls made, and the outcome. *)
Definition listDevices (bus : Bus) (c : Camera)
  : list BusCall * outcome (list Z) :=
  let '(e, cameras) := bus (log c) (objHandle c) in
  let c1 := set_err e c in
  if failed (err c1)
  then ([dc1394_camera_enumerate (objHandle c)],
        Throw (runtime_error "Failed to enumerate cameras") c1)
  else ([dc1394_camera_enumerate (objHandle c);
         dc1394_camera_free_list cameras],
        Return (push_guids cameras 0 (num cameras) []) c1).

(** A call of a member function by the owner of the object, and a
    sequence of such calls, each going on from the state the one before
    left, whether it returned or threw. *)
Inductive MemberCall :=
| CallOpen (guid : Z)
| CallClose
| CallSetParameter (ps : list Parameters)
| CallStartAcquisition
| CallStopAcquisition
| CallGrabFrame.

Definition run_member (drv : Driver) (dma : Z) (m : MemberCall) : M unit :=
  match m with
  | CallOpen guid => open drv guid
  | CallClose => close drv
  | CallSetParameter ps => setParameter drv ps
  | CallStartAcquisition => startAcquisition drv dma
  | CallStopAcquisition => stopAcquisition drv
  | CallGrabFrame => grabFrame drv ;; ret tt
  end.

Definition session (drv : Driver) (dma : Z) (ms : list MemberCall)
           (c : Camera) : Camera :=
  fold_left (fun c0 m => final (run_member drv dma m c0)) ms c.

(** [startAcquisition] is called on open objects only. *)
Fixpoint starts_when_open (drv : Driver) (dma : Z) (ms : list MemberCall)
         (c : Camera) : bool :=
  match ms with
  | [] => true
  | m :: rest =>
      (match m with
       | CallStartAcquisition => isDeviceOpened c
       | _ => true
       end) && starts_when_open drv dma rest (final (run_member drv dma m c))
  end.

(** The frames handed out by the dequeues of a history that succeeded,
    in order. *)
Definition delivered (l : list Event) : list Frame :=
  flat_map (fun e => match ev_call e with
                     | dc1394_capture_dequeue =>
                         if failed (rc (ev_reply e)) then []
                         else [out (ev_reply e)]
                     | _ => []
                     end) l.

(** The calls that give a handle back to the library. *)
Definition is_release (f : Call) : bool :=
  match f with dc1394_camera_free | dc1394_free => true | _ => false end.

(** A driver that never fails and hands out camera handle 3. *)
Definition drv_second : Driver :=
  fun _ _ f => match f with
               | dc1394_camera_new _ => mkReply 3 frame0
               | _ => mkReply DC1394_SUCCESS frame0
               end.

Definition is_known (p : Parameters) : bool :=
  match p with Unknown _ => false | _ => true end.

(** Between [c] and [c'] the object was not newly flagged as
    transmitting. *)
Definition not_turned_on (c c' : Camera) : Prop :=
  isTransmitting c' = true -> isTransmitting c = true.

(** The calls that may store to [isDeviceOpened]. *)
Definition opens_or_closes (m : MemberCall) : bool :=
  match m with CallOpen _ | CallClose => true | _ => false end.

(** Two buses for the examples: two cameras attached, and none. *)
Definition bus_two : Bus :=
  fun _ _ => (DC1394_SUCCESS,
              mkCameraList 2 [mkCameraId 0 814436102632562;
                              mkCameraId 0 2892819673481529]).

Definition bus_none : Bus := fun _ _ => (DC1394_SUCCESS, mkCameraList 0 []).

(** What the capture thread has still to do once it is told to stop:
    the images to show (the one in hand, or the one of a [grabFrame] in
    flight) and the calls of [grabFrame] to complete. *)
Definition to_show (p : Process) : nat :=
  match terminated p, videoThread p with
  | None, (Grabbing | Grabbed _) => 1%nat
  | _, _ => 0%nat
  end.

Definition in_flight (p : Process) : nat :=
  match terminated p, videoThread p with
  | None, Grabbing => 1%nat
  | _, _ => 0%nat
  end.

Definition dequeues (c : Camera) : nat :=
  List.length (filter is_dequeue (calls (log c))).

Definition is_worker (t : Turn) : bool :=
  match t with Worker => true | _ => false end.

(** ** Basic facts *)

Section Facts.

Variable drv : Driver.
Variable cameraDmaCounts : Z.

Lemma since_app (c c' : Camera) (l : list Event) :
  log c' = log c ++ l -> since c c' = l.
Proof.
  intros E. unfold since. rewrite E.
  rewrite skipn_app, skipn_all, Nat.sub_diag. reflexivity.
Qed.

Lemma steps_app (c c' : Camera) (l : list Event) :
  log c' = log c ++ l -> steps c c' = calls l.
Proof. intros E. unfold steps. rewrite (since_app c c' l E). reflexivity. Qed.

Lemma steps_calls (c c' : Camera) (l : list Event) (fs : list Call) :
  log c' = log c ++ l -> calls l = fs -> steps c c' = fs.
Proof. intros E <-. apply steps_app. exact E. Qed.

Lemma stopTransmission_eq (c : Camera) :
  stopTransmission drv c =
  let c1 := recorded drv c (dc1394_video_set_transmission DC1394_OFF) in
  if failed (err c1)
  then Throw (runtime_error "Failed to stop the transmission") c1
  else Return tt (set_isTransmitting false c1).
Proof.
  cbv [stopTransmission dc_err dc bind get put native throw]. cbn.
  destruct (failed _); reflexivity.
Qed.

Lemma stopAcquisition_eq (c : Camera) :
  stopAcquisition drv c =
  let c1 := recorded drv c dc1394_capture_stop in
  if failed (err c1)
  then Throw (runtime_error "Failed to stop the acquisition session") c1
  else stopTransmission drv c1.
Proof.
  cbv [stopAcquisition dc_err dc bind get put native throw]. cbn.
  destruct (failed _); reflexivity.
Qed.

(** *** Frame conditions *)

#[global] Instance same_PreOrder {X : Type} (f : Camera -> X) :
  PreOrder (same f).
Proof.
  split.
  - intros c. reflexivity.
  - intros c1 c2 c3 H12 H23. unfold same in *. congruence.
Qed.

#[global] Instance grown_PreOrder : PreOrder grown.
Proof.
  split.
  - intros c. exists []. symmetry. apply app_nil_r.
  - intros c1 c2 c3 [l1 H1] [l2 H2]. exists (l1 ++ l2).
    rewrite H2, H1. symmetry. apply app_assoc.
Qed.

Section Respects.
Context (R : Camera -> Camera -> Prop) `{!PreOrder R}.

Lemma respects_ret {A} (a : A) : respects R (ret a).
Proof. intros c. cbn. reflexivity. Qed.

Lemma respects_throw {A} (e : exn) : respects R (@throw A e).
Proof. intros c. cbn. reflexivity. Qed.

Lemma respects_get {A} (g : Camera -> A) : respects R (get g).
Proof. intros c. cbn. reflexivity. Qed.

Lemma respects_put (g : Camera -> Camera) :
  (forall c, R c (g c)) -> respects R (put g).
Proof. intros H c. apply H. Qed.

Lemma respects_bind {A B} (m : M A) (k : A -> M B) :
  respects R m -> (forall a, respects R (k a)) -> respects R (bind m k).
Proof.
  intros Hm Hk c. unfold bind. specialize (Hm c).
  destruct (m c) as [a c' | e c']; cbn in *.
  - transitivity c'; [exact Hm | apply Hk].
  - exact Hm.
Qed.

Lemma respects_native (h : Z) (g : Call) :
  (forall c r, R c (set_log (log c ++ [mkEvent h g r]) c)) ->
  respects R (native drv h g).
Proof. intros H c. apply H. Qed.
End Respects.

End Facts.

(** Decompose a member function into binds, calls and stores, and close
    each leaf with the side condition [leaf]. *)
Ltac frame_with leaf :=
  unfold preserves;
  repeat first
    [ apply respects_ret; try exact _
    | apply respects_throw; try exact _
    | apply respects_get; try exact _
    | apply respects_put; intros; leaf
    | apply respects_native; intros; leaf
    | apply respects_bind; [ try exact _ | | intros ? ]
    | match goal with
      | |- respects _ (if ?b then _ else _) => destruct b
      | |- respects _ (match ?p with _ => _ end) => destruct p
      end
    | progress cbv beta zeta ].

(** Leaves of a frame condition on a field, and of [grown]. *)
Ltac frame := frame_with ltac:(unfold same; reflexivity).

Ltac grow :=
  frame_with ltac:(first [ eexists; cbn; reflexivity
                         | exists []; cbn; symmetry; apply app_nil_r ]).

Ltac unfold_members :=
  cbv [close destructor startAcquisition startTransmission stopAcquisition
       stopTransmission freeCamera freeObject forceStop setParameter
       applyParameter grabFrame grabVideo_body showImage sleep_for
       dc_err dc].

Section Frames.

Variable drv : Driver.
Variable cameraDmaCounts : Z.

Lemma releases_snoc (h : Z) (l : list Event) (e : Event) :
  releases h (l ++ [e]) =
  if is_free e && (ev_handle e =? h) then S (releases h l)
  else releases h l.
Proof.
  unfold releases. rewrite filter_app, length_app. cbn.
  destruct (is_free e && (ev_handle e =? h)); cbn; lia.
Qed.

Lemma released_called_free (c : Camera) :
  released (called drv c dc1394_camera_free) = S (released c).
Proof.
  unfold released, called. cbn [log camHandle set_log].
  rewrite releases_snoc. cbn. rewrite Z.eqb_refl. reflexivity.
Qed.

(** Only [open] stores to [camHandle]. *)
Lemma stopAcquisition_camHandle : preserves camHandle (stopAcquisition drv).
Proof. unfold_members. frame. Qed.

Lemma stopAcquisition_isDeviceOpened :
  preserves isDeviceOpened (stopAcquisition drv).
Proof. unfold_members. frame. Qed.

Lemma applyParameters_respects (R : Camera -> Camera -> Prop)
      `{!PreOrder R} :
  (forall p, respects R (applyParameter drv p)) ->
  forall ps, respects R (applyParameters drv ps).
Proof.
  intros H ps. induction ps as [|p rest IH]; cbn [applyParameters].
  - apply respects_ret. exact _.
  - apply respects_bind; [exact _ | apply H | intros _; exact IH].
Qed.

Lemma setParameter_respects (R : Camera -> Camera -> Prop) `{!PreOrder R} :
  respects R (forceStop drv) ->
  (forall p, respects R (applyParameter drv p)) ->
  forall ps, respects R (setParameter drv ps).
Proof.
  intros H1 H2 ps. unfold setParameter.
  apply respects_bind; [exact _ | exact H1 | intros _].
  apply applyParameters_respects; [exact _ | exact H2].
Qed.

(** [setParameter] never stores to [isTransmitting]. *)
Lemma setParameter_isTransmitting (ps : list Parameters) :
  preserves isTransmitting (setParameter drv ps).
Proof.
  apply setParameter_respects; [exact _ | | intros p];
    unfold_members; frame.
Qed.

(** Only [open] and [close] store to [isDeviceOpened]. *)
Lemma setParameter_isDeviceOpened (ps : list Parameters) :
  preserves isDeviceOpened (setParameter drv ps).
Proof.
  apply setParameter_respects; [exact _ | | intros p];
    unfold_members; frame.
Qed.

Lemma startAcquisition_isDeviceOpened :
  preserves isDeviceOpened (startAcquisition drv cameraDmaCounts).
Proof. unfold_members. frame. Qed.

Lemma grabFrame_isDeviceOpened : preserves isDeviceOpened (grabFrame drv).
Proof. unfold_members. frame. Qed.

Lemma setParameter_camHandle (ps : list Parameters) :
  preserves camHandle (setParameter drv ps).
Proof.
  apply setParameter_respects; [exact _ | | intros p];
    unfold_members; frame.
Qed.

Lemma startAcquisition_camHandle :
  preserves camHandle (startAcquisition drv cameraDmaCounts).
Proof. unfold_members. frame. Qed.

Lemma grabFrame_camHandle : preserves camHandle (grabFrame drv).
Proof. unfold_members. frame. Qed.

Lemma close_camHandle : preserves camHandle (close drv).
Proof. unfold_members. frame. Qed.

(** No member function but [startCaptureVideo] and [stopCaptureVideo]
    stores to [isCapturingVideo]. *)
Lemma grabFrame_isCapturingVideo :
  preserves isCapturingVideo (grabFrame drv).
Proof. unfold_members. frame. Qed.

Lemma grabVideo_body_isCapturingVideo :
  preserves isCapturingVideo (grabVideo_body drv).
Proof. unfold_members. frame. Qed.

Lemma run_op_isCapturingVideo (op : Op) :
  preserves isCapturingVideo (run_op drv cameraDmaCounts op).
Proof.
  destruct op; cbn [run_op];
    [ apply setParameter_respects; [exact _ | | intros p] | | | ];
    unfold_members; frame.
Qed.

(** Only [showImage] reaches the viewer. *)
Lemma grabFrame_viewer : preserves viewer (grabFrame drv).
Proof. unfold_members. frame. Qed.

Lemma run_op_viewer (op : Op) :
  preserves viewer (run_op drv cameraDmaCounts op).
Proof.
  destruct op; cbn [run_op];
    [ apply setParameter_respects; [exact _ | | intros p] | | | ];
    unfold_members; frame.
Qed.

Lemma stopAcquisition_released : preserves released (stopAcquisition drv).
Proof.
  unfold_members.
  frame_with ltac:(first [ unfold same; reflexivity
                         | unfold same, released;
                           cbn [log camHandle set_log];
                           rewrite releases_snoc; reflexivity ]).
Qed.

End Frames.

(** ** [stopAcquisition] *)

Lemma steps_recorded (drv : Driver) (c : Camera) (g : Call) :
  steps c (recorded drv c g) = [g].
Proof.
  apply (steps_app c (recorded drv c g)
                   [mkEvent (camHandle c) g (reply drv c g)]).
  reflexivity.
Qed.

Lemma steps_recorded2 (drv : Driver) (c : Camera) (g1 g2 : Call) :
  steps c (recorded drv (recorded drv c g1) g2) = [g1; g2].
Proof.
  apply (steps_app c _
           [mkEvent (camHandle c) g1 (reply drv c g1);
            mkEvent (camHandle c) g2 (reply drv (recorded drv c g1) g2)]).
  cbn. rewrite <- app_assoc. reflexivity.
Qed.

(** The whole behaviour of [stopAcquisition], case by case. *)
Lemma stopAcquisition_cases (drv : Driver) (c : Camera) :
  let c1 := recorded drv c dc1394_capture_stop in
  let c2 := recorded drv c1 (dc1394_video_set_transmission DC1394_OFF) in
  stopAcquisition drv c =
  if failed (err c1)
  then Throw (runtime_error "Failed to stop the acquisition session") c1
  else if failed (err c2)
       then Throw (runtime_error "Failed to stop the transmission") c2
       else Return tt (set_isTransmitting false c2).
Proof.
  cbv zeta. rewrite stopAcquisition_eq. cbv zeta.
  destruct (failed (err (recorded drv c dc1394_capture_stop))).
  - reflexivity.
  - apply stopTransmission_eq.
Qed.

(** C1 (as amended): a call of [stopAcquisition] made while transmitting
    releases the capture buffers first ([dc1394_capture_stop]) and stops
    the transmission after that, when the release succeeded; it never
    switches the transmission off before the capture stop. *)
Theorem stopAcquisition_order (drv : Driver) (c : Camera) :
  isTransmitting c = true ->
  steps c (final (stopAcquisition drv c)) =
    dc1394_capture_stop ::
    (if failed (rc (reply drv c dc1394_capture_stop)) then []
     else [dc1394_video_set_transmission DC1394_OFF]) /\
  ~ claimed_stop_order drv c.
Proof.
  intros _.
  assert (E : steps c (final (stopAcquisition drv c)) =
              dc1394_capture_stop ::
              (if failed (rc (reply drv c dc1394_capture_stop)) then []
               else [dc1394_video_set_transmission DC1394_OFF])).
  { rewrite stopAcquisition_cases. cbv zeta.
    change (err (recorded drv c dc1394_capture_stop))
      with (rc (reply drv c dc1394_capture_stop)).
    destruct (failed (rc (reply drv c dc1394_capture_stop))).
    - apply steps_recorded.
    - destruct (failed _); cbn [final]; apply steps_recorded2. }
  split; [exact E|].
  unfold claimed_stop_order. rewrite E.
  destruct (failed _); cbn; discriminate.
Qed.

Lemma stopAcquisition_order_witness :
  isTransmitting cam_tx = true /\
  steps cam_tx (final (stopAcquisition drv_ok cam_tx)) =
    [dc1394_capture_stop; dc1394_video_set_transmission DC1394_OFF].
Proof.
  split; [reflexivity|].
  apply (stopAcquisition_order drv_ok cam_tx). reflexivity.
Defined.

(** C1 as the specification has it fails on an object that is
    transmitting, with a driver that never fails: the capture stop comes
    first. *)
Lemma stopAcquisition_order_counterexample :
  isTransmitting cam_tx = true /\
  steps cam_tx (final (stopAcquisition drv_ok cam_tx)) =
    [dc1394_capture_stop; dc1394_video_set_transmission DC1394_OFF] /\
  ~ claimed_stop_order drv_ok cam_tx.
Proof.
  split; [reflexivity|]. split; [reflexivity|].
  unfold claimed_stop_order. vm_compute. discriminate.
Qed.

(** C3 (as amended): [stopAcquisition] reports a failing step by throwing
    at once.  When the capture stop fails the transmission is not
    switched off at all; when either step fails [isTransmitting] keeps
    its value; it is cleared only when both steps succeed. *)
Theorem stopAcquisition_failure (drv : Driver) (c : Camera) :
  let c1 := recorded drv c dc1394_capture_stop in
  let c2 := recorded drv c1 (dc1394_video_set_transmission DC1394_OFF) in
  if failed (err c1) then
    stopAcquisition drv c =
      Throw (runtime_error "Failed to stop the acquisition session") c1 /\
    steps c c1 = [dc1394_capture_stop] /\
    isTransmitting c1 = isTransmitting c
  else if failed (err c2) then
    stopAcquisition drv c =
      Throw (runtime_error "Failed to stop the transmission") c2 /\
    steps c c2 = [dc1394_capture_stop;
                  dc1394_video_set_transmission DC1394_OFF] /\
    isTransmitting c2 = isTransmitting c
  else
    stopAcquisition drv c = Return tt (set_isTransmitting false c2) /\
    steps c c2 = [dc1394_capture_stop;
                  dc1394_video_set_transmission DC1394_OFF] /\
    isTransmitting (set_isTransmitting false c2) = false.
Proof.
  cbv zeta. rewrite stopAcquisition_cases. cbv zeta.
  destruct (failed (err (recorded drv c dc1394_capture_stop))).
  - repeat split. apply steps_recorded.
  - destruct (failed _); repeat split; apply steps_recorded2.
Qed.

(** C3 as the specification has it fails when the capture stop fails on
    a transmitting object: the exception leaves [stopAcquisition], the
    transmission stop is never attempted and the object still counts as
    transmitting. *)
Lemma stopAcquisition_failure_counterexample :
  isTransmitting cam_tx = true /\
  (exists c',
     stopAcquisition (drv_bad is_capture_stop) cam_tx =
       Throw (runtime_error "Failed to stop the acquisition session") c' /\
     steps cam_tx c' = [dc1394_capture_stop] /\
     isTransmitting c' = true) /\
  ~ claimed_best_effort_stop (drv_bad is_capture_stop) cam_tx.
Proof.
  split; [reflexivity|]. split.
  - eexists. split; [reflexivity|]. split; reflexivity.
  - unfold claimed_best_effort_stop. vm_compute. intros [_ [H _]]. discriminate.
Qed.

(** ** [setParameter] *)

Lemma applyParameters_app (drv : Driver) (l1 l2 : list Parameters)
      (c : Camera) :
  applyParameters drv (l1 ++ l2) c =
  bind (applyParameters drv l1) (fun _ => applyParameters drv l2) c.
Proof.
  revert c. induction l1 as [|p l1 IH]; intros c; cbn [app applyParameters];
    unfold bind in *.
  - reflexivity.
  - destruct (applyParameter drv p c); [apply IH | reflexivity].
Qed.

(** When the parameters [pre] alone would be applied without error, the
    call on [pre ++ rest] goes on with [rest] from there. *)
Lemma setParameter_app (drv : Driver) (pre rest : list Parameters)
      (c c1 : Camera) :
  setParameter drv pre c = Return tt c1 ->
  setParameter drv (pre ++ rest) c = applyParameters drv rest c1.
Proof.
  unfold setParameter. intros H.
  unfold bind in H |- *.
  destruct (forceStop drv c) as [[] c0 | e c0]; [|discriminate].
  rewrite applyParameters_app. unfold bind. rewrite H. reflexivity.
Qed.

(** A parameter that is applied without error releases nothing. *)
Lemma applyParameter_return (drv : Driver) (p : Parameters) (c c' : Camera) :
  applyParameter drv p c = Return tt c' -> released c' = released c.
Proof.
  destruct p; cbv [applyParameter dc_err dc freeCamera bind get put native throw ret];
    cbn [err set_err]; try discriminate;
    destruct (failed _); try discriminate;
    intros H; injection H as <-;
    unfold released; cbn [log camHandle set_log set_err];
    rewrite releases_snoc; reflexivity.
Qed.

Lemma applyParameters_return (drv : Driver) (ps : list Parameters) :
  forall c c', applyParameters drv ps c = Return tt c' ->
               released c' = released c.
Proof.
  induction ps as [|p rest IH]; intros c c'; cbn [applyParameters].
  - intros H. injection H as <-. reflexivity.
  - unfold bind. destruct (applyParameter drv p c) as [[] c0|e c0] eqn:E;
      [|discriminate].
    intros H. rewrite (IH _ _ H). apply (applyParameter_return _ _ _ _ E).
Qed.

Lemma forceStop_released (drv : Driver) : preserves released (forceStop drv).
Proof.
  unfold_members.
  frame_with ltac:(first [ unfold same; reflexivity
                         | unfold same, released;
                           cbn [log camHandle set_log];
                           rewrite releases_snoc; reflexivity ]).
Qed.

Lemma setParameter_return (drv : Driver) (ps : list Parameters)
      (c c' : Camera) :
  setParameter drv ps c = Return tt c' -> released c' = released c.
Proof.
  unfold setParameter, bind. intros H.
  pose proof (forceStop_released drv c) as F.
  destruct (forceStop drv c) as [[] c0 | e c0]; [|discriminate].
  rewrite (applyParameters_return _ _ _ _ H). exact F.
Qed.

(** The first two native calls of [setParameter] switch the transmission
    off and stop the capture, whatever follows and whatever they
    return. *)
Lemma setParameter_forceStop_first (drv : Driver) (ps : list Parameters)
      (c : Camera) :
  exists l,
    steps c (final (setParameter drv ps c)) =
    dc1394_video_set_transmission DC1394_OFF :: dc1394_capture_stop :: l.
Proof.
  unfold setParameter, bind.
  set (c2 := called drv (called drv c (dc1394_video_set_transmission DC1394_OFF))
                    dc1394_capture_stop).
  change (forceStop drv c) with (Return tt c2).
  assert (G : grown c2 (final (applyParameters drv ps c2))).
  { apply applyParameters_respects; [exact _|]. intros p.
    unfold_members. grow. }
  destruct G as [l G]. exists (calls l).
  apply (steps_app c _
           ([mkEvent (camHandle c) (dc1394_video_set_transmission DC1394_OFF)
                     (reply drv c (dc1394_video_set_transmission DC1394_OFF));
             mkEvent (camHandle c) dc1394_capture_stop
                     (reply drv (called drv c (dc1394_video_set_transmission DC1394_OFF))
                            dc1394_capture_stop)] ++ l)).
  rewrite G. cbn. rewrite <- !app_assoc. reflexivity.
Qed.

(** C4: on an open, transmitting object and with a driver that never
    fails, [setParameter] with one [BusSpeed] makes the two stop calls
    before the speed is set and returns, but [isTransmitting] is still
    [true] afterwards: the function never stores to it (see
    [setParameter_isTransmitting]), where [stopTransmission] clears it
    after the same native call. *)
Theorem setParameter_leaves_isTransmitting :
  isDeviceOpened cam_tx = true /\
  isTransmitting cam_tx = true /\
  exists c',
    setParameter drv_ok [BusSpeed 2] cam_tx = Return tt c' /\
    steps cam_tx c' = [dc1394_video_set_transmission DC1394_OFF;
                       dc1394_capture_stop;
                       dc1394_video_set_iso_speed 2] /\
    isTransmitting c' = true.
Proof.
  split; [reflexivity|]. split; [reflexivity|].
  eexists. split; [reflexivity|]. split; reflexivity.
Qed.

(** What one round of the [switch] comes to, by the reply of the driver
    to the native setter: a failed setter makes the round throw, after
    [freeCamera] for [Resolution] and [FrameRate]. *)
Lemma applyParameter_cases (drv : Driver) (p : Parameters) (c : Camera) :
  applyParameter drv p c =
  match p with
  | BusSpeed busSpeed =>
      let f := dc1394_video_set_iso_speed busSpeed in
      if failed (rc (reply drv c f))
      then Throw (runtime_error "Failed to switch bus speed") (recorded drv c f)
      else Return tt (recorded drv c f)
  | Resolution roi_left roi_top width height =>
      let f := dc1394_format7_set_roi roi_left roi_top width height in
      if failed (rc (reply drv c f))
      then Throw (runtime_error "Failed to set format 7 configurations")
                 (called drv (recorded drv c f) dc1394_camera_free)
      else Return tt (recorded drv c f)
  | FrameRate frameRate =>
      let f := dc1394_video_set_framerate frameRate in
      if failed (rc (reply drv c f))
      then Throw (runtime_error "Failed to update frame rate")
                 (called drv (recorded drv c f) dc1394_camera_free)
      else Return tt (recorded drv c f)
  | Unknown _ => Throw (out_of_range "Unknown camera parameter") c
  end.
Proof.
  destruct p; cbv zeta;
    cbv [applyParameter dc_err dc freeCamera bind get put native throw ret
         recorded called reply];
    cbn [err set_err camHandle log set_log];
    try destruct (failed _); reflexivity.
Qed.

(** A setter is not a release. *)
Lemma released_setter (drv : Driver) (p : Parameters) (c : Camera) (f : Call) :
  setter p = [f] -> released (recorded drv c f) = released c.
Proof.
  intros N. unfold released, recorded, called.
  cbn [log camHandle set_log set_err]. rewrite releases_snoc.
  destruct p; cbn [setter] in N; try discriminate N;
    injection N as <-; reflexivity.
Qed.

(** [freeCamera] and the release step of [close]: on an object that is
    open and not transmitting, [close] is [freeCamera] and the store to
    [isDeviceOpened]. *)
Lemma close_releases (drv : Driver) (c : Camera) :
  isTransmitting c = false -> isDeviceOpened c = true ->
  freeCamera drv c = Return tt (called drv c dc1394_camera_free) /\
  close drv c =
    Return tt (set_isDeviceOpened false (called drv c dc1394_camera_free)).
Proof.
  intros T O. split; [reflexivity|].
  cbv [close freeCamera dc bind get put native ret called reply].
  rewrite T, O. reflexivity.
Qed.

(** C5: when the parameters before [p] are applied without error and
    the driver fails the native setter of [p], the call fails there with
    the exception of [p]; when the setter succeeds the call goes on.  For
    [BusSpeed] the setter is the only call made: nothing is released and
    the object stays open on its handle.  For [Resolution] and
    [FrameRate], [freeCamera] runs right after the failed setter and
    before the exception leaves: it is the release step of [close] (on
    that state [close] makes the same call), and it frees the handle the
    object still holds. *)
Theorem setParameter_failure (drv : Driver) (pre post : list Parameters)
        (p : Parameters) (c c1 : Camera) :
  setParameter drv pre c = Return tt c1 ->
  match p with
  | BusSpeed busSpeed =>
      let f := dc1394_video_set_iso_speed busSpeed in
      let c2 := recorded drv c1 f in
      (failed (rc (reply drv c1 f)) = true ->
       setParameter drv (pre ++ p :: post) c =
         Throw (runtime_error "Failed to switch bus speed") c2 /\
       steps c1 c2 = [f] /\
       released c2 = released c /\
       camHandle c2 = camHandle c /\
       isDeviceOpened c2 = isDeviceOpened c) /\
      (failed (rc (reply drv c1 f)) = false ->
       setParameter drv (pre ++ [p]) c = Return tt c2)
  | Resolution roi_left roi_top width height =>
      let f := dc1394_format7_set_roi roi_left roi_top width height in
      let c2 := recorded drv c1 f in
      let c3 := called drv c2 dc1394_camera_free in
      (failed (rc (reply drv c1 f)) = true ->
       setParameter drv (pre ++ p :: post) c =
         Throw (runtime_error "Failed to set format 7 configurations") c3 /\
       freeCamera drv c2 = Return tt c3 /\
       steps c1 c3 = [f; dc1394_camera_free] /\
       map ev_handle (since c2 c3) = [camHandle c] /\
       released c3 = S (released c) /\
       camHandle c3 = camHandle c /\
       (isTransmitting c2 = false -> isDeviceOpened c2 = true ->
        close drv c2 = Return tt (set_isDeviceOpened false c3))) /\
      (failed (rc (reply drv c1 f)) = false ->
       setParameter drv (pre ++ [p]) c = Return tt c2)
  | FrameRate frameRate =>
      let f := dc1394_video_set_framerate frameRate in
      let c2 := recorded drv c1 f in
      let c3 := called drv c2 dc1394_camera_free in
      (failed (rc (reply drv c1 f)) = true ->
       setParameter drv (pre ++ p :: post) c =
         Throw (runtime_error "Failed to update frame rate") c3 /\
       freeCamera drv c2 = Return tt c3 /\
       steps c1 c3 = [f; dc1394_camera_free] /\
       map ev_handle (since c2 c3) = [camHandle c] /\
       released c3 = S (released c) /\
       camHandle c3 = camHandle c /\
       (isTransmitting c2 = false -> isDeviceOpened c2 = true ->
        close drv c2 = Return tt (set_isDeviceOpened false c3))) /\
      (failed (rc (reply drv c1 f)) = false ->
       setParameter drv (pre ++ [p]) c = Return tt c2)
  | Unknown _ =>
      setParameter drv (pre ++ p :: post) c =
        Throw (out_of_range "Unknown camera parameter") c1 /\
      released c1 = released c
  end.
Proof.
  intros Hpre.
  pose proof (setParameter_return _ _ _ _ Hpre) as Hrel.
  pose proof (setParameter_isDeviceOpened drv pre c) as Hopen.
  pose proof (setParameter_camHandle drv pre c) as Hcam.
  rewrite Hpre in Hopen, Hcam. cbn [final] in Hopen, Hcam.
  unfold same in Hopen, Hcam.
  assert (A : forall q rest,
             setParameter drv (pre ++ q :: rest) c =
             match applyParameter drv q c1 with
             | Return _ c2 => applyParameters drv rest c2
             | Throw e c2 => Throw e c2
             end).
  { intros q rest. rewrite (setParameter_app drv pre (q :: rest) c c1 Hpre).
    reflexivity. }
  destruct p as [busSpeed | roi_left roi_top width height | frameRate | tag];
    cbv zeta; rewrite ?A, applyParameter_cases; cbv zeta.
  - split; intros Hf; rewrite Hf; [|reflexivity].
    split; [reflexivity|].
    split; [eapply steps_calls; reflexivity|].
    split; [rewrite (released_setter drv (BusSpeed busSpeed)) by reflexivity;
            exact Hrel|].
    split; [exact Hcam | exact Hopen].
  - split; intros Hf; rewrite Hf; [|reflexivity].
    split; [reflexivity|]. split; [reflexivity|].
    split; [eapply steps_calls;
              [ cbv [called recorded]; cbn [log set_log set_err camHandle];
                rewrite <- app_assoc; reflexivity
              | reflexivity ]|].
    split; [erewrite since_app by reflexivity; cbn [map ev_handle];
            rewrite <- Hcam; reflexivity|].
    split; [rewrite released_called_free,
              (released_setter drv (Resolution roi_left roi_top width height))
              by reflexivity;
            congruence|].
    split; [exact Hcam|].
    intros T O. apply (close_releases drv _ T O).
  - split; intros Hf; rewrite Hf; [|reflexivity].
    split; [reflexivity|]. split; [reflexivity|].
    split; [eapply steps_calls;
              [ cbv [called recorded]; cbn [log set_log set_err camHandle];
                rewrite <- app_assoc; reflexivity
              | reflexivity ]|].
    split; [erewrite since_app by reflexivity; cbn [map ev_handle];
            rewrite <- Hcam; reflexivity|].
    split; [rewrite released_called_free,
              (released_setter drv (FrameRate frameRate)) by reflexivity;
            congruence|].
    split; [exact Hcam|].
    intros T O. apply (close_releases drv _ T O).
  - split; [reflexivity | exact Hrel].
Qed.

Lemma setParameter_failure_witness :
  (let drv := drv_bad is_iso_speed in
   let c1 := final (setParameter drv [FrameRate 32] cam_open) in
   let c2 := recorded drv c1 (dc1394_video_set_iso_speed 2) in
   setParameter drv [FrameRate 32] cam_open = Return tt c1 /\
   failed (rc (reply drv c1 (dc1394_video_set_iso_speed 2))) = true /\
   setParameter drv ([FrameRate 32] ++ BusSpeed 2 :: [Resolution 0 0 640 480])
                cam_open =
     Throw (runtime_error "Failed to switch bus speed") c2 /\
   released c2 = released cam_open) /\
  (let drv := drv_bad is_set_roi in
   let c1 := final (setParameter drv [BusSpeed 2] cam_open) in
   let c3 := called drv (recorded drv c1 (dc1394_format7_set_roi 0 0 640 480))
                    dc1394_camera_free in
   setParameter drv [BusSpeed 2] cam_open = Return tt c1 /\
   failed (rc (reply drv c1 (dc1394_format7_set_roi 0 0 640 480))) = true /\
   setParameter drv ([BusSpeed 2] ++ Resolution 0 0 640 480 :: [FrameRate 32])
                cam_open =
     Throw (runtime_error "Failed to set format 7 configurations") c3 /\
   released c3 = S (released cam_open)) /\
  (let drv := drv_bad is_framerate in
   let c1 := final (setParameter drv [BusSpeed 2] cam_open) in
   let c3 := called drv (recorded drv c1 (dc1394_video_set_framerate 32))
                    dc1394_camera_free in
   setParameter drv [BusSpeed 2] cam_open = Return tt c1 /\
   failed (rc (reply drv c1 (dc1394_video_set_framerate 32))) = true /\
   setParameter drv ([BusSpeed 2] ++ FrameRate 32 :: [BusSpeed 4]) cam_open =
     Throw (runtime_error "Failed to update frame rate") c3 /\
   released c3 = S (released cam_open)).
Proof.
  cbv zeta. split; [|split].
  - assert (H : setParameter (drv_bad is_iso_speed) [FrameRate 32] cam_open =
                Return tt (final (setParameter (drv_bad is_iso_speed)
                                               [FrameRate 32] cam_open)))
      by (vm_compute; reflexivity).
    assert (F : failed (rc (reply (drv_bad is_iso_speed)
                              (final (setParameter (drv_bad is_iso_speed)
                                                   [FrameRate 32] cam_open))
                              (dc1394_video_set_iso_speed 2))) = true)
      by (vm_compute; reflexivity).
    destruct (setParameter_failure (drv_bad is_iso_speed) [FrameRate 32]
                [Resolution 0 0 640 480] (BusSpeed 2) cam_open _ H)
      as [K _].
    destruct (K F) as [K1 [_ [K2 _]]].
    split; [exact H|]. split; [exact F|]. split; [exact K1 | exact K2].
  - assert (H : setParameter (drv_bad is_set_roi) [BusSpeed 2] cam_open =
                Return tt (final (setParameter (drv_bad is_set_roi)
                                               [BusSpeed 2] cam_open)))
      by (vm_compute; reflexivity).
    assert (F : failed (rc (reply (drv_bad is_set_roi)
                              (final (setParameter (drv_bad is_set_roi)
                                                   [BusSpeed 2] cam_open))
                              (dc1394_format7_set_roi 0 0 640 480))) = true)
      by (vm_compute; reflexivity).
    destruct (setParameter_failure (drv_bad is_set_roi) [BusSpeed 2]
                [FrameRate 32] (Resolution 0 0 640 480) cam_open _ H)
      as [K _].
    destruct (K F) as [K1 [_ [_ [_ [K2 _]]]]].
    split; [exact H|]. split; [exact F|]. split; [exact K1 | exact K2].
  - assert (H : setParameter (drv_bad is_framerate) [BusSpeed 2] cam_open =
                Return tt (final (setParameter (drv_bad is_framerate)
                                               [BusSpeed 2] cam_open)))
      by (vm_compute; reflexivity).
    assert (F : failed (rc (reply (drv_bad is_framerate)
                              (final (setParameter (drv_bad is_framerate)
                                                   [BusSpeed 2] cam_open))
                              (dc1394_video_set_framerate 32))) = true)
      by (vm_compute; reflexivity).
    destruct (setParameter_failure (drv_bad is_framerate) [BusSpeed 2]
                [BusSpeed 4] (FrameRate 32) cam_open _ H)
      as [K _].
    destruct (K F) as [K1 [_ [_ [_ [K2 _]]]]].
    split; [exact H|]. split; [exact F|]. split; [exact K1 | exact K2].
Defined.

(** [BusSpeed] failing: nothing released, and the [close] that follows
    releases the camera once.  [FrameRate] failing: released on the
    spot. *)
Example setParameter_BusSpeed_failure :
  let drv := drv_bad is_iso_speed in
  let c' := final (setParameter drv [BusSpeed 2; FrameRate 32] cam_open) in
  setParameter drv [BusSpeed 2; FrameRate 32] cam_open =
    Throw (runtime_error "Failed to switch bus speed") c' /\
  steps cam_open c' = [dc1394_video_set_transmission DC1394_OFF;
                       dc1394_capture_stop;
                       dc1394_video_set_iso_speed 2] /\
  isDeviceOpened c' = true /\
  steps c' (final (close drv c')) = [dc1394_camera_free].
Proof.
  cbv zeta. split; [|split; [|split]]; vm_compute; reflexivity.
Qed.

Example setParameter_FrameRate_failure :
  let drv := drv_bad is_framerate in
  let c' := final (setParameter drv [BusSpeed 2; FrameRate 32] cam_open) in
  setParameter drv [BusSpeed 2; FrameRate 32] cam_open =
    Throw (runtime_error "Failed to update frame rate") c' /\
  steps cam_open c' = [dc1394_video_set_transmission DC1394_OFF;
                       dc1394_capture_stop;
                       dc1394_video_set_iso_speed 2;
                       dc1394_video_set_framerate 32;
                       dc1394_camera_free] /\
  isDeviceOpened c' = true.
Proof.
  cbv zeta. split; [|split]; vm_compute; reflexivity.
Qed.

(** ** [grabFrame] *)

Lemma grabFrame_cases (drv : Driver) (c : Camera) :
  grabFrame drv c =
  let c1 := dequeued drv c in
  if failed (err c1) then
    match stopAcquisition drv c1 with
    | Return _ c2 =>
        Throw (runtime_error "Failed to grab a frame")
              (called drv c2 dc1394_camera_free)
    | Throw e c2 => Throw e c2
    end
  else
    let c2 := enqueued drv c in
    if failed (err c2) then
      match stopAcquisition drv c2 with
      | Return _ c3 =>
          Throw (runtime_error "Failed to enqueue back the frame buffer")
                (called drv c3 dc1394_camera_free)
      | Throw e c3 => Throw e c3
      end
    else Return (dc1394frameToMat (frameHandle c1)) c2.
Proof.
  cbv zeta.
  cbv [grabFrame dc_err dc freeCamera bind get put native throw ret
       dequeued enqueued recorded called reply].
  cbn [err set_err set_frameHandle frameHandle camHandle log set_log].
  destruct (failed (rc (drv (log c) (camHandle c) dc1394_capture_dequeue))).
  - destruct (stopAcquisition drv _); reflexivity.
  - destruct (failed _).
    + destruct (stopAcquisition drv _); reflexivity.
    + reflexivity.
Qed.

Lemma stopAcquisition_return (drv : Driver) (c c' : Camera) :
  stopAcquisition drv c = Return tt c' ->
  c' = set_isTransmitting false
         (recorded drv (recorded drv c dc1394_capture_stop)
                   (dc1394_video_set_transmission DC1394_OFF)).
Proof.
  rewrite stopAcquisition_cases. cbv zeta.
  destruct (failed _); [discriminate|].
  destruct (failed _); [discriminate|].
  intros H. injection H as <-. reflexivity.
Qed.

Lemma released_dequeued (drv : Driver) (c : Camera) :
  released (dequeued drv c) = released c.
Proof.
  unfold released, dequeued, recorded, called.
  cbn [log camHandle set_log set_err set_frameHandle].
  rewrite releases_snoc. reflexivity.
Qed.

Lemma released_enqueued (drv : Driver) (c : Camera) :
  released (enqueued drv c) = released c.
Proof.
  rewrite <- (released_dequeued drv c).
  unfold released, enqueued, recorded, called.
  cbn [log camHandle set_log set_err set_frameHandle].
  rewrite releases_snoc. reflexivity.
Qed.

Lemma released_grab_failure (drv : Driver) (c c1 : Camera) :
  grab_failure drv c = Some c1 -> released c1 = released c.
Proof.
  unfold grab_failure.
  destruct (failed (err (dequeued drv c))).
  - intros H. injection H as <-. apply released_dequeued.
  - destruct (failed (err (enqueued drv c))); [|discriminate].
    intros H. injection H as <-. apply released_enqueued.
Qed.

(** C6 (as amended): when the dequeue or the enqueue of [grabFrame]
    fails on a transmitting object and the [stopAcquisition] that follows
    returns, [grabFrame] has stopped capture and transmission, releases
    the camera and throws its own error. *)
Theorem grabFrame_failure (drv : Driver) (c c1 c2 : Camera) :
  isTransmitting c = true ->
  grab_failure drv c = Some c1 ->
  stopAcquisition drv c1 = Return tt c2 ->
  let c3 := called drv c2 dc1394_camera_free in
  exists e,
    grabFrame drv c = Throw e c3 /\
    FrameGrabError e /\
    steps c1 c3 = [dc1394_capture_stop;
                   dc1394_video_set_transmission DC1394_OFF;
                   dc1394_camera_free] /\
    isTransmitting c3 = false /\
    released c3 = S (released c).
Proof.
  intros _ Hfail Hstop. cbv zeta.
  assert (Hrest :
    steps c1 (called drv c2 dc1394_camera_free) =
      [dc1394_capture_stop; dc1394_video_set_transmission DC1394_OFF;
       dc1394_camera_free] /\
    isTransmitting (called drv c2 dc1394_camera_free) = false /\
    released (called drv c2 dc1394_camera_free) = S (released c)).
  { split; [|split].
    - rewrite (stopAcquisition_return _ _ _ Hstop).
      eapply steps_calls.
      + cbv [called recorded].
        cbn [log set_log set_err set_isTransmitting camHandle].
        rewrite <- !app_assoc. cbn [app]. reflexivity.
      + reflexivity.
    - rewrite (stopAcquisition_return _ _ _ Hstop). reflexivity.
    - rewrite released_called_free.
      pose proof (stopAcquisition_released drv c1) as P.
      rewrite Hstop in P. cbn [final] in P. unfold same in P.
      rewrite P. rewrite (released_grab_failure _ _ _ Hfail). reflexivity. }
  rewrite grabFrame_cases. cbv zeta.
  unfold grab_failure in Hfail.
  destruct (failed (err (dequeued drv c))).
  - injection Hfail as <-. rewrite Hstop.
    exists (runtime_error "Failed to grab a frame").
    split; [reflexivity|]. split; [left; reflexivity | exact Hrest].
  - destruct (failed (err (enqueued drv c))); [|discriminate].
    injection Hfail as <-. rewrite Hstop.
    exists (runtime_error "Failed to enqueue back the frame buffer").
    split; [reflexivity|]. split; [right; reflexivity | exact Hrest].
Qed.

Lemma grabFrame_failure_witness :
  let drv := drv_bad is_enqueue in
  let c1 := enqueued drv cam_tx in
  let c2 := final (stopAcquisition drv c1) in
  isTransmitting cam_tx = true /\
  grab_failure drv cam_tx = Some c1 /\
  stopAcquisition drv c1 = Return tt c2 /\
  grabFrame drv cam_tx =
    Throw (runtime_error "Failed to enqueue back the frame buffer")
          (called drv c2 dc1394_camera_free) /\
  released (called drv c2 dc1394_camera_free) = S (released cam_tx).
Proof.
  cbv zeta.
  assert (H0 : isTransmitting cam_tx = true) by (vm_compute; reflexivity).
  assert (H1 : grab_failure (drv_bad is_enqueue) cam_tx =
               Some (enqueued (drv_bad is_enqueue) cam_tx))
    by (vm_compute; reflexivity).
  assert (H2 : stopAcquisition (drv_bad is_enqueue)
                 (enqueued (drv_bad is_enqueue) cam_tx) =
               Return tt (final (stopAcquisition (drv_bad is_enqueue)
                                   (enqueued (drv_bad is_enqueue) cam_tx))))
    by (vm_compute; reflexivity).
  destruct (grabFrame_failure (drv_bad is_enqueue) cam_tx _ _ H0 H1 H2)
    as [e [_ [_ [_ [_ H]]]]].
  split; [exact H0|]. split; [exact H1|]. split; [exact H2|].
  split; [vm_compute; reflexivity | exact H].
Defined.

(** C6 as the specification has it fails when the dequeue fails and then
    the capture stop fails too: the exception of [stopAcquisition] leaves
    [grabFrame], nothing is released and the object still counts as
    transmitting. *)
Lemma grabFrame_failure_counterexample :
  let drv := drv_bad (fun f => is_dequeue f || is_capture_stop f) in
  isTransmitting cam_tx = true /\
  failed (err (dequeued drv cam_tx)) = true /\
  exists e c',
    grabFrame drv cam_tx = Throw e c' /\
    ~ FrameGrabError e /\
    steps cam_tx c' = [dc1394_capture_dequeue; dc1394_capture_stop] /\
    released c' = released cam_tx /\
    isTransmitting c' = true.
Proof.
  cbv zeta. split; [vm_compute; reflexivity|].
  split; [vm_compute; reflexivity|].
  exists (runtime_error "Failed to stop the acquisition session").
  eexists. split; [vm_compute; reflexivity|].
  split; [intros [H|H]; discriminate H|].
  split; [vm_compute; reflexivity|]. split; vm_compute; reflexivity.
Qed.


Lemma grabFrame_return (drv : Driver) (c c' : Camera) (img : Mat) :
  grabFrame drv c = Return img c' ->
  c' = enqueued drv c /\
  img = dc1394frameToMat (frameHandle (dequeued drv c)) /\
  failed (err (dequeued drv c)) = false /\
  failed (err (enqueued drv c)) = false.
Proof.
  rewrite grabFrame_cases. cbv zeta.
  destruct (failed (err (dequeued drv c))).
  - destruct (stopAcquisition drv _); discriminate.
  - destruct (failed (err (enqueued drv c))).
    + destruct (stopAcquisition drv _); discriminate.
    + intros H. injection H as <- <-. repeat split.
Qed.

Lemma remove_one_head (i : nat) (l : list nat) : remove_one i (i :: l) = l.
Proof. cbn. rewrite Nat.eqb_refl. reflexivity. Qed.

(** A dequeue and an enqueue that both succeed leave the ring as it
    was, whatever was lent before: the buffer handed back is the one
    that was lent. *)
Lemma grabFrame_return_log (drv : Driver) (c : Camera) :
  failed (err (dequeued drv c)) = false ->
  failed (err (enqueued drv c)) = false ->
  exists l,
    log (enqueued drv c) = log c ++ l /\
    calls l = [dc1394_capture_dequeue;
               dc1394_capture_enqueue
                 (out (reply drv c dc1394_capture_dequeue))] /\
    forall lent, fold_left track l lent = lent.
Proof.
  intros Hd He.
  cbv [enqueued dequeued recorded called] in *.
  cbn [log set_log set_err set_frameHandle frameHandle camHandle err] in *.
  eexists. split; [rewrite <- app_assoc; cbn [app]; reflexivity|].
  split; [reflexivity|].
  intros lent. cbn [fold_left].
  unfold track at 1. cbn [ev_call ev_reply]. rewrite He.
  unfold track at 1. cbn [ev_call ev_reply]. rewrite Hd.
  apply remove_one_head.
Qed.

Lemma grabFrames_log (drv : Driver) (n : nat) :
  forall c c' imgs,
    grabFrames drv n c = Return imgs c' ->
    exists l,
      log c' = log c ++ l /\ forall lent, fold_left track l lent = lent.
Proof.
  induction n as [|n IH]; intros c c' imgs; cbn [grabFrames].
  - intros H. injection H as <- <-. exists []. split.
    + symmetry. apply app_nil_r.
    + reflexivity.
  - unfold bind. destruct (grabFrame drv c) as [img c1|e c1] eqn:E;
      [|discriminate].
    destruct (grabFrames drv n c1) as [imgs' c2|e c2] eqn:E';
      [|discriminate].
    intros H. injection H as <- <-.
    destruct (IH _ _ _ E') as [l2 [L2 T2]].
    destruct (grabFrame_return _ _ _ _ E) as [-> [_ [Hd He]]].
    destruct (grabFrame_return_log drv c Hd He) as [l1 [L1 [_ T1]]].
    exists (l1 ++ l2). split.
    + rewrite L2, L1. symmetry. apply app_assoc.
    + intros lent. rewrite fold_left_app, T1. apply T2.
Qed.

(** C7: a [grabFrame] that returns has made exactly two native calls, the
    dequeue and the enqueue of the very frame the dequeue delivered, so
    the set of lent buffers is what it was; hence [n] grabs in a row that
    all return leave none of the buffers they dequeued unreturned, and
    the ring as it was before them. *)
Theorem grabFrame_round_trip (drv : Driver) :
  (forall c img c',
     grabFrame drv c = Return img c' ->
     steps c c' =
       [dc1394_capture_dequeue;
        dc1394_capture_enqueue (out (reply drv c dc1394_capture_dequeue))] /\
     outstanding (log c') = outstanding (log c)) /\
  (forall n c imgs c',
     grabFrames drv n c = Return imgs c' ->
     List.length (outstanding (since c c')) = 0%nat /\
     outstanding (log c') = outstanding (log c)).
Proof.
  split.
  - intros c img c' H.
    destruct (grabFrame_return _ _ _ _ H) as [-> [_ [Hd He]]].
    destruct (grabFrame_return_log drv c Hd He) as [l [L [C T]]].
    split.
    + rewrite (steps_app _ _ _ L). exact C.
    + unfold outstanding. rewrite L, fold_left_app. apply T.
  - intros n c imgs c' H.
    destruct (grabFrames_log _ _ _ _ _ H) as [l [L T]].
    split.
    + rewrite (since_app _ _ _ L). unfold outstanding. rewrite T. reflexivity.
    + unfold outstanding. rewrite L, fold_left_app. apply T.
Qed.

Lemma grabFrame_round_trip_witness :
  let c' := final (grabFrames drv_ok 3 cam_tx) in
  (exists imgs, grabFrames drv_ok 3 cam_tx = Return imgs c') /\
  List.length (since cam_tx c') = 6%nat /\
  List.length (outstanding (since cam_tx c')) = 0%nat /\
  List.length (outstanding (log c')) = 0%nat.
Proof.
  cbv zeta.
  assert (H1 : grabFrames drv_ok 3 cam_tx =
               Return (repeat (dc1394frameToMat frame0) 3)
                      (final (grabFrames drv_ok 3 cam_tx)))
    by (vm_compute; reflexivity).
  destruct (proj2 (grabFrame_round_trip drv_ok) 3%nat cam_tx _ _ H1)
    as [A B].
  split; [eexists; exact H1|]. split; [vm_compute; reflexivity|].
  split; [exact A|]. rewrite B. vm_compute. reflexivity.
Defined.

(** ** [close] *)

(** The second [if] of [close]. *)
Lemma close_cases (drv : Driver) (c : Camera) :
  let release := fun c0 : Camera =>
    if isDeviceOpened c0
    then Return tt (set_isDeviceOpened false (called drv c0 dc1394_camera_free))
    else Return tt c0 in
  close drv c =
  if isTransmitting c then
    match stopAcquisition drv c with
    | Return _ c1 => release (set_isTransmitting false c1)
    | Throw e c1 => Throw e c1
    end
  else release c.
Proof.
  cbv zeta. cbv [close freeCamera dc bind get put native throw ret called reply].
  destruct (isTransmitting c).
  - destruct (stopAcquisition drv c) as [[] c1|e c1]; [|reflexivity].
    cbn [isDeviceOpened set_isTransmitting].
    destruct (isDeviceOpened c1); reflexivity.
  - destruct (isDeviceOpened c); reflexivity.
Qed.

Lemma stopAcquisition_throw (drv : Driver) (c c' : Camera) (e : exn) :
  stopAcquisition drv c = Throw e c' ->
  StopError e /\ isTransmitting c' = isTransmitting c.
Proof.
  rewrite stopAcquisition_cases. cbv zeta.
  destruct (failed _).
  - intros H. injection H as <- <-. split; [left|]; reflexivity.
  - destruct (failed _); [|discriminate].
    intros H. injection H as <- <-. split; [right|]; reflexivity.
Qed.

(** A [close] that returns leaves an object on which [close] does
    nothing. *)
Lemma close_return (drv : Driver) (c c1 : Camera) :
  close drv c = Return tt c1 ->
  isTransmitting c1 = false /\ isDeviceOpened c1 = false /\
  steps c c1 =
    (if isTransmitting c
     then [dc1394_capture_stop; dc1394_video_set_transmission DC1394_OFF]
     else []) ++
    (if isDeviceOpened c then [dc1394_camera_free] else []) /\
  released c1 = (if isDeviceOpened c then S (released c) else released c).
Proof.
  rewrite close_cases. cbv zeta.
  destruct (isTransmitting c) eqn:Tx.
  - destruct (stopAcquisition drv c) as [[] c0|e c0] eqn:Hs; [|discriminate].
    pose proof (stopAcquisition_return _ _ _ Hs) as ->.
    pose proof (stopAcquisition_released drv c) as Hr.
    rewrite Hs in Hr. cbn [final] in Hr. unfold same in Hr.
    cbn [isDeviceOpened set_isTransmitting recorded called set_err set_log].
    destruct (isDeviceOpened c) eqn:Op; intros H; injection H as <-.
    + split; [reflexivity|]. split; [reflexivity|]. split.
      * eapply steps_calls;
          [ cbv [called recorded];
            cbn [log set_log set_err set_isTransmitting set_isDeviceOpened
                 camHandle];
            rewrite <- !app_assoc; cbn [app]; reflexivity
          | reflexivity ].
      * change (released (called drv (set_isTransmitting false
                  (set_isTransmitting false
                     (recorded drv (recorded drv c dc1394_capture_stop)
                        (dc1394_video_set_transmission DC1394_OFF))))
                  dc1394_camera_free) =
                S (released c)).
        rewrite released_called_free. rewrite <- Hr. reflexivity.
    + split; [reflexivity|]. split; [exact Op|]. split.
      * eapply steps_calls;
          [ cbv [called recorded];
            cbn [log set_log set_err set_isTransmitting set_isDeviceOpened
                 camHandle];
            rewrite <- !app_assoc; cbn [app]; reflexivity
          | reflexivity ].
      * rewrite <- Hr. reflexivity.
  - destruct (isDeviceOpened c) eqn:Op; intros H; injection H as <-.
    + split; [exact Tx|]. split; [reflexivity|]. split.
      * eapply steps_calls; [ reflexivity | reflexivity ].
      * apply (released_called_free drv c).
    + split; [exact Tx|]. split; [exact Op|]. split.
      * eapply steps_calls; [ symmetry; apply app_nil_r | reflexivity ].
      * reflexivity.
Qed.

Lemma close_throw (drv : Driver) (c c' : Camera) (e : exn) :
  close drv c = Throw e c' ->
  isTransmitting c = true /\ stopAcquisition drv c = Throw e c' /\
  released c' = released c.
Proof.
  rewrite close_cases. cbv zeta.
  destruct (isTransmitting c).
  - destruct (stopAcquisition drv c) as [[] c0|e0 c0] eqn:Hs.
    + cbn [isDeviceOpened set_isTransmitting].
      destruct (isDeviceOpened c0); discriminate.
    + intros H. injection H as <- <-.
      split; [reflexivity|]. split; [reflexivity|].
      pose proof (stopAcquisition_released drv c) as Hr.
      rewrite Hs in Hr. exact Hr.
  - destruct (isDeviceOpened c); discriminate.
Qed.

Lemma close_noop (drv : Driver) (c : Camera) :
  isTransmitting c = false -> isDeviceOpened c = false ->
  close drv c = Return tt c.
Proof.
  intros Tx Op. rewrite close_cases. cbv zeta. rewrite Tx, Op. reflexivity.
Qed.

Lemma close_released (drv : Driver) (c : Camera) :
  (released (final (close drv c)) <= S (released c))%nat.
Proof.
  destruct (close drv c) as [[] c1|e c1] eqn:H; cbn [final].
  - destruct (close_return _ _ _ H) as [_ [_ [_ ->]]].
    destruct (isDeviceOpened c); lia.
  - destruct (close_throw _ _ _ _ H) as [_ [_ ->]]. lia.
Qed.

(** C8 (as amended): two calls of [close] in a row release the camera at
    most once, whatever happens.  A [close] on an object that is not
    transmitting always returns.  When the first [close] returns, it has
    stopped capture and transmission if the object was transmitting and
    released the camera if it was open, and the second [close] returns
    without a native call or a store. *)
Theorem close_twice (drv : Driver) (c : Camera) :
  (released (final (close drv (final (close drv c)))) <= S (released c))%nat /\
  (isTransmitting c = false -> exists c1, close drv c = Return tt c1) /\
  (forall c1,
     close drv c = Return tt c1 ->
     close drv c1 = Return tt c1 /\
     steps c c1 =
       (if isTransmitting c
        then [dc1394_capture_stop; dc1394_video_set_transmission DC1394_OFF]
        else []) ++
       (if isDeviceOpened c then [dc1394_camera_free] else [])).
Proof.
  split; [|split].
  - destruct (close drv c) as [[] c1|e c1] eqn:H; cbn [final].
    + destruct (close_return _ _ _ H) as [Tx [Op [_ R]]].
      rewrite (close_noop drv c1 Tx Op). cbn [final]. rewrite R.
      destruct (isDeviceOpened c); lia.
    + destruct (close_throw _ _ _ _ H) as [_ [_ R]].
      rewrite <- R. apply close_released.
  - intros Tx. rewrite close_cases. cbv zeta. rewrite Tx.
    destruct (isDeviceOpened c); eexists; reflexivity.
  - intros c1 H. destruct (close_return _ _ _ H) as [Tx [Op [S _]]].
    split; [apply close_noop; assumption | exact S].
Qed.

Lemma close_twice_witness :
  let c1 := final (close drv_ok cam_tx) in
  close drv_ok cam_tx = Return tt c1 /\
  close drv_ok c1 = Return tt c1 /\
  steps cam_tx c1 = [dc1394_capture_stop;
                     dc1394_video_set_transmission DC1394_OFF;
                     dc1394_camera_free].
Proof.
  cbv zeta.
  assert (H : close drv_ok cam_tx = Return tt (final (close drv_ok cam_tx)))
    by (vm_compute; reflexivity).
  split; [exact H|].
  exact (proj2 (proj2 (close_twice drv_ok cam_tx)) _ H).
Defined.

(** C8 as the specification has it fails on a transmitting object when
    the capture stop fails: the first [close] throws (and so does the
    second), with the camera still not released. *)
Lemma close_twice_counterexample :
  let drv := drv_bad is_capture_stop in
  isTransmitting cam_tx = true /\ isDeviceOpened cam_tx = true /\
  exists c',
    close drv cam_tx =
      Throw (runtime_error "Failed to stop the acquisition session") c' /\
    released c' = 0%nat /\
    (exists c'',
       close drv c' =
         Throw (runtime_error "Failed to stop the acquisition session") c'') /\
    ~ (exists c1, close drv cam_tx = Return tt c1).
Proof.
  cbv zeta. split; [vm_compute; reflexivity|]. split; [vm_compute; reflexivity|].
  eexists. split; [vm_compute; reflexivity|]. split; [vm_compute; reflexivity|].
  split.
  - eexists. vm_compute. reflexivity.
  - intros [c1 H]. vm_compute in H. discriminate H.
Qed.

(** ** Error paths that release the camera *)

Lemma startAcquisition_cases (drv : Driver) (dma : Z) (c : Camera) :
  let c1 := recorded drv c (dc1394_capture_setup dma) in
  let c2 := recorded drv c1 (dc1394_video_set_transmission DC1394_ON) in
  startAcquisition drv dma c =
  if failed (err c1) then
    Throw (runtime_error "Failed to start the acquisition session")
          (called drv c1 dc1394_camera_free)
  else if failed (err c2) then
    match stopAcquisition drv c2 with
    | Return _ c3 =>
        Throw (runtime_error "Failed to start isochronous transmission")
              (called drv c3 dc1394_camera_free)
    | Throw e c3 => Throw e c3
    end
  else Return tt (set_isTransmitting true c2).
Proof.
  cbv zeta.
  cbv [startAcquisition startTransmission dc_err dc freeCamera bind get put
       native throw ret recorded called reply].
  cbn [err set_err camHandle log set_log].
  destruct (failed _); [reflexivity|].
  destruct (failed _); [|reflexivity].
  destruct (stopAcquisition drv _); reflexivity.
Qed.

Lemma run_path_isDeviceOpened (drv : Driver) (dma : Z) (p : ErrorPath) :
  preserves isDeviceOpened (run_path drv dma p).
Proof.
  destruct p; cbn [run_path].
  - apply setParameter_isDeviceOpened.
  - apply startAcquisition_isDeviceOpened.
  - unfold_members. frame.
Qed.

Lemma run_path_camHandle (drv : Driver) (dma : Z) (p : ErrorPath) :
  preserves camHandle (run_path drv dma p).
Proof.
  destruct p; cbn [run_path].
  - apply setParameter_camHandle.
  - apply startAcquisition_camHandle.
  - unfold_members. frame.
Qed.

(** After a path that released the camera the object does not count as
    transmitting, if it did not before; after [grabFrame], never. *)
Lemma run_path_isTransmitting (drv : Driver) (dma : Z) (p : ErrorPath)
      (c c' : Camera) (e : exn) :
  run_path drv dma p c = Throw e c' ->
  released c' = S (released c) ->
  isTransmitting c = false \/ p = InGrabFrame ->
  isTransmitting c' = false.
Proof.
  intros H R Hp. destruct p; cbn [run_path] in H.
  - destruct Hp as [Tx|?]; [|discriminate].
    pose proof (setParameter_isTransmitting drv ps c) as P.
    rewrite H in P. cbn [final] in P. unfold same in P. congruence.
  - destruct Hp as [Tx|?]; [|discriminate].
    rewrite startAcquisition_cases in H. cbv zeta in H.
    destruct (failed _).
    + injection H as <- <-. exact Tx.
    + destruct (failed _); [|discriminate].
      destruct (stopAcquisition drv _) as [[] c3|e3 c3] eqn:Hs.
      * injection H as <- <-.
        rewrite (stopAcquisition_return _ _ _ Hs). reflexivity.
      * injection H as <- <-.
        destruct (stopAcquisition_throw _ _ _ _ Hs) as [_ ->]. exact Tx.
  - unfold bind in H. rewrite grabFrame_cases in H. cbv zeta in H.
    destruct (failed (err (dequeued drv c))).
    + destruct (stopAcquisition drv _) as [[] c3|e3 c3] eqn:Hs.
      * injection H as <- <-.
        rewrite (stopAcquisition_return _ _ _ Hs). reflexivity.
      * injection H as <- <-.
        pose proof (stopAcquisition_released drv (dequeued drv c)) as P.
        rewrite Hs in P. cbn [final] in P. unfold same in P.
        rewrite released_dequeued in P. lia.
    + destruct (failed (err (enqueued drv c))); [|discriminate].
      destruct (stopAcquisition drv _) as [[] c3|e3 c3] eqn:Hs.
      * injection H as <- <-.
        rewrite (stopAcquisition_return _ _ _ Hs). reflexivity.
      * injection H as <- <-.
        pose proof (stopAcquisition_released drv (enqueued drv c)) as P.
        rewrite Hs in P. cbn [final] in P. unfold same in P.
        rewrite released_enqueued in P. lia.
Qed.

(** C10 (as amended): an error path of [setParameter],
    [startAcquisition] or [grabFrame] that has released the camera leaves
    [isDeviceOpened] set and [camHandle] as it was.  A later [close] that
    returns has therefore released the same handle a second time; and
    when the object did not count as transmitting before the path, or the
    path is [grabFrame], [close] and the destructor do return, their
    first native call being that second release. *)
Theorem error_path_double_release (drv : Driver) (dma : Z) (p : ErrorPath)
        (c c' : Camera) (e : exn) :
  isDeviceOpened c = true ->
  run_path drv dma p c = Throw e c' ->
  released c' = S (released c) ->
  isDeviceOpened c' = true /\
  camHandle c' = camHandle c /\
  (forall c'',
     close drv c' = Return tt c'' ->
     camHandle c'' = camHandle c /\ released c'' = S (S (released c))) /\
  (isTransmitting c = false \/ p = InGrabFrame ->
   (exists c'', close drv c' = Return tt c'') /\
   steps c' (final (close drv c')) = [dc1394_camera_free] /\
   (exists c'', destructor drv c' = Return tt c'') /\
   steps c' (final (destructor drv c')) = [dc1394_camera_free; dc1394_free]).
Proof.
  intros Op H R.
  assert (Op' : isDeviceOpened c' = true).
  { pose proof (run_path_isDeviceOpened drv dma p c) as P.
    rewrite H in P. cbn [final] in P. unfold same in P. congruence. }
  assert (Hh : camHandle c' = camHandle c).
  { pose proof (run_path_camHandle drv dma p c) as P.
    rewrite H in P. exact P. }
  split; [exact Op'|]. split; [exact Hh|]. split.
  - intros c'' Hc.
    pose proof (close_camHandle drv c') as P.
    rewrite Hc in P. cbn [final] in P. unfold same in P.
    destruct (close_return _ _ _ Hc) as [_ [_ [_ R']]].
    rewrite Op' in R'. split; [congruence|]. rewrite R', R. reflexivity.
  - intros Hp.
    pose proof (run_path_isTransmitting _ _ _ _ _ _ H R Hp) as Tx.
    assert (Hc : close drv c' =
                 Return tt (set_isDeviceOpened false
                              (called drv c' dc1394_camera_free))).
    { rewrite close_cases. cbv zeta. rewrite Tx, Op'. reflexivity. }
    split; [eexists; exact Hc|].
    split.
    { rewrite Hc. cbn [final].
      eapply steps_calls; [ reflexivity | reflexivity ]. }
    unfold destructor, bind. rewrite Hc.
    split; [eexists; reflexivity|].
    eapply steps_calls;
      [ cbv [freeObject bind get native ret final called];
        cbn [log set_log set_isDeviceOpened objHandle];
        rewrite <- app_assoc; cbn [app]; reflexivity
      | reflexivity ].
Qed.

Lemma error_path_double_release_witness :
  let drv := drv_bad is_set_roi in
  let p := InSetParameter [Resolution 0 0 640 480] in
  let c' := final (run_path drv 4 p cam_open) in
  isDeviceOpened cam_open = true /\
  run_path drv 4 p cam_open =
    Throw (runtime_error "Failed to set format 7 configurations") c' /\
  released c' = S (released cam_open) /\
  isDeviceOpened c' = true /\
  (exists c'', close drv c' = Return tt c'') /\
  steps c' (final (destructor drv c')) = [dc1394_camera_free; dc1394_free].
Proof.
  cbv zeta.
  assert (H0 : isDeviceOpened cam_open = true) by (vm_compute; reflexivity).
  assert (H1 : run_path (drv_bad is_set_roi) 4
                 (InSetParameter [Resolution 0 0 640 480]) cam_open =
               Throw (runtime_error "Failed to set format 7 configurations")
                 (final (run_path (drv_bad is_set_roi) 4
                           (InSetParameter [Resolution 0 0 640 480]) cam_open)))
    by (vm_compute; reflexivity).
  assert (H2 : released (final (run_path (drv_bad is_set_roi) 4
                           (InSetParameter [Resolution 0 0 640 480]) cam_open)) =
               S (released cam_open))
    by (vm_compute; reflexivity).
  destruct (error_path_double_release _ _ _ _ _ _ H0 H1 H2)
    as [A [_ [_ B]]].
  destruct (B (or_introl eq_refl)) as [B1 [_ [_ B2]]].
  repeat split; assumption.
Defined.

(** The other two paths release the camera as well. *)
Example startAcquisition_double_release :
  let drv := drv_bad is_tx_on in
  let c' := final (startAcquisition drv 4 cam_open) in
  startAcquisition drv 4 cam_open =
    Throw (runtime_error "Failed to start isochronous transmission") c' /\
  isDeviceOpened c' = true /\
  steps cam_open (final (close drv c')) =
    [dc1394_capture_setup 4; dc1394_video_set_transmission DC1394_ON;
     dc1394_capture_stop; dc1394_video_set_transmission DC1394_OFF;
     dc1394_camera_free; dc1394_camera_free] /\
  released (final (close drv c')) = 2%nat.
Proof.
  cbv zeta. split; [|split; [|split]]; vm_compute; reflexivity.
Qed.

Example capture_setup_double_release :
  let drv := drv_bad is_capture_setup in
  let c' := final (startAcquisition drv 4 cam_open) in
  startAcquisition drv 4 cam_open =
    Throw (runtime_error "Failed to start the acquisition session") c' /\
  isDeviceOpened c' = true /\
  steps cam_open (final (close drv c')) =
    [dc1394_capture_setup 4; dc1394_camera_free; dc1394_camera_free] /\
  released (final (close drv c')) = 2%nat.
Proof.
  cbv zeta. split; [|split; [|split]]; vm_compute; reflexivity.
Qed.

Example grabFrame_double_release :
  let drv := drv_bad is_dequeue in
  let c' := final (grabFrame drv cam_tx) in
  grabFrame drv cam_tx = Throw (runtime_error "Failed to grab a frame") c' /\
  isDeviceOpened c' = true /\
  steps cam_tx (final (close drv c')) =
    [dc1394_capture_dequeue; dc1394_capture_stop;
     dc1394_video_set_transmission DC1394_OFF;
     dc1394_camera_free; dc1394_camera_free] /\
  released (final (close drv c')) = 2%nat.
Proof.
  cbv zeta. split; [|split; [|split]]; vm_compute; reflexivity.
Qed.

(** C10 as stated fails when the path is a [setParameter] on an object
    that counts as transmitting: [setParameter] releases the camera and
    leaves both flags set, and the [close] that follows throws from its
    own [stopAcquisition] before it reaches the release. *)
Lemma error_path_double_release_counterexample :
  let drv := drv_bad (fun f => is_set_roi f || is_capture_stop f) in
  let c' := final (setParameter drv [Resolution 0 0 640 480] cam_tx) in
  isDeviceOpened cam_tx = true /\
  setParameter drv [Resolution 0 0 640 480] cam_tx =
    Throw (runtime_error "Failed to set format 7 configurations") c' /\
  released c' = S (released cam_tx) /\
  isDeviceOpened c' = true /\
  (exists c'',
     close drv c' =
       Throw (runtime_error "Failed to stop the acquisition session") c'' /\
     steps c' c'' = [dc1394_capture_stop] /\
     released c'' = released c') /\
  ~ (released (final (close drv c')) = S (released c')).
Proof.
  cbv zeta.
  split; [vm_compute; reflexivity|]. split; [vm_compute; reflexivity|].
  split; [vm_compute; reflexivity|]. split; [vm_compute; reflexivity|].
  split.
  - eexists. split; [|split]; vm_compute; reflexivity.
  - vm_compute. discriminate.
Qed.

(** ** The capture loop *)

Lemma grabVideo_body_cases (drv : Driver) (c : Camera) :
  grabVideo_body drv c =
  match grabFrame drv c with
  | Return img c1 => Return tt (set_viewer (viewer c1 ++ [img]) c1)
  | Throw e c1 => Throw e c1
  end.
Proof.
  cbv [grabVideo_body showImage sleep_for bind put ret].
  destruct (grabFrame drv c); reflexivity.
Qed.

Lemma rounds_isCapturingVideo (drv : Driver) (k : nat) :
  forall c ck, rounds drv k c = Some ck ->
               isCapturingVideo ck = isCapturingVideo c.
Proof.
  induction k as [|k IH]; intros c ck; cbn [rounds].
  - intros H. injection H as <-. reflexivity.
  - pose proof (grabVideo_body_isCapturingVideo drv c) as P.
    destruct (grabVideo_body drv c) as [[] c1|e c1]; [|discriminate].
    intros H. rewrite (IH _ _ H). exact P.
Qed.

(** After [k] complete rounds the loop goes on from there. *)
Lemma grabVideo_rounds (drv : Driver) (k : nat) :
  forall c ck n,
    isCapturingVideo c = true ->
    rounds drv k c = Some ck ->
    grabVideo drv (k + n) c = grabVideo drv n ck.
Proof.
  induction k as [|k IH]; intros c ck n Hc; cbn [rounds].
  - intros H. injection H as <-. reflexivity.
  - cbn [Nat.add grabVideo]. rewrite Hc.
    pose proof (grabVideo_body_isCapturingVideo drv c) as P.
    destruct (grabVideo_body drv c) as [[] c1|e c1]; [|discriminate].
    cbn [final] in P. unfold same in P.
    intros H. apply IH; [congruence | exact H].
Qed.

(** Four turns of the capture thread from the loop head, with no turn
    of the control thread between them, are one round of the loop of
    [grabVideo]. *)
Lemma worker_round (drv : Driver) (dma : Z) (c c' : Camera) (ct : control) :
  isCapturingVideo c = true ->
  grabVideo_body drv c = Return tt c' ->
  run drv dma [Worker; Worker; Worker; Worker]
      (mkProcess c ct AtLoopHead None) =
  mkProcess c' ct AtLoopHead None.
Proof.
  intros Hc. rewrite grabVideo_body_cases.
  destruct (grabFrame drv c) as [img c1|e c1] eqn:E; [|discriminate].
  intros H. injection H as <-.
  unfold run. cbn [fold_left].
  unfold turn at 4, next, worker_step. cbn [terminated videoThread cam ctl].
  rewrite Hc.
  unfold turn at 3, next, worker_step. cbn [terminated videoThread cam ctl].
  rewrite E.
  reflexivity.
Qed.

(** Once the program has been terminated no thread moves. *)
Lemma run_terminated (drv : Driver) (dma : Z) (sched : list Turn)
      (p : Process) (a : abort) :
  terminated p = Some a -> run drv dma sched p = p.
Proof.
  intros T. induction sched as [|t sched IH]; cbn [run fold_left].
  - reflexivity.
  - unfold turn at 2, next. rewrite T. exact IH.
Qed.

(** C2 (as amended): when [grabFrame] throws in a round of the capture
    loop, the loop ends there, the exception leaves [grabVideo], nothing
    is shown in that round and [isCapturingVideo] is still set.  The
    exception so leaves the entry function of the capture thread: from
    the loop head the thread reads the flag, enters [grabFrame], and with
    its throw the program is terminated and no thread moves again, so the
    error is not handed to the caller of [stopCaptureVideo].  The same
    holds of a [grabFrame] in flight on any state the control thread has
    made meanwhile, and the capture thread leaves the flag as it finds
    it. *)
Theorem grabVideo_grab_failure (drv : Driver) (dma : Z) (k : nat)
        (c ck c' : Camera) (e : exn) :
  isCapturingVideo c = true ->
  rounds drv k c = Some ck ->
  grabFrame drv ck = Throw e c' ->
  (forall fuel, (k < fuel)%nat -> grabVideo drv fuel c = Some (Throw e c')) /\
  isCapturingVideo c' = true /\
  viewer c' = viewer ck /\
  (forall ctl0 sched,
     let p := mkProcess ck ctl0 AtLoopHead None in
     let g := mkProcess ck ctl0 Grabbing None in
     let p' := mkProcess c' ctl0 Grabbing (Some (uncaught e)) in
     next drv dma Worker p = Some g /\
     next drv dma Worker g = Some p' /\
     run drv dma sched p' = p') /\
  (forall ctl0 sched cg cg' e',
     grabFrame drv cg = Throw e' cg' ->
     let g := mkProcess cg ctl0 Grabbing None in
     let p' := mkProcess cg' ctl0 Grabbing (Some (uncaught e')) in
     next drv dma Worker g = Some p' /\
     run drv dma sched p' = p' /\
     isCapturingVideo cg' = isCapturingVideo cg).
Proof.
  intros Hc Hk He.
  assert (Hck : isCapturingVideo ck = true).
  { rewrite (rounds_isCapturingVideo _ _ _ _ Hk). exact Hc. }
  assert (Hc' : isCapturingVideo c' = true).
  { pose proof (grabFrame_isCapturingVideo drv ck) as P.
    rewrite He in P. cbn [final] in P. unfold same in P. congruence. }
  split; [|split; [exact Hc'|split; [|split]]].
  - intros fuel Hlt.
    replace fuel with (k + S (fuel - S k))%nat by lia.
    rewrite (grabVideo_rounds drv k c ck _ Hc Hk).
    cbn [grabVideo]. rewrite Hck, grabVideo_body_cases, He. reflexivity.
  - pose proof (grabFrame_viewer drv ck) as P.
    rewrite He in P. exact P.
  - intros ctl0 sched. cbv zeta. split; [|split].
    + unfold next, worker_step. cbn [terminated videoThread cam ctl].
      rewrite Hck. reflexivity.
    + unfold next, worker_step. cbn [terminated videoThread cam ctl].
      rewrite He. reflexivity.
    + apply run_terminated with (a := uncaught e). reflexivity.
  - intros ctl0 sched cg cg' e' G. cbv zeta. split; [|split].
    + unfold next, worker_step. cbn [terminated videoThread cam ctl].
      rewrite G. reflexivity.
    + apply run_terminated with (a := uncaught e'). reflexivity.
    + pose proof (grabFrame_isCapturingVideo drv cg) as P.
      rewrite G in P. exact P.
Qed.

Lemma grabVideo_grab_failure_witness :
  let drv := drv_bad is_dequeue in
  let c := set_isCapturingVideo true cam_tx in
  let c' := final (grabFrame drv c) in
  isCapturingVideo c = true /\
  rounds drv 0 c = Some c /\
  grabFrame drv c = Throw (runtime_error "Failed to grab a frame") c' /\
  grabVideo drv 5 c = Some (Throw (runtime_error "Failed to grab a frame") c') /\
  isCapturingVideo c' = true.
Proof.
  cbv zeta.
  assert (H0 : isCapturingVideo (set_isCapturingVideo true cam_tx) = true)
    by reflexivity.
  assert (H1 : rounds (drv_bad is_dequeue) 0 (set_isCapturingVideo true cam_tx) =
               Some (set_isCapturingVideo true cam_tx)) by reflexivity.
  assert (H2 : grabFrame (drv_bad is_dequeue) (set_isCapturingVideo true cam_tx) =
               Throw (runtime_error "Failed to grab a frame")
                 (final (grabFrame (drv_bad is_dequeue)
                           (set_isCapturingVideo true cam_tx))))
    by (vm_compute; reflexivity).
  destruct (grabVideo_grab_failure (drv_bad is_dequeue) 4 0 _ _ _ _ H0 H1 H2)
    as [A [B _]].
  split; [exact H0|]. split; [exact H1|]. split; [exact H2|].
  split; [apply A; lia | exact B].
Defined.

(** C2 as the specification has it fails when the first dequeue fails:
    the loop ends with [isCapturingVideo] still set, and the program is
    terminated while the control thread has not even called
    [stopCaptureVideo]; under no schedule does anything move again, so
    no call of [stopCaptureVideo] reports the error. *)
Lemma grabVideo_grab_failure_counterexample :
  let drv := drv_bad is_dequeue in
  (exists c',
     grabVideo drv 1 (set_isCapturingVideo true cam_tx) =
       Some (Throw (runtime_error "Failed to grab a frame") c') /\
     isCapturingVideo c' <> false) /\
  let p := run drv 4 [Start; Worker; Worker] (boot cam_tx) in
  terminated p = Some (uncaught (runtime_error "Failed to grab a frame")) /\
  isCapturingVideo (cam p) = true /\
  forall sched, run drv 4 sched p = p.
Proof.
  cbv zeta. split.
  - eexists. split; [vm_compute; reflexivity|]. vm_compute. discriminate.
  - split; [vm_compute; reflexivity|]. split; [vm_compute; reflexivity|].
    intros sched.
    apply run_terminated
      with (a := uncaught (runtime_error "Failed to grab a frame")).
    vm_compute. reflexivity.
Qed.

(** ** [stopCaptureVideo] *)

Lemma boot_inv (c : Camera) : thread_inv (boot c).
Proof. cbn. discriminate. Qed.

Lemma thread_inv_turn (drv : Driver) (dma : Z) (p : Process) (t : Turn) :
  thread_inv p -> thread_inv (turn drv dma p t).
Proof.
  intros I. unfold turn, next.
  destruct p as [c ct w tm]. cbn [terminated ctl].
  destruct tm as [a|]; [exact I|].
  destruct t as [| | |op].
  - (* the capture thread *)
    unfold worker_step. cbn [videoThread cam ctl terminated].
    destruct w as [| | |img| | |]; try exact I.
    + destruct (isCapturingVideo c) eqn:F.
      * destruct ct; cbn in I |- *.
        -- intros _. split; [exact F | discriminate].
        -- destruct I as [I _]. congruence.
      * destruct ct; cbn in I |- *.
        -- destruct (I eq_refl) as [I1 _]. congruence.
        -- split; [apply I | reflexivity].
    + pose proof (grabFrame_isCapturingVideo drv c) as P.
      unfold same in P.
      destruct (grabFrame drv c) as [img c1|e c1]; cbn [final] in P;
        destruct ct; cbn in I |- *.
      * intros _. split; [|discriminate].
        rewrite P. apply I. reflexivity.
      * split; [|reflexivity]. rewrite P. apply I.
      * intros _. split; [|discriminate].
        rewrite P. apply I. reflexivity.
      * split; [|reflexivity]. rewrite P. apply I.
    + destruct ct; cbn in I |- *.
      * intros _. split; [apply I; reflexivity | discriminate].
      * split; [apply I | reflexivity].
    + destruct ct; cbn in I |- *.
      * intros _. split; [apply I; reflexivity | discriminate].
      * split; [apply I | reflexivity].
  - (* [startCaptureVideo] *)
    destruct ct; [|exact I].
    unfold startCaptureVideo. cbn [videoThread cam ctl terminated].
    destruct (joinable w) eqn:J; cbn in I |- *.
    + intros _. split; [reflexivity | apply I; exact J].
    + intros _. split; [reflexivity | discriminate].
  - (* [stopCaptureVideo] *)
    unfold stopCaptureVideo. cbn [videoThread cam ctl terminated].
    destruct ct.
    + destruct (joinable w) eqn:J; cbn.
      * split; [reflexivity | exact J].
      * rewrite J. discriminate.
    + destruct w; try exact I. cbn. discriminate.
  - (* another member function *)
    destruct ct; [|exact I].
    unfold control_call. cbn [videoThread cam ctl terminated].
    pose proof (run_op_isCapturingVideo drv dma op c) as P.
    unfold same in P. cbn in I |- *.
    intros J. destruct (I J) as [I1 I2]. split; [congruence | exact I2].
Qed.

Lemma thread_inv_run (drv : Driver) (dma : Z) (sched : list Turn) :
  forall p, thread_inv p -> thread_inv (run drv dma sched p).
Proof.
  unfold run.
  induction sched as [|t sched IH]; intros p I; cbn [fold_left].
  - exact I.
  - apply IH. apply thread_inv_turn. exact I.
Qed.

(** While there is no thread to join and [startCaptureVideo] is not
    called, no turn brings one about, and none shows the viewer
    anything. *)
Lemma quiet_turn (drv : Driver) (dma : Z) (p : Process) (t : Turn) :
  ctl p = Idle -> joinable (videoThread p) = false -> is_start t = false ->
  ctl (turn drv dma p t) = Idle /\
  videoThread (turn drv dma p t) = videoThread p /\
  viewer (cam (turn drv dma p t)) = viewer (cam p).
Proof.
  intros C J S. unfold turn, next.
  destruct (terminated p); [repeat split; assumption|].
  rewrite C.
  destruct t as [| | |op]; try discriminate S.
  - unfold worker_step.
    destruct (videoThread p) eqn:W; try discriminate J;
      rewrite ?W; repeat split; assumption.
  - unfold stopCaptureVideo. rewrite C, J. repeat split.
  - unfold control_call. cbn [ctl videoThread cam].
    repeat split; try assumption.
    apply (run_op_viewer drv dma op (cam p)).
Qed.

Lemma quiet_run (drv : Driver) (dma : Z) (sched : list Turn) :
  forall p,
    ctl p = Idle -> joinable (videoThread p) = false ->
    existsb is_start sched = false ->
    videoThread (run drv dma sched p) = videoThread p /\
    viewer (cam (run drv dma sched p)) = viewer (cam p).
Proof.
  unfold run.
  induction sched as [|t sched IH]; intros p C J S; cbn [fold_left].
  - split; reflexivity.
  - cbn [existsb] in S. apply orb_false_iff in S. destruct S as [S1 S2].
    destruct (quiet_turn drv dma p t C J S1) as [C' [W' V']].
    destruct (IH (turn drv dma p t) C') as [W'' V''];
      [rewrite W'; exact J | exact S2 |].
    split; congruence.
Qed.

(** C9: under every schedule of the two threads, from any object.  The
    capture thread leaves its loop only by reading [isCapturingVideo] as
    [false], and it has not left it while the control thread is not in
    [stopCaptureVideo].  Where the [join] of [stopCaptureVideo] returns,
    the flag is cleared and the thread function has returned.  After any
    [stopCaptureVideo] is over (also one that found no thread to join),
    the viewer is shown nothing more for as long as [startCaptureVideo]
    is not called again. *)
Theorem stopCaptureVideo_joins (drv : Driver) (dma : Z) (c : Camera)
        (sched : list Turn) :
  let p := run drv dma sched (boot c) in
  (forall q,
     next drv dma Worker p = Some q -> videoThread q = Exited ->
     videoThread p = AtLoopHead /\ isCapturingVideo (cam p) = false) /\
  (ctl p = Idle -> videoThread p <> Exited) /\
  (forall q,
     ctl p = Joining -> next drv dma Stop p = Some q ->
     videoThread p = Exited /\ isCapturingVideo (cam p) = false /\
     ctl q = Idle /\ videoThread q = Joined) /\
  (forall q,
     next drv dma Stop p = Some q -> ctl q = Idle ->
     forall more,
       existsb is_start more = false ->
       videoThread (run drv dma more q) = videoThread q /\
       viewer (cam (run drv dma more q)) = viewer (cam q)).
Proof.
  cbv zeta.
  pose proof (thread_inv_run drv dma sched (boot c) (boot_inv c)) as I.
  set (p := run drv dma sched (boot c)) in *.
  split; [|split; [|split]].
  - intros q. unfold next, worker_step.
    destruct (terminated p); [discriminate|].
    destruct (videoThread p) eqn:W; try discriminate.
    + destruct (isCapturingVideo (cam p)).
      * intros H. injection H as <-. discriminate.
      * intros _ _. split; reflexivity.
    + destruct (grabFrame drv (cam p)); intros H; injection H as <-;
        cbn [videoThread]; rewrite ?W; discriminate.
    + intros H. injection H as <-. discriminate.
    + intros H. injection H as <-. discriminate.
  - intros C E. unfold thread_inv in I. rewrite C in I.
    rewrite E in I. destruct (I eq_refl) as [_ I2]. apply I2. reflexivity.
  - intros q C. unfold thread_inv in I. rewrite C in I.
    destruct I as [I1 _].
    unfold next, stopCaptureVideo. rewrite C.
    destruct (terminated p); [discriminate|].
    destruct (videoThread p); try discriminate.
    intros H. injection H as <-. repeat split. exact I1.
  - intros q H C more S.
    apply quiet_run; [exact C | | exact S].
    revert H C. unfold next, stopCaptureVideo.
    destruct (terminated p); [discriminate|].
    destruct (ctl p).
    + destruct (joinable (videoThread p)) eqn:J;
        intros H; injection H as <-; cbn [ctl videoThread];
        [discriminate | intros _; exact J].
    + destruct (videoThread p); try discriminate.
      intros H. injection H as <-. reflexivity.
Qed.

Lemma stopCaptureVideo_joins_witness :
  let sched := [Start; Worker; Stop; Worker; Worker; Worker; Worker] in
  let p := run drv_ok 4 sched (boot cam_tx) in
  let q := run drv_ok 4 [Stop] p in
  let more := [Worker; Member OpClose; Stop; Worker] in
  ctl p = Joining /\
  next drv_ok 4 Stop p = Some q /\
  videoThread q = Joined /\
  viewer (cam q) = [dc1394frameToMat frame0] /\
  viewer (cam (run drv_ok 4 more q)) = viewer (cam q).
Proof.
  cbv zeta.
  set (sched := [Start; Worker; Stop; Worker; Worker; Worker; Worker]).
  assert (H1 : ctl (run drv_ok 4 sched (boot cam_tx)) = Joining)
    by (vm_compute; reflexivity).
  assert (H2 : next drv_ok 4 Stop (run drv_ok 4 sched (boot cam_tx)) =
               Some (run drv_ok 4 [Stop] (run drv_ok 4 sched (boot cam_tx))))
    by (vm_compute; reflexivity).
  destruct (stopCaptureVideo_joins drv_ok 4 cam_tx sched) as [_ [_ [J K]]].
  destruct (J _ H1 H2) as [_ [_ [C W]]].
  split; [exact H1|]. split; [exact H2|]. split; [exact W|].
  split; [vm_compute; reflexivity|].
  apply (K _ H2 C [Worker; Member OpClose; Stop; Worker]). reflexivity.
Defined.

(** ** Construction, [open] and destruction *)

Lemma constructor_cases (drv : Driver) (raw : Camera) :
  let r := drv (log raw) 0 dc1394_new in
  let c1 := set_objHandle (rc r)
              (set_log (log raw ++ [mkEvent 0 dc1394_new r])
                 (set_isTransmitting false (set_isDeviceOpened false raw))) in
  constructor drv raw =
  if rc r =? 0
  then Throw (runtime_error "Failed to initialize libdc1394") c1
  else Return tt c1.
Proof.
  cbv zeta. cbv [constructor bind get put native throw ret].
  cbn [log objHandle set_objHandle set_log set_isTransmitting
       set_isDeviceOpened].
  destruct (rc (drv (log raw) 0 dc1394_new) =? 0); reflexivity.
Qed.

Lemma open_cases (drv : Driver) (g : Z) (c : Camera) :
  let r := drv (log c) (objHandle c) (dc1394_camera_new g) in
  let c1 := set_camHandle (rc r)
              (set_log (log c ++ [mkEvent (objHandle c) (dc1394_camera_new g) r])
                 c) in
  open drv g c =
  if rc r =? 0
  then Throw (runtime_error
                (String.append "Failed to initialize camera with GUID "
                               (show_uint64 g))) c1
  else Return tt (set_isDeviceOpened true c1).
Proof.
  cbv zeta. cbv [open bind get put native throw ret].
  cbn [log objHandle camHandle set_camHandle set_log].
  destruct (rc (drv (log c) (objHandle c) (dc1394_camera_new g)) =? 0);
    reflexivity.
Qed.

Lemma destructor_cases (drv : Driver) (c : Camera) :
  destructor drv c =
  match close drv c with
  | Return _ c1 =>
      Return tt (set_log (log c1 ++
                          [mkEvent (objHandle c1) dc1394_free
                                   (drv (log c1) (objHandle c1) dc1394_free)])
                         c1)
  | Throw e c1 => Throw e c1
  end.
Proof.
  cbv [destructor freeObject bind get native ret].
  destruct (close drv c); reflexivity.
Qed.

(** X1: the constructor clears both flags whatever the storage held, and
    throws exactly when [dc1394_new] gives no handle.  An object that was
    constructed and is destroyed at once makes two native calls in all,
    [dc1394_new] and [dc1394_free] on the handle the first returned, and
    none on a camera. *)
Theorem construct_destroy (drv : Driver) (raw : Camera) :
  let r := drv (log raw) 0 dc1394_new in
  isDeviceOpened (final (constructor drv raw)) = false /\
  isTransmitting (final (constructor drv raw)) = false /\
  if rc r =? 0
  then constructor drv raw =
         Throw (runtime_error "Failed to initialize libdc1394")
               (final (constructor drv raw)) /\
       steps raw (final (constructor drv raw)) = [dc1394_new]
  else exists c c',
         constructor drv raw = Return tt c /\
         objHandle c = rc r /\
         destructor drv c = Return tt c' /\
         steps raw c' = [dc1394_new; dc1394_free] /\
         map ev_handle (since raw c') = [0; rc r].
Proof.
  cbv zeta. rewrite constructor_cases. cbv zeta.
  destruct (rc (drv (log raw) 0 dc1394_new) =? 0) eqn:E; cbn [final].
  - split; [reflexivity|]. split; [reflexivity|]. split; [reflexivity|].
    eapply steps_calls; [ reflexivity | reflexivity ].
  - split; [reflexivity|]. split; [reflexivity|].
    eexists. eexists. split; [reflexivity|]. split; [reflexivity|].
    rewrite destructor_cases, close_noop by reflexivity.
    split; [reflexivity|].
    cbn [log set_log set_objHandle objHandle].
    split.
    + eapply steps_calls;
        [ cbn [log set_log]; rewrite <- app_assoc; cbn [app]; reflexivity
        | reflexivity ].
    + erewrite since_app;
        [ | cbn [log set_log]; rewrite <- app_assoc; cbn [app]; reflexivity ].
      reflexivity.
Qed.

(** X2: [open] stores what [dc1394_camera_new] returned in [camHandle]
    without releasing the handle that was there, also when it fails.  So
    when an open object is opened again and then closed, [close] frees
    the value the second [open] stored (null after a failed one) and the
    first handle is never released. *)
Theorem open_abandons_handle (drv : Driver) (g : Z) (c : Camera) :
  isDeviceOpened c = true ->
  isTransmitting c = false ->
  let c1 := final (open drv g c) in
  let c2 := final (close drv c1) in
  camHandle c1 <> camHandle c ->
  camHandle c1 = rc (drv (log c) (objHandle c) (dc1394_camera_new g)) /\
  isDeviceOpened c1 = true /\
  steps c c2 = [dc1394_camera_new g; dc1394_camera_free] /\
  releases (camHandle c) (log c2) = releases (camHandle c) (log c) /\
  releases (camHandle c1) (log c2) = S (releases (camHandle c1) (log c)) /\
  isDeviceOpened c2 = false.
Proof.
  intros Op Tx. cbv zeta. rewrite open_cases. cbv zeta.
  set (r := drv (log c) (objHandle c) (dc1394_camera_new g)).
  set (c0 := set_camHandle (rc r)
               (set_log (log c ++
                         [mkEvent (objHandle c) (dc1394_camera_new g) r]) c)).
  assert (E1 : forall c1,
             (c1 = c0 \/ c1 = set_isDeviceOpened true c0) ->
             camHandle c1 <> camHandle c ->
             camHandle c1 = rc r /\
             isDeviceOpened c1 = true /\
             steps c (final (close drv c1)) =
               [dc1394_camera_new g; dc1394_camera_free] /\
             releases (camHandle c) (log (final (close drv c1))) =
               releases (camHandle c) (log c) /\
             releases (camHandle c1) (log (final (close drv c1))) =
               S (releases (camHandle c1) (log c)) /\
             isDeviceOpened (final (close drv c1)) = false).
  { intros c1 Hc1 Hne.
    assert (H1 : camHandle c1 = rc r) by (destruct Hc1; subst c1; reflexivity).
    assert (H2 : isDeviceOpened c1 = true)
      by (destruct Hc1; subst c1; [exact Op | reflexivity]).
    assert (H3 : isTransmitting c1 = false)
      by (destruct Hc1; subst c1; exact Tx).
    assert (H4 : log c1 =
                 log c ++ [mkEvent (objHandle c) (dc1394_camera_new g) r])
      by (destruct Hc1; subst c1; reflexivity).
    split; [exact H1|]. split; [exact H2|].
    rewrite close_cases. cbv zeta. rewrite H3, H2. cbn [final].
    cbv [called]. cbn [log set_log set_isDeviceOpened isDeviceOpened].
    rewrite H4. split; [|split; [|split]].
    - eapply steps_calls;
        [ cbn [log set_log]; rewrite <- app_assoc; cbn [app]; reflexivity
        | reflexivity ].
    - rewrite !releases_snoc. cbn [is_free ev_call ev_handle andb].
      destruct (camHandle c1 =? camHandle c) eqn:E;
        [apply Z.eqb_eq in E; contradiction | reflexivity].
    - rewrite !releases_snoc. cbn [is_free ev_call ev_handle andb].
      rewrite Z.eqb_refl. reflexivity.
    - reflexivity. }
  destruct (rc r =? 0); cbn [final]; intros Hne; apply E1; auto.
Qed.

Lemma open_abandons_handle_witness :
  let c1 := final (open drv_ok 9 cam_open) in
  let c2 := final (close drv_ok c1) in
  isDeviceOpened cam_open = true /\
  isTransmitting cam_open = false /\
  camHandle cam_open = 2 /\
  camHandle c1 = 0 /\
  releases 2 (log c2) = 0%nat /\
  releases 0 (log c2) = 1%nat.
Proof.
  cbv zeta.
  assert (H0 : isDeviceOpened cam_open = true) by (vm_compute; reflexivity).
  assert (H1 : isTransmitting cam_open = false) by (vm_compute; reflexivity).
  assert (H2 : camHandle (final (open drv_ok 9 cam_open)) <> camHandle cam_open)
    by (vm_compute; discriminate).
  destruct (open_abandons_handle drv_ok 9 cam_open H0 H1 H2)
    as [A [_ [_ [B [C _]]]]].
  split; [exact H0|]. split; [exact H1|].
  split; [vm_compute; reflexivity|]. split; [vm_compute; reflexivity|].
  split; [vm_compute; reflexivity|]. vm_compute; reflexivity.
Defined.

(** A second [open] that succeeds: handle 2 is never released. *)
Example reopen_leaks :
  let c1 := final (open drv_second 9 cam_open) in
  let c2 := final (close drv_second c1) in
  camHandle cam_open = 2 /\ camHandle c1 = 3 /\
  steps cam_open c2 = [dc1394_camera_new 9; dc1394_camera_free] /\
  releases 2 (log c2) = 0%nat /\ releases 3 (log c2) = 1%nat.
Proof.
  cbv zeta. split; [|split; [|split; [|split]]]; vm_compute; reflexivity.
Qed.

(** X3: on an object that is neither open nor transmitting, an [open]
    that returns followed by [close] makes exactly the calls
    [dc1394_camera_new] and [dc1394_camera_free], the second on the
    handle the first returned, which is not null; [close] returns and
    the object is again neither open nor transmitting. *)
Theorem open_close_round_trip (drv : Driver) (g : Z) (c c1 : Camera) :
  isDeviceOpened c = false ->
  isTransmitting c = false ->
  open drv g c = Return tt c1 ->
  exists c2,
    close drv c1 = Return tt c2 /\
    steps c c2 = [dc1394_camera_new g; dc1394_camera_free] /\
    map ev_handle (since c c2) = [objHandle c; camHandle c1] /\
    camHandle c1 <> 0 /\
    isDeviceOpened c2 = false /\ isTransmitting c2 = false /\
    close drv c2 = Return tt c2.
Proof.
  intros Op Tx. rewrite open_cases. cbv zeta.
  destruct (rc (drv (log c) (objHandle c) (dc1394_camera_new g)) =? 0) eqn:E;
    [discriminate|].
  intros H. injection H as <-.
  rewrite close_cases. cbv zeta.
  cbn [isTransmitting isDeviceOpened set_isDeviceOpened set_camHandle set_log].
  rewrite Tx. eexists. split; [reflexivity|].
  split; [|split; [|split; [|split; [|split]]]].
  - eapply steps_calls;
      [ cbv [called];
        cbn [log set_log set_isDeviceOpened set_camHandle];
        rewrite <- app_assoc; cbn [app]; reflexivity
      | reflexivity ].
  - erewrite since_app;
      [ | cbv [called];
          cbn [log set_log set_isDeviceOpened set_camHandle];
          rewrite <- app_assoc; cbn [app]; reflexivity ].
    reflexivity.
  - cbn [camHandle set_isDeviceOpened set_camHandle].
    apply Z.eqb_neq. exact E.
  - reflexivity.
  - exact Tx.
  - apply close_noop; [exact Tx | reflexivity].
Qed.

Lemma open_close_round_trip_witness :
  let c1 := final (open drv_open 7 cam_new) in
  isDeviceOpened cam_new = false /\
  isTransmitting cam_new = false /\
  open drv_open 7 cam_new = Return tt c1 /\
  steps cam_new (final (close drv_open c1)) =
    [dc1394_camera_new 7; dc1394_camera_free].
Proof.
  cbv zeta.
  assert (H0 : isDeviceOpened cam_new = false) by (vm_compute; reflexivity).
  assert (H1 : isTransmitting cam_new = false) by (vm_compute; reflexivity).
  assert (H2 : open drv_open 7 cam_new =
               Return tt (final (open drv_open 7 cam_new)))
    by (vm_compute; reflexivity).
  destruct (open_close_round_trip drv_open 7 cam_new _ H0 H1 H2)
    as [c2 [Hc [S _]]].
  split; [exact H0|]. split; [exact H1|]. split; [exact H2|].
  rewrite Hc. exact S.
Defined.

(** X4: the destructor frees the library handle exactly when its [close]
    returns, as its last native call and on [objHandle].  When [close]
    throws (its [stopAcquisition] failed) the exception leaves the
    destructor with neither the camera nor the library handle
    released. *)
Theorem destructor_outcome (drv : Driver) (c : Camera) :
  match close drv c with
  | Return _ c1 =>
      exists c2,
        destructor drv c = Return tt c2 /\
        steps c1 c2 = [dc1394_free] /\
        map ev_handle (since c1 c2) = [objHandle c]
  | Throw e c1 =>
      destructor drv c = Throw e c1 /\
      StopError e /\
      existsb is_release (steps c c1) = false
  end.
Proof.
  rewrite destructor_cases.
  destruct (close drv c) as [[] c1|e c1] eqn:H.
  - eexists. split; [reflexivity|].
    assert (O : objHandle c1 = objHandle c).
    { assert (P : preserves objHandle (close drv))
        by (unfold_members; frame).
      specialize (P c). rewrite H in P. exact P. }
    split.
    + eapply steps_calls; [ reflexivity | reflexivity ].
    + erewrite since_app; [ | reflexivity ]. cbn. rewrite O. reflexivity.
  - destruct (close_throw _ _ _ _ H) as [_ [Hs _]].
    split; [reflexivity|].
    destruct (stopAcquisition_throw _ _ _ _ Hs) as [SE _].
    split; [exact SE|].
    rewrite stopAcquisition_cases in Hs. cbv zeta in Hs.
    destruct (failed (err (recorded drv c dc1394_capture_stop))).
    + injection Hs as _ <-. rewrite steps_recorded. reflexivity.
    + destruct (failed _); [|discriminate].
      injection Hs as _ <-. rewrite steps_recorded2. reflexivity.
Qed.

(** ** [startAcquisition] *)

(** X5: a [startAcquisition] that returns has made exactly the calls
    [dc1394_capture_setup] with [cameraDmaCounts] and
    [dc1394_video_set_transmission(ON)], both successful; the object
    then counts as transmitting and nothing was released.  Conversely it
    returns whenever both calls succeed. *)
Theorem startAcquisition_return (drv : Driver) (dma : Z) (c : Camera) :
  let c1 := recorded drv c (dc1394_capture_setup dma) in
  let c2 := recorded drv c1 (dc1394_video_set_transmission DC1394_ON) in
  (forall c',
     startAcquisition drv dma c = Return tt c' ->
     failed (err c1) = false /\ failed (err c2) = false /\
     isTransmitting c' = true /\
     steps c c' = [dc1394_capture_setup dma;
                   dc1394_video_set_transmission DC1394_ON] /\
     released c' = released c /\
     isDeviceOpened c' = isDeviceOpened c) /\
  (failed (err c1) = false -> failed (err c2) = false ->
   exists c', startAcquisition drv dma c = Return tt c').
Proof.
  cbv zeta. rewrite startAcquisition_cases. cbv zeta.
  destruct (failed (err (recorded drv c (dc1394_capture_setup dma)))).
  - split; [discriminate|]. discriminate.
  - destruct (failed _).
    + split; [|discriminate].
      destruct (stopAcquisition drv _); discriminate.
    + split; [|eexists; reflexivity].
      intros c' H. injection H as <-.
      split; [reflexivity|]. split; [reflexivity|]. split; [reflexivity|].
      split; [apply steps_recorded2|]. split; [|reflexivity].
      unfold released. cbv [recorded called].
      cbn [log camHandle set_log set_err set_isTransmitting].
      rewrite !releases_snoc. reflexivity.
Qed.

Lemma startAcquisition_return_witness :
  failed (err (recorded drv_ok cam_open (dc1394_capture_setup 4))) = false /\
  failed (err (recorded drv_ok
                 (recorded drv_ok cam_open (dc1394_capture_setup 4))
                 (dc1394_video_set_transmission DC1394_ON))) = false /\
  exists c', startAcquisition drv_ok 4 cam_open = Return tt c' /\
             isTransmitting c' = true.
Proof.
  assert (H1 : failed (err (recorded drv_ok cam_open
                              (dc1394_capture_setup 4))) = false)
    by (vm_compute; reflexivity).
  assert (H2 : failed (err (recorded drv_ok
                 (recorded drv_ok cam_open (dc1394_capture_setup 4))
                 (dc1394_video_set_transmission DC1394_ON))) = false)
    by (vm_compute; reflexivity).
  destruct (startAcquisition_return drv_ok 4 cam_open) as [A B].
  destruct (B H1 H2) as [c' Hc].
  split; [exact H1|]. split; [exact H2|].
  exists c'. split; [exact Hc|]. apply (A c' Hc).
Defined.

(** X6: a [startAcquisition] that throws never leaves the object newly
    flagged as transmitting, and ends in one of three ways.  The capture
    setup failed: the camera is released at once.  The transmission did
    not start and the stop that follows returned: capture is stopped,
    the camera released, the object not transmitting.  The transmission
    did not start and that stop failed too: the stop's own error leaves,
    and the camera is not released. *)
Theorem startAcquisition_throw (drv : Driver) (dma : Z) (c c' : Camera)
        (e : exn) :
  startAcquisition drv dma c = Throw e c' ->
  isDeviceOpened c' = isDeviceOpened c /\
  (isTransmitting c' = true -> isTransmitting c = true) /\
  ((e = runtime_error "Failed to start the acquisition session" /\
    steps c c' = [dc1394_capture_setup dma; dc1394_camera_free] /\
    released c' = S (released c))
   \/
   (e = runtime_error "Failed to start isochronous transmission" /\
    steps c c' = [dc1394_capture_setup dma;
                  dc1394_video_set_transmission DC1394_ON;
                  dc1394_capture_stop;
                  dc1394_video_set_transmission DC1394_OFF;
                  dc1394_camera_free] /\
    released c' = S (released c) /\
    isTransmitting c' = false)
   \/
   (StopError e /\
    existsb is_release (steps c c') = false /\
    released c' = released c)).
Proof.
  intros H.
  assert (Op : isDeviceOpened c' = isDeviceOpened c).
  { pose proof (startAcquisition_isDeviceOpened drv dma c) as P.
    rewrite H in P. exact P. }
  split; [exact Op|].
  rewrite startAcquisition_cases in H. cbv zeta in H.
  set (c1 := recorded drv c (dc1394_capture_setup dma)) in *.
  set (c2 := recorded drv c1 (dc1394_video_set_transmission DC1394_ON)) in *.
  assert (R2 : released c2 = released c).
  { unfold released, c2, c1. cbv [recorded called].
    cbn [log camHandle set_log set_err]. rewrite !releases_snoc. reflexivity. }
  assert (L2 : log c2 = log c ++
                 [mkEvent (camHandle c) (dc1394_capture_setup dma)
                    (reply drv c (dc1394_capture_setup dma));
                  mkEvent (camHandle c)
                    (dc1394_video_set_transmission DC1394_ON)
                    (reply drv c1 (dc1394_video_set_transmission DC1394_ON))]).
  { unfold c2, c1. cbv [recorded called]. cbn [log set_log set_err camHandle].
    rewrite <- app_assoc. reflexivity. }
  destruct (failed (err c1)).
  - injection H as <- <-. split; [intros T; exact T|]. left.
    split; [reflexivity|]. split.
    + eapply steps_calls;
        [ unfold c1; cbv [recorded called];
          cbn [log set_log set_err camHandle];
          rewrite <- app_assoc; cbn [app]; reflexivity
        | reflexivity ].
    + rewrite released_called_free. unfold released, c1.
      cbv [recorded called]. cbn [log camHandle set_log set_err].
      rewrite releases_snoc. reflexivity.
  - destruct (failed (err c2)); [|discriminate].
    destruct (stopAcquisition drv c2) as [[] c3|e3 c3] eqn:Hs.
    + injection H as <- <-.
      pose proof (stopAcquisition_return _ _ _ Hs) as ->.
      split; [discriminate|]. right. left.
      split; [reflexivity|]. split; [|split; [|reflexivity]].
      * eapply steps_calls;
          [ cbv [recorded called] in L2 |- *;
            cbn [log set_log set_err set_isTransmitting camHandle] in L2 |- *;
            rewrite L2; rewrite <- !app_assoc; cbn [app]; reflexivity
          | reflexivity ].
      * rewrite released_called_free.
        pose proof (stopAcquisition_released drv c2) as P.
        rewrite Hs in P. cbn [final] in P. unfold same in P.
        rewrite P, R2. reflexivity.
    + injection H as <- <-.
      destruct (stopAcquisition_throw _ _ _ _ Hs) as [SE T].
      split; [rewrite T; intros T'; exact T'|]. right. right.
      split; [exact SE|].
      pose proof (stopAcquisition_released drv c2) as P.
      rewrite Hs in P. cbn [final] in P. unfold same in P.
      split; [|rewrite P; exact R2].
      rewrite stopAcquisition_cases in Hs. cbv zeta in Hs.
      destruct (failed (err (recorded drv c2 dc1394_capture_stop))).
      * injection Hs as _ <-.
        erewrite steps_calls;
          [ | cbv [recorded called]; cbn [log set_log set_err camHandle];
              rewrite L2; rewrite <- !app_assoc; cbn [app]; reflexivity
            | reflexivity ].
        reflexivity.
      * destruct (failed _); [|discriminate].
        injection Hs as _ <-.
        erewrite steps_calls;
          [ | cbv [recorded called]; cbn [log set_log set_err camHandle];
              rewrite L2; rewrite <- !app_assoc; cbn [app]; reflexivity
            | reflexivity ].
        reflexivity.
Qed.

Lemma startAcquisition_throw_witness :
  let drv := drv_bad (fun f => is_tx_on f || is_capture_stop f) in
  exists c',
    startAcquisition drv 4 cam_open =
      Throw (runtime_error "Failed to stop the acquisition session") c' /\
    isDeviceOpened c' = true /\
    released c' = 0%nat.
Proof.
  cbv zeta.
  assert (H : startAcquisition
                (drv_bad (fun f => is_tx_on f || is_capture_stop f)) 4 cam_open =
              Throw (runtime_error "Failed to stop the acquisition session")
                (final (startAcquisition
                          (drv_bad (fun f => is_tx_on f || is_capture_stop f))
                          4 cam_open)))
    by (vm_compute; reflexivity).
  destruct (startAcquisition_throw _ _ _ _ _ H) as [A _].
  eexists. split; [exact H|]. split; [rewrite A|]; vm_compute; reflexivity.
Defined.

(** ** Frames and the loop *)

(** X7: [grabFrame] returns exactly when neither its dequeue nor its
    enqueue fails.  The image returned is then the conversion of the
    frame the dequeue delivered, which is also what [frameHandle] holds,
    and the object is otherwise as before: same flags, same handle,
    nothing released. *)
Theorem grabFrame_returns (drv : Driver) (c : Camera) :
  (grab_failure drv c = None ->
   exists img c', grabFrame drv c = Return img c') /\
  (forall img c',
     grabFrame drv c = Return img c' ->
     grab_failure drv c = None /\
     img = dc1394frameToMat (out (reply drv c dc1394_capture_dequeue)) /\
     frameHandle c' = out (reply drv c dc1394_capture_dequeue) /\
     isTransmitting c' = isTransmitting c /\
     isDeviceOpened c' = isDeviceOpened c /\
     camHandle c' = camHandle c /\
     released c' = released c).
Proof.
  split.
  - unfold grab_failure. rewrite grabFrame_cases. cbv zeta.
    destruct (failed (err (dequeued drv c))); [discriminate|].
    destruct (failed (err (enqueued drv c))); [discriminate|].
    intros _. eexists. eexists. reflexivity.
  - intros img c' H.
    destruct (grabFrame_return _ _ _ _ H) as [-> [-> [Hd He]]].
    split; [unfold grab_failure; rewrite Hd, He; reflexivity|].
    split; [reflexivity|]. split; [reflexivity|]. split; [reflexivity|].
    split; [reflexivity|]. split; [reflexivity|].
    apply released_enqueued.
Qed.

Lemma grabFrame_returns_witness :
  grab_failure drv_ok cam_tx = None /\
  exists c',
    grabFrame drv_ok cam_tx = Return (dc1394frameToMat frame0) c' /\
    frameHandle c' = frame0.
Proof.
  assert (H : grab_failure drv_ok cam_tx = None) by (vm_compute; reflexivity).
  destruct (proj1 (grabFrame_returns drv_ok cam_tx) H) as [img [c' Hc]].
  destruct (proj2 (grabFrame_returns drv_ok cam_tx) img c' Hc)
    as [_ [Hi [Hf _]]].
  split; [exact H|]. exists c'. split; [|exact Hf].
  rewrite Hc, Hi. reflexivity.
Defined.

Lemma cvtColor_RGB2BGR_length (n : nat) :
  forall px, List.length px = (3 * n)%nat ->
             List.length (cvtColor_RGB2BGR px) = (3 * n)%nat.
Proof.
  induction n as [|n IH]; intros px H.
  - destruct px; [reflexivity | discriminate].
  - destruct px as [|r [|g [|b rest]]]; cbn in H; try lia.
    cbn [cvtColor_RGB2BGR List.length]. rewrite (IH rest); lia.
Qed.

Lemma cvtColor_RGB2BGR_pixel (n : nat) :
  forall px i,
    List.length px = (3 * n)%nat -> (i < n)%nat ->
    nth (3 * i) (cvtColor_RGB2BGR px) 0 = nth (3 * i + 2) px 0 /\
    nth (3 * i + 1) (cvtColor_RGB2BGR px) 0 = nth (3 * i + 1) px 0 /\
    nth (3 * i + 2) (cvtColor_RGB2BGR px) 0 = nth (3 * i) px 0.
Proof.
  induction n as [|n IH]; intros px i H Hi; [lia|].
  destruct px as [|r [|g [|b rest]]]; cbn in H; try lia.
  destruct i as [|i].
  - cbn. repeat split.
  - replace (3 * S i)%nat with (S (S (S (3 * i)))) by lia.
    cbn [cvtColor_RGB2BGR Nat.add nth].
    apply IH; lia.
Qed.

(** X8: for a frame whose image holds exactly width x height RGB pixels,
    [dc1394frameToMat] gives a matrix of the same size with as many
    bytes, in which every pixel has its first and third byte exchanged
    and its second kept. *)
Theorem dc1394frameToMat_pixels (frame : Frame) (w h : Z) (i : nat) :
  frame_size frame = (w, h) ->
  0 <= w -> 0 <= h ->
  List.length (image frame) = (3 * Z.to_nat (w * h))%nat ->
  (i < Z.to_nat (w * h))%nat ->
  let img := dc1394frameToMat frame in
  mat_size img = (w, h) /\
  List.length (data img) = (3 * Z.to_nat (w * h))%nat /\
  nth (3 * i) (data img) 0 = nth (3 * i + 2) (image frame) 0 /\
  nth (3 * i + 1) (data img) 0 = nth (3 * i + 1) (image frame) 0 /\
  nth (3 * i + 2) (data img) 0 = nth (3 * i) (image frame) 0.
Proof.
  intros Hs Hw Hh Hl Hi. cbv zeta. unfold dc1394frameToMat. rewrite Hs.
  cbn [mat_size data].
  assert (F : firstn (Z.to_nat (w * h * 3)) (image frame) = image frame).
  { apply firstn_all2. rewrite Hl.
    replace (w * h * 3) with (3 * (w * h)) by lia.
    rewrite Z2Nat.inj_mul by lia. change (Z.to_nat 3) with 3%nat. lia. }
  rewrite F. split; [reflexivity|].
  split; [apply cvtColor_RGB2BGR_length; exact Hl|].
  apply cvtColor_RGB2BGR_pixel with (n := Z.to_nat (w * h)); assumption.
Qed.

Lemma dc1394frameToMat_pixels_witness :
  frame_size frame0 = (2, 1) /\
  List.length (image frame0) = 6%nat /\
  data (dc1394frameToMat frame0) = [30; 20; 10; 60; 50; 40] /\
  nth 3 (data (dc1394frameToMat frame0)) 0 = nth 5 (image frame0) 0.
Proof.
  split; [reflexivity|]. split; [reflexivity|]. split; [reflexivity|].
  refine (proj1 (proj2 (proj2
            (dc1394frameToMat_pixels frame0 2 1 1 eq_refl _ _ eq_refl _)))).
  - lia.
  - lia.
  - cbn. lia.
Defined.

(** X9: run by one thread alone, [grabVideo] returns at once and without
    a native call when [isCapturingVideo] is clear, and never returns
    normally when it is set: the loop does not clear the flag itself, so
    it goes on until a [grabFrame] throws. *)
Theorem grabVideo_alone (drv : Driver) (fuel : nat) (c : Camera) :
  (isCapturingVideo c = false ->
   grabVideo drv (S fuel) c = Some (Return tt c)) /\
  (isCapturingVideo c = true ->
   forall c', grabVideo drv fuel c <> Some (Return tt c')) /\
  (forall e c',
     grabVideo drv fuel c = Some (Throw e c') ->
     FrameGrabError e \/ StopError e).
Proof.
  split; [|split].
  - intros H. cbn [grabVideo]. rewrite H. reflexivity.
  - revert c. induction fuel as [|n IH]; intros c H c'; cbn [grabVideo].
    + discriminate.
    + rewrite H.
      pose proof (grabVideo_body_isCapturingVideo drv c) as P.
      destruct (grabVideo_body drv c) as [[] c1|e c1]; [|discriminate].
      cbn [final] in P. unfold same in P. apply IH. congruence.
  - revert c. induction fuel as [|n IH]; intros c e c'; cbn [grabVideo].
    + discriminate.
    + destruct (isCapturingVideo c); [|discriminate].
      rewrite grabVideo_body_cases, grabFrame_cases. cbv zeta.
      destruct (failed (err (dequeued drv c))).
      * destruct (stopAcquisition drv _) as [[] c3|e3 c3] eqn:Hs;
          intros H; injection H as <- <-.
        -- left. left. reflexivity.
        -- right. apply (stopAcquisition_throw _ _ _ _ Hs).
      * destruct (failed (err (enqueued drv c))).
        -- destruct (stopAcquisition drv _) as [[] c3|e3 c3] eqn:Hs;
             intros H; injection H as <- <-.
           ++ left. right. reflexivity.
           ++ right. apply (stopAcquisition_throw _ _ _ _ Hs).
        -- apply IH.
Qed.

Lemma grabVideo_alone_witness :
  let c := set_isCapturingVideo true cam_tx in
  isCapturingVideo cam_tx = false /\
  grabVideo drv_ok 1 cam_tx = Some (Return tt cam_tx) /\
  isCapturingVideo c = true /\
  grabVideo drv_ok 6 c = None /\
  grabVideo (drv_bad is_enqueue) 6 c <> None.
Proof.
  cbv zeta.
  assert (H : isCapturingVideo cam_tx = false) by (vm_compute; reflexivity).
  split; [exact H|].
  split; [apply (proj1 (grabVideo_alone drv_ok 0 cam_tx) H)|].
  split; [reflexivity|].
  split; [vm_compute; reflexivity | vm_compute; discriminate].
Defined.

Lemma delivered_app (l1 l2 : list Event) :
  delivered (l1 ++ l2) = delivered l1 ++ delivered l2.
Proof. apply flat_map_app. Qed.

Lemma grabVideo_body_return (drv : Driver) (c c' : Camera) :
  grabVideo_body drv c = Return tt c' ->
  exists l,
    log c' = log c ++ l /\ List.length l = 2%nat /\
    delivered l = [out (reply drv c dc1394_capture_dequeue)] /\
    viewer c' = viewer c ++ map dc1394frameToMat (delivered l) /\
    (forall lent, fold_left track l lent = lent) /\
    isTransmitting c' = isTransmitting c /\
    released c' = released c.
Proof.
  rewrite grabVideo_body_cases.
  destruct (grabFrame drv c) as [img c1|e c1] eqn:E; [|discriminate].
  intros H. injection H as <-.
  destruct (grabFrame_return _ _ _ _ E) as [-> [-> [Hd He]]].
  destruct (grabFrame_return_log drv c Hd He) as [l [L [C T]]].
  exists l. cbn [log set_viewer viewer isTransmitting].
  split; [exact L|].
  assert (Hl : l = [mkEvent (camHandle c) dc1394_capture_dequeue
                      (reply drv c dc1394_capture_dequeue);
                    mkEvent (camHandle c)
                      (dc1394_capture_enqueue
                         (out (reply drv c dc1394_capture_dequeue)))
                      (reply drv (dequeued drv c)
                         (dc1394_capture_enqueue
                            (out (reply drv c dc1394_capture_dequeue))))]).
  { apply (app_inv_head (log c)). rewrite <- L.
    cbv [enqueued dequeued recorded called].
    cbn [log set_log set_err set_frameHandle frameHandle camHandle].
    rewrite <- app_assoc. reflexivity. }
  assert (D : delivered l = [out (reply drv c dc1394_capture_dequeue)]).
  { rewrite Hl. unfold delivered. cbn [flat_map ev_call ev_reply app].
    change (rc (reply drv c dc1394_capture_dequeue))
      with (err (dequeued drv c)).
    rewrite Hd. reflexivity. }
  split; [rewrite Hl; reflexivity|]. split; [exact D|].
  split; [rewrite D; reflexivity|]. split; [exact T|].
  split; [reflexivity|].
  change (released (set_viewer
                      (viewer (enqueued drv c) ++
                       [dc1394frameToMat (frameHandle (dequeued drv c))])
                      (enqueued drv c)))
    with (released (enqueued drv c)).
  apply released_enqueued.
Qed.

(** X10: after [k] complete rounds of the capture loop the viewer has
    been shown exactly the conversions of the [k] frames the dequeues
    delivered, in that order; the rounds made [2 k] native calls, left no
    buffer lent and released nothing. *)
Theorem rounds_show_delivered (drv : Driver) (k : nat) :
  forall c ck,
    rounds drv k c = Some ck ->
    viewer ck = viewer c ++ map dc1394frameToMat (delivered (since c ck)) /\
    List.length (delivered (since c ck)) = k /\
    List.length (since c ck) = (2 * k)%nat /\
    outstanding (since c ck) = [] /\
    isTransmitting ck = isTransmitting c /\
    released ck = released c.
Proof.
  assert (G : forall c ck,
             rounds drv k c = Some ck ->
             exists l,
               log ck = log c ++ l /\
               viewer ck = viewer c ++ map dc1394frameToMat (delivered l) /\
               List.length (delivered l) = k /\
               List.length l = (2 * k)%nat /\
               (forall lent, fold_left track l lent = lent) /\
               isTransmitting ck = isTransmitting c /\
               released ck = released c).
  { induction k as [|k IH]; intros c ck; cbn [rounds].
    - intros H. injection H as <-. exists [].
      split; [symmetry; apply app_nil_r|].
      split; [symmetry; apply app_nil_r|]. repeat split.
    - destruct (grabVideo_body drv c) as [[] c1|e c1] eqn:E; [|discriminate].
      intros H.
      destruct (grabVideo_body_return _ _ _ E)
        as [l1 [L1 [N1 [D1 [V1 [T1 [X1 R1]]]]]]].
      destruct (IH _ _ H) as [l2 [L2 [V2 [D2 [N2 [T2 [X2 R2]]]]]]].
      exists (l1 ++ l2).
      split; [rewrite L2, L1; symmetry; apply app_assoc|].
      split; [rewrite V2, V1, delivered_app, map_app; symmetry;
              apply app_assoc|].
      split; [rewrite delivered_app, length_app, D1, D2; reflexivity|].
      split; [rewrite length_app, N1, N2; lia|].
      split; [intros lent; rewrite fold_left_app, T1; apply T2|].
      split; congruence. }
  intros c ck H.
  destruct (G c ck H) as [l [L [V [D [N [T [X R]]]]]]].
  rewrite (since_app _ _ _ L).
  split; [exact V|]. split; [exact D|]. split; [exact N|].
  split; [unfold outstanding; apply T|]. split; assumption.
Qed.

Lemma rounds_show_delivered_witness :
  let c := set_isCapturingVideo true cam_tx in
  exists ck,
    rounds drv_ok 3 c = Some ck /\
    viewer ck = repeat (dc1394frameToMat frame0) 3 /\
    List.length (since c ck) = 6%nat.
Proof.
  cbv zeta.
  assert (H : rounds drv_ok 3 (set_isCapturingVideo true cam_tx) =
              Some (final (grabVideo_body drv_ok
                     (final (grabVideo_body drv_ok
                        (final (grabVideo_body drv_ok
                           (set_isCapturingVideo true cam_tx))))))))
    by (vm_compute; reflexivity).
  destruct (rounds_show_delivered drv_ok 3 _ _ H) as [_ [_ [N _]]].
  eexists. split; [exact H|]. split; [vm_compute; reflexivity | exact N].
Defined.

(** ** After the flag is cleared *)

Lemma run_op_dequeues (drv : Driver) (dma : Z) (op : Op) :
  preserves dequeues (run_op drv dma op).
Proof.
  destruct op; cbn [run_op];
    [ apply setParameter_respects; [exact _ | | intros p] | | | ];
    unfold_members;
    frame_with ltac:(first [ unfold same; reflexivity
                           | unfold same, dequeues, calls; cbn [log set_log];
                             rewrite map_app, filter_app, length_app;
                             cbn; lia ]).
Qed.

Lemma stopAcquisition_dequeues (drv : Driver) :
  preserves dequeues (stopAcquisition drv).
Proof. exact (run_op_dequeues drv 0 OpStopAcquisition). Qed.

Lemma dequeues_snoc (c : Camera) (l : list Event) (e : Event) :
  dequeues (set_log (l ++ [e]) c) =
  (List.length (filter is_dequeue (calls l)) +
   if is_dequeue (ev_call e) then 1 else 0)%nat.
Proof.
  unfold dequeues, calls. cbn [log set_log].
  rewrite map_app, filter_app, length_app. cbn [map filter].
  destruct (is_dequeue (ev_call e)); reflexivity.
Qed.

(** Every call of [grabFrame] makes one call of
    [dc1394_capture_dequeue], whatever comes of it. *)
Lemma grabFrame_dequeues (drv : Driver) (c : Camera) :
  dequeues (final (grabFrame drv c)) = S (dequeues c).
Proof.
  assert (D : dequeues (dequeued drv c) = S (dequeues c)).
  { unfold dequeued, recorded, called, dequeues, calls.
    cbn [log set_log set_err set_frameHandle].
    rewrite map_app, filter_app, length_app. cbn. lia. }
  assert (E : dequeues (enqueued drv c) = S (dequeues c)).
  { rewrite <- D. unfold enqueued, recorded, called, dequeues, calls.
    cbn [log set_log set_err set_frameHandle].
    rewrite map_app, filter_app, length_app. cbn. lia. }
  assert (F : forall c0, dequeues (called drv c0 dc1394_camera_free) =
                         dequeues c0).
  { intros c0. unfold called, dequeues, calls. cbn [log set_log].
    rewrite map_app, filter_app, length_app. cbn. lia. }
  rewrite grabFrame_cases. cbv zeta.
  destruct (failed (err (dequeued drv c))).
  - pose proof (stopAcquisition_dequeues drv (dequeued drv c)) as P.
    unfold same in P.
    destruct (stopAcquisition drv (dequeued drv c)) as [[] c2|e c2];
      cbn [final] in *; rewrite ?F; congruence.
  - destruct (failed (err (enqueued drv c))).
    + pose proof (stopAcquisition_dequeues drv (enqueued drv c)) as P.
      unfold same in P.
      destruct (stopAcquisition drv (enqueued drv c)) as [[] c2|e c2];
        cbn [final] in *; rewrite ?F; congruence.
    + exact E.
Qed.

(** The flag is clear and, outside [stopCaptureVideo], there is no
    thread to join: what the capture thread has still to show and to grab
    only shrinks. *)
Lemma winding_down_turn (drv : Driver) (dma : Z) (p : Process) (t : Turn) :
  isCapturingVideo (cam p) = false ->
  (ctl p = Idle -> joinable (videoThread p) = false) ->
  is_start t = false ->
  let q := turn drv dma p t in
  isCapturingVideo (cam q) = false /\
  (ctl q = Idle -> joinable (videoThread q) = false) /\
  (List.length (viewer (cam q)) + to_show q <=
   List.length (viewer (cam p)) + to_show p)%nat /\
  (dequeues (cam q) + in_flight q = dequeues (cam p) + in_flight p)%nat.
Proof.
  intros F J S. cbv zeta. unfold turn, next.
  destruct p as [c ct w tm]. cbn [cam ctl videoThread terminated] in *.
  destruct tm as [a|]; [cbn; repeat split; try assumption; lia|].
  destruct t as [| | |op]; try discriminate S.
  - unfold worker_step. cbn [cam ctl videoThread terminated].
    destruct w as [| | |img| | |];
      try (cbn; repeat split; try assumption; lia).
    + rewrite F. cbn. split; [exact F|]. split; [|split; lia].
      intros C. specialize (J C). discriminate J.
    + pose proof (grabFrame_isCapturingVideo drv c) as P1.
      pose proof (grabFrame_viewer drv c) as P2.
      pose proof (grabFrame_dequeues drv c) as P3.
      unfold same in P1, P2.
      destruct (grabFrame drv c) as [img c1|e c1]; cbn [final] in *;
        unfold to_show, in_flight;
        cbn [cam ctl videoThread terminated].
      * split; [congruence|]. split; [|split; [rewrite P2; lia | lia]].
        intros C. specialize (J C). discriminate J.
      * split; [congruence|]. split; [|split; [rewrite P2; lia | lia]].
        intros C. specialize (J C). discriminate J.
    + cbn. split; [exact F|]. split; [|split; [|reflexivity]].
      * intros C. specialize (J C). discriminate J.
      * rewrite length_app. cbn. lia.
  - unfold stopCaptureVideo. cbn [cam ctl videoThread terminated].
    destruct ct.
    + rewrite (J eq_refl). cbn.
      split; [reflexivity|]. split; [intros _; exact (J eq_refl)|].
      split; [apply Nat.le_refl | reflexivity].
    + destruct w; cbn; repeat split; try assumption; try lia;
        try (intros C; discriminate C).
  - destruct ct.
    + unfold control_call. cbn [cam ctl videoThread terminated].
      pose proof (run_op_isCapturingVideo drv dma op c) as P1.
      pose proof (run_op_viewer drv dma op c) as P2.
      pose proof (run_op_dequeues drv dma op c) as P3.
      unfold same in P1, P2, P3.
      split; [congruence|]. split; [exact J|].
      unfold to_show, in_flight. cbn [cam ctl videoThread terminated].
      split; [rewrite P2; lia | rewrite P3; lia].
    + cbn. repeat split; try assumption; lia.
Qed.

Lemma winding_down_run (drv : Driver) (dma : Z) (more : list Turn) :
  forall p,
    isCapturingVideo (cam p) = false ->
    (ctl p = Idle -> joinable (videoThread p) = false) ->
    existsb is_start more = false ->
    let q := run drv dma more p in
    (List.length (viewer (cam q)) + to_show q <=
     List.length (viewer (cam p)) + to_show p)%nat /\
    (dequeues (cam q) + in_flight q = dequeues (cam p) + in_flight p)%nat.
Proof.
  unfold run.
  induction more as [|t more IH]; intros p F J S; cbn [fold_left].
  - split; [lia | reflexivity].
  - cbn [existsb] in S. apply orb_false_iff in S. destruct S as [S1 S2].
    destruct (winding_down_turn drv dma p t F J S1) as [F' [J' [V' D']]].
    destruct (IH _ F' J' S2) as [V'' D''].
    cbv zeta in *. split; [lia | congruence].
Qed.

(** X11: from the moment [stopCaptureVideo] has cleared the flag, and
    for as long as [startCaptureVideo] is not called again, the capture
    thread starts no new round: it completes the [grabFrame] that is in
    flight, if there is one, and shows the image it has in hand or gets
    from that call.  So at most one more frame is dequeued, and only by a
    call entered before the flag was cleared, and at most one more image
    is shown. *)
Theorem stop_shows_at_most_one_more (drv : Driver) (dma : Z) (c : Camera)
        (sched more : list Turn) :
  let p := run drv dma sched (boot c) in
  let q := run drv dma more p in
  ctl p = Joining ->
  existsb is_start more = false ->
  (List.length (viewer (cam q)) + to_show q <=
   List.length (viewer (cam p)) + to_show p)%nat /\
  (dequeues (cam q) + in_flight q = dequeues (cam p) + in_flight p)%nat /\
  (to_show p <= 1)%nat /\
  (in_flight p = 1%nat <-> videoThread p = Grabbing /\ terminated p = None).
Proof.
  cbv zeta. intros C S.
  pose proof (thread_inv_run drv dma sched (boot c) (boot_inv c)) as I.
  unfold thread_inv in I. rewrite C in I. destruct I as [F _].
  destruct (winding_down_run drv dma more _ F) as [V D]; [ | exact S | ].
  - rewrite C. discriminate.
  - cbv zeta in V, D. split; [exact V|]. split; [exact D|].
    unfold to_show, in_flight.
    destruct (terminated (run drv dma sched (boot c)));
      destruct (videoThread (run drv dma sched (boot c)));
      (split; [lia|]); split; try discriminate; try (intros [? ?]; discriminate);
      try (intros _; split; reflexivity); reflexivity.
Qed.

Lemma stop_shows_at_most_one_more_witness :
  let p := run drv_ok 4 [Start; Worker; Stop] (boot cam_tx) in
  let q := run drv_ok 4 [Worker; Worker; Worker; Worker; Stop; Worker] p in
  ctl p = Joining /\
  videoThread p = Grabbing /\
  List.length (viewer (cam p)) = 0%nat /\
  dequeues (cam p) = 0%nat /\
  (List.length (viewer (cam q)) <= 1)%nat /\
  dequeues (cam q) = 1%nat /\
  List.length (viewer (cam q)) = 1%nat.
Proof.
  cbv zeta.
  assert (H : ctl (run drv_ok 4 [Start; Worker; Stop] (boot cam_tx)) = Joining)
    by (vm_compute; reflexivity).
  assert (V : List.length (viewer (cam (run drv_ok 4 [Start; Worker; Stop]
                                            (boot cam_tx)))) = 0%nat)
    by (vm_compute; reflexivity).
  assert (D : dequeues (cam (run drv_ok 4 [Start; Worker; Stop]
                                 (boot cam_tx))) = 0%nat)
    by (vm_compute; reflexivity).
  destruct (stop_shows_at_most_one_more drv_ok 4 cam_tx [Start; Worker; Stop]
              [Worker; Worker; Worker; Worker; Stop; Worker] H eq_refl)
    as [A [B [T _]]].
  split; [exact H|]. split; [vm_compute; reflexivity|].
  split; [exact V|]. split; [exact D|].
  split; [rewrite V in A; lia|].
  split; vm_compute; reflexivity.
Defined.

Lemma turn_at_loop_head (drv : Driver) (dma : Z) (c : Camera) (ct : control) :
  isCapturingVideo c = false ->
  turn drv dma (mkProcess c ct AtLoopHead None) Worker =
  mkProcess c ct Exited None.
Proof.
  intros F. unfold turn, next, worker_step.
  cbn [cam ctl videoThread terminated]. rewrite F. reflexivity.
Qed.

Lemma turn_grabbing (drv : Driver) (dma : Z) (c : Camera) (ct : control) :
  turn drv dma (mkProcess c ct Grabbing None) Worker =
  match grabFrame drv c with
  | Return img c' => mkProcess c' ct (Grabbed img) None
  | Throw e c' => mkProcess c' ct Grabbing (Some (uncaught e))
  end.
Proof.
  unfold turn, next, worker_step. cbn [cam ctl videoThread terminated].
  destruct (grabFrame drv c); reflexivity.
Qed.

Lemma turn_grabbed (drv : Driver) (dma : Z) (c : Camera) (ct : control)
      (img : Mat) :
  turn drv dma (mkProcess c ct (Grabbed img) None) Worker =
  mkProcess (set_viewer (viewer c ++ [img]) c) ct Sleeping None.
Proof. reflexivity. Qed.

Lemma turn_sleeping (drv : Driver) (dma : Z) (c : Camera) (ct : control) :
  turn drv dma (mkProcess c ct Sleeping None) Worker =
  mkProcess c ct AtLoopHead None.
Proof. reflexivity. Qed.

Lemma turn_exited (drv : Driver) (dma : Z) (c : Camera) (ct : control) :
  turn drv dma (mkProcess c ct Exited None) Worker =
  mkProcess c ct Exited None.
Proof. reflexivity. Qed.

Lemma turn_join (drv : Driver) (dma : Z) (c : Camera) :
  turn drv dma (mkProcess c Joining Exited None) Stop =
  mkProcess c Idle Joined None.
Proof. reflexivity. Qed.

(** While the control thread waits in [join] for a [grabFrame] in
    flight, only the capture thread can move; when that call throws, the
    first turn of the capture thread ends the program. *)
Lemma join_blocked (drv : Driver) (dma : Z) (c c' : Camera) (e : exn)
      (more : list Turn) :
  grabFrame drv c = Throw e c' ->
  run drv dma more (mkProcess c Joining Grabbing None) =
  if existsb is_worker more
  then mkProcess c' Joining Grabbing (Some (uncaught e))
  else mkProcess c Joining Grabbing None.
Proof.
  intros G. induction more as [|t more IH]; [reflexivity|].
  unfold run in *. cbn [fold_left existsb].
  destruct t as [| | |op]; cbn [is_worker orb].
  - rewrite turn_grabbing, G.
    apply (run_terminated drv dma more _ (uncaught e)). reflexivity.
  - exact IH.
  - exact IH.
  - exact IH.
Qed.

(** X12: once [stopCaptureVideo] has cleared the flag and waits in
    [join], the capture thread has at most the [grabFrame] in flight to
    complete and one image to show.  Where that call returns, or none is
    in flight, four turns of the capture thread are enough for its
    function to return and [join] then returns; the native calls made on
    the way are those of the call in flight.  Where the call in flight
    throws, the first turn of the capture thread ends the program, with
    the flag clear, and under no schedule does [join] return. *)
Theorem join_after_grab_in_flight (drv : Driver) (dma : Z) (c : Camera)
        (sched : list Turn) :
  let p := run drv dma sched (boot c) in
  let q := run drv dma [Worker; Worker; Worker; Worker; Stop] p in
  ctl p = Joining ->
  terminated p = None ->
  match videoThread p with
  | Grabbing =>
      match grabFrame drv (cam p) with
      | Return img c' =>
          ctl q = Idle /\ videoThread q = Joined /\ terminated q = None /\
          log (cam q) = log c' /\
          viewer (cam q) = viewer (cam p) ++ [img]
      | Throw e c' =>
          forall more,
            let r := run drv dma more p in
            ctl r = Joining /\
            isCapturingVideo (cam r) = false /\
            (existsb is_worker more = true ->
             terminated r = Some (uncaught e) /\ cam r = c') /\
            (existsb is_worker more = false -> r = p)
      end
  | _ =>
      ctl q = Idle /\ videoThread q = Joined /\ terminated q = None /\
      log (cam q) = log (cam p) /\
      (List.length (viewer (cam q)) <=
       S (List.length (viewer (cam p))))%nat
  end.
Proof.
  cbv zeta. intros C T.
  pose proof (thread_inv_run drv dma sched (boot c) (boot_inv c)) as I.
  unfold thread_inv in I. rewrite C in I. destruct I as [F J].
  destruct (run drv dma sched (boot c)) as [c0 ct w tm].
  cbn [cam ctl videoThread terminated] in *. subst ct tm.
  destruct w as [| | |img| | |]; try discriminate J.
  - unfold run. cbn [fold_left].
    rewrite (turn_at_loop_head drv dma c0 Joining F).
    rewrite !turn_exited, turn_join. cbn [cam ctl videoThread terminated].
    split; [reflexivity|]. split; [reflexivity|]. split; [reflexivity|].
    split; [reflexivity | lia].
  - pose proof (grabFrame_isCapturingVideo drv c0) as P1.
    pose proof (grabFrame_viewer drv c0) as P2.
    unfold same in P1, P2.
    destruct (grabFrame drv c0) as [img c1|e c1] eqn:G; cbn [final] in *.
    + unfold run. cbn [fold_left].
      rewrite turn_grabbing, G, turn_grabbed, turn_sleeping.
      rewrite turn_at_loop_head
        by (cbn [isCapturingVideo set_viewer]; congruence).
      rewrite turn_join. cbn [cam ctl videoThread terminated].
      split; [reflexivity|]. split; [reflexivity|]. split; [reflexivity|].
      split; [reflexivity|]. cbn [viewer set_viewer]. rewrite P2. reflexivity.
    + intros more. rewrite (join_blocked drv dma c0 c1 e more G).
      destruct (existsb is_worker more);
        cbn [cam ctl videoThread terminated].
      * split; [reflexivity|]. split; [congruence|].
        split; [intros _; split; reflexivity | discriminate].
      * split; [reflexivity|]. split; [exact F|].
        split; [discriminate | reflexivity].
  - unfold run. cbn [fold_left].
    rewrite turn_grabbed, turn_sleeping.
    rewrite turn_at_loop_head by exact F.
    rewrite turn_exited, turn_join. cbn [cam ctl videoThread terminated].
    split; [reflexivity|]. split; [reflexivity|]. split; [reflexivity|].
    split; [reflexivity|]. cbn [viewer set_viewer].
    rewrite length_app. cbn. lia.
  - unfold run. cbn [fold_left].
    rewrite turn_sleeping.
    rewrite (turn_at_loop_head drv dma c0 Joining F).
    rewrite !turn_exited, turn_join. cbn [cam ctl videoThread terminated].
    split; [reflexivity|]. split; [reflexivity|]. split; [reflexivity|].
    split; [reflexivity | lia].
  - unfold run. cbn [fold_left].
    rewrite !turn_exited, turn_join. cbn [cam ctl videoThread terminated].
    split; [reflexivity|]. split; [reflexivity|]. split; [reflexivity|].
    split; [reflexivity | lia].
Qed.

Lemma join_after_grab_in_flight_witness :
  let p := run drv_ok 4 [Start; Worker; Stop] (boot cam_tx) in
  let q := run drv_ok 4 [Worker; Worker; Worker; Worker; Stop] p in
  let p' := run (drv_bad is_dequeue) 4 [Start; Worker; Stop] (boot cam_tx) in
  let r := run (drv_bad is_dequeue) 4 [Stop; Worker; Stop] p' in
  (ctl p = Joining /\ terminated p = None /\ videoThread p = Grabbing /\
   ctl q = Idle /\ videoThread q = Joined /\
   viewer (cam q) = [dc1394frameToMat frame0]) /\
  (ctl p' = Joining /\ terminated p' = None /\ videoThread p' = Grabbing /\
   ctl r = Joining /\
   terminated r = Some (uncaught (runtime_error "Failed to grab a frame")) /\
   isCapturingVideo (cam r) = false).
Proof.
  cbv zeta. split.
  - assert (H1 : ctl (run drv_ok 4 [Start; Worker; Stop] (boot cam_tx)) =
                 Joining) by (vm_compute; reflexivity).
    assert (H2 : terminated (run drv_ok 4 [Start; Worker; Stop]
                                 (boot cam_tx)) = None)
      by (vm_compute; reflexivity).
    pose proof (join_after_grab_in_flight drv_ok 4 cam_tx
                  [Start; Worker; Stop] H1 H2) as K.
    cbv zeta in K.
    assert (W : run drv_ok 4 [Start; Worker; Stop] (boot cam_tx) =
                mkProcess (set_isCapturingVideo false
                             (set_isCapturingVideo true cam_tx))
                          Joining Grabbing None)
      by (vm_compute; reflexivity).
    rewrite W in K |- *. cbn [videoThread cam] in K.
    assert (G : grabFrame drv_ok
                  (set_isCapturingVideo false
                     (set_isCapturingVideo true cam_tx)) =
                Return (dc1394frameToMat frame0)
                  (final (grabFrame drv_ok
                     (set_isCapturingVideo false
                        (set_isCapturingVideo true cam_tx)))))
      by (vm_compute; reflexivity).
    rewrite G in K. destruct K as [A [B [_ [_ V]]]].
    split; [reflexivity|]. split; [reflexivity|]. split; [reflexivity|].
    split; [exact A|]. split; [exact B|].
    rewrite V. vm_compute. reflexivity.
  - assert (H1 : ctl (run (drv_bad is_dequeue) 4 [Start; Worker; Stop]
                          (boot cam_tx)) = Joining)
      by (vm_compute; reflexivity).
    assert (H2 : terminated (run (drv_bad is_dequeue) 4 [Start; Worker; Stop]
                                 (boot cam_tx)) = None)
      by (vm_compute; reflexivity).
    pose proof (join_after_grab_in_flight (drv_bad is_dequeue) 4 cam_tx
                  [Start; Worker; Stop] H1 H2) as K.
    cbv zeta in K.
    assert (W : run (drv_bad is_dequeue) 4 [Start; Worker; Stop] (boot cam_tx) =
                mkProcess (set_isCapturingVideo false
                             (set_isCapturingVideo true cam_tx))
                          Joining Grabbing None)
      by (vm_compute; reflexivity).
    rewrite W in K |- *. cbn [videoThread cam] in K.
    assert (G : grabFrame (drv_bad is_dequeue)
                  (set_isCapturingVideo false
                     (set_isCapturingVideo true cam_tx)) =
                Throw (runtime_error "Failed to grab a frame")
                  (final (grabFrame (drv_bad is_dequeue)
                     (set_isCapturingVideo false
                        (set_isCapturingVideo true cam_tx)))))
      by (vm_compute; reflexivity).
    rewrite G in K.
    destruct (K [Stop; Worker; Stop]) as [A [B [D _]]].
    destruct (D eq_refl) as [D1 _].
    split; [reflexivity|]. split; [reflexivity|]. split; [reflexivity|].
    split; [exact A|]. split; [exact D1 | exact B].
Defined.

(** ** [setParameter], call by call *)

Lemma applyParameter_return_log (drv : Driver) (p : Parameters)
      (c c' : Camera) :
  applyParameter drv p c = Return tt c' ->
  is_known p = true /\
  exists l, log c' = log c ++ l /\ calls l = setter p.
Proof.
  destruct p;
    cbv [applyParameter dc_err dc freeCamera bind get put native throw ret];
    cbn [err set_err]; try discriminate;
    destruct (failed _); try discriminate;
    intros H; injection H as <-;
    (split; [reflexivity|]); eexists; split; reflexivity.
Qed.

Lemma applyParameter_throw_log (drv : Driver) (p : Parameters)
      (c c' : Camera) (e : exn) :
  applyParameter drv p c = Throw e c' ->
  exists l,
    log c' = log c ++ l /\
    calls l = setter p ++
              match p with
              | Resolution _ _ _ _ | FrameRate _ => [dc1394_camera_free]
              | BusSpeed _ | Unknown _ => []
              end.
Proof.
  destruct p;
    cbv [applyParameter dc_err dc freeCamera bind get put native throw ret];
    cbn [err set_err camHandle set_log log];
    try (destruct (failed _); [|discriminate]);
    intros H; injection H as _ <-; cbn [log set_log set_err].
  - eexists. split; reflexivity.
  - eexists. split; [rewrite <- app_assoc; reflexivity | reflexivity].
  - eexists. split; [rewrite <- app_assoc; reflexivity | reflexivity].
  - exists []. split; [symmetry; apply app_nil_r | reflexivity].
Qed.

Lemma applyParameters_return_log (drv : Driver) (ps : list Parameters) :
  forall c c',
    applyParameters drv ps c = Return tt c' ->
    forallb is_known ps = true /\
    exists l, log c' = log c ++ l /\ calls l = setters ps.
Proof.
  induction ps as [|p rest IH]; intros c c'; cbn [applyParameters].
  - intros H. injection H as <-. split; [reflexivity|].
    exists []. split; [symmetry; apply app_nil_r | reflexivity].
  - unfold bind. destruct (applyParameter drv p c) as [[] c0|e c0] eqn:E;
      [|discriminate].
    intros H.
    destruct (applyParameter_return_log _ _ _ _ E) as [K [l1 [L1 C1]]].
    destruct (IH _ _ H) as [K' [l2 [L2 C2]]].
    split; [cbn [forallb]; rewrite K, K'; reflexivity|].
    exists (l1 ++ l2). split.
    + rewrite L2, L1. symmetry. apply app_assoc.
    + unfold calls, setters in *. cbn [flat_map].
      rewrite map_app, C1, C2. reflexivity.
Qed.

Lemma applyParameters_throw_split (drv : Driver) (ps : list Parameters) :
  forall c c' e,
    applyParameters drv ps c = Throw e c' ->
    exists pre p post c1,
      ps = pre ++ p :: post /\
      applyParameters drv pre c = Return tt c1 /\
      applyParameter drv p c1 = Throw e c'.
Proof.
  induction ps as [|p rest IH]; intros c c' e; cbn [applyParameters].
  - discriminate.
  - unfold bind. destruct (applyParameter drv p c) as [[] c0|e0 c0] eqn:E.
    + intros H. destruct (IH _ _ _ H) as [pre [q [post [c1 [P [R T]]]]]].
      exists (p :: pre), q, post, c1. split; [rewrite P; reflexivity|].
      split; [|exact T]. cbn [applyParameters]. unfold bind.
      rewrite E. exact R.
    + intros H. injection H as <- <-.
      exists [], p, rest, c. repeat split. exact E.
Qed.

Lemma forceStop_return (drv : Driver) (c : Camera) :
  forceStop drv c =
  Return tt (called drv (called drv c (dc1394_video_set_transmission DC1394_OFF))
                    dc1394_capture_stop).
Proof. reflexivity. Qed.

(** X13: a [setParameter] that returns has made the two stop calls and
    then exactly one native setter per parameter, in the order of the
    list, which holds no unknown tag; it released nothing and changed
    neither flag. *)
Theorem setParameter_applies_in_order (drv : Driver) (ps : list Parameters)
        (c c' : Camera) :
  setParameter drv ps c = Return tt c' ->
  steps c c' = dc1394_video_set_transmission DC1394_OFF ::
               dc1394_capture_stop :: setters ps /\
  forallb is_known ps = true /\
  released c' = released c /\
  isTransmitting c' = isTransmitting c /\
  isDeviceOpened c' = isDeviceOpened c.
Proof.
  intros H.
  pose proof (setParameter_return _ _ _ _ H) as R.
  pose proof (setParameter_isTransmitting drv ps c) as T.
  pose proof (setParameter_isDeviceOpened drv ps c) as O.
  rewrite H in T, O. cbn [final] in T, O. unfold same in T, O.
  unfold setParameter, bind in H. rewrite forceStop_return in H.
  destruct (applyParameters_return_log _ _ _ _ H) as [K [l [L C]]].
  split; [|repeat split; assumption].
  eapply steps_calls;
    [ rewrite L; cbv [called]; cbn [log set_log];
      rewrite <- !app_assoc; cbn [app]; reflexivity
    | cbn [calls map ev_call]; fold (calls l); rewrite C; reflexivity ].
Qed.

Lemma setParameter_applies_in_order_witness :
  let ps := [BusSpeed 2; Resolution 0 0 640 480; FrameRate 32] in
  exists c',
    setParameter drv_ok ps cam_open = Return tt c' /\
    steps cam_open c' =
      [dc1394_video_set_transmission DC1394_OFF; dc1394_capture_stop;
       dc1394_video_set_iso_speed 2; dc1394_format7_set_roi 0 0 640 480;
       dc1394_video_set_framerate 32].
Proof.
  cbv zeta.
  assert (H : setParameter drv_ok
                [BusSpeed 2; Resolution 0 0 640 480; FrameRate 32] cam_open =
              Return tt (final (setParameter drv_ok
                [BusSpeed 2; Resolution 0 0 640 480; FrameRate 32] cam_open)))
    by (vm_compute; reflexivity).
  eexists. split; [exact H|].
  apply (setParameter_applies_in_order _ _ _ _ H).
Defined.

(** X14: a [setParameter] that throws has applied a prefix of the list
    without error and failed on the parameter after it: the two stop
    calls never make it fail, no parameter after the failing one is
    applied and none before it is undone.  The calls made are the stop
    calls, the setters up to the failing parameter and, for [Resolution]
    and [FrameRate], the release of the camera. *)
Theorem setParameter_stops_at_failure (drv : Driver) (ps : list Parameters)
        (c c' : Camera) (e : exn) :
  setParameter drv ps c = Throw e c' ->
  exists pre p post c1,
    ps = pre ++ p :: post /\
    setParameter drv pre c = Return tt c1 /\
    applyParameter drv p c1 = Throw e c' /\
    steps c c' =
      dc1394_video_set_transmission DC1394_OFF :: dc1394_capture_stop ::
      setters pre ++ setter p ++
      match p with
      | Resolution _ _ _ _ | FrameRate _ => [dc1394_camera_free]
      | BusSpeed _ | Unknown _ => []
      end.
Proof.
  intros H. unfold setParameter, bind in H. rewrite forceStop_return in H.
  destruct (applyParameters_throw_split _ _ _ _ _ H)
    as [pre [p [post [c1 [P [R T]]]]]].
  exists pre, p, post, c1. split; [exact P|].
  split; [unfold setParameter, bind; rewrite forceStop_return; exact R|].
  split; [exact T|].
  destruct (applyParameters_return_log _ _ _ _ R) as [_ [l1 [L1 C1]]].
  destruct (applyParameter_throw_log _ _ _ _ _ T) as [l2 [L2 C2]].
  eapply steps_calls;
    [ rewrite L2, L1; cbv [called]; cbn [log set_log];
      rewrite <- !app_assoc; cbn [app]; reflexivity
    | cbn [calls map ev_call]; fold (calls (l1 ++ l2));
      unfold calls in *; rewrite map_app, C1, C2; reflexivity ].
Qed.

Lemma setParameter_stops_at_failure_witness :
  let ps := [BusSpeed 2; Unknown 99; FrameRate 32] in
  exists c',
    setParameter drv_ok ps cam_open =
      Throw (out_of_range "Unknown camera parameter") c' /\
    steps cam_open c' =
      [dc1394_video_set_transmission DC1394_OFF; dc1394_capture_stop;
       dc1394_video_set_iso_speed 2].
Proof.
  cbv zeta.
  assert (H : setParameter drv_ok [BusSpeed 2; Unknown 99; FrameRate 32]
                cam_open =
              Throw (out_of_range "Unknown camera parameter")
                (final (setParameter drv_ok
                          [BusSpeed 2; Unknown 99; FrameRate 32] cam_open)))
    by (vm_compute; reflexivity).
  destruct (setParameter_stops_at_failure _ _ _ _ _ H)
    as [pre [p [post [c1 [_ _]]]]].
  eexists. split; [exact H|]. vm_compute. reflexivity.
Defined.

(** ** [listDevices] *)

Lemma push_guids_map (cameras : dc1394camera_list_t) (todo : nat) :
  forall i deviceList,
    (i + todo <= List.length (ids cameras))%nat ->
    push_guids cameras i todo deviceList =
    deviceList ++ map guid (firstn todo (skipn i (ids cameras))).
Proof.
  induction todo as [|todo IH]; intros i acc H; cbn [push_guids].
  - cbn. symmetry. apply app_nil_r.
  - rewrite IH by lia. rewrite <- app_assoc. f_equal.
    assert (S : exists x rest, skipn i (ids cameras) = x :: rest /\
                               nth i (ids cameras) (mkCameraId 0 0) = x /\
                               skipn (S i) (ids cameras) = rest).
    { clear IH. revert i H. induction (ids cameras) as [|x l IHl];
        intros i H; cbn in H; [lia|].
      destruct i as [|i].
      - exists x, l. repeat split.
      - destruct (IHl i) as [y [rest [A [B C]]]]; [lia|].
        exists y, rest. repeat split; assumption. }
    destruct S as [x [rest [A [B C]]]].
    rewrite A, B, C. reflexivity.
Qed.

(** X15: when the library's list holds as many entries as its [num]
    says, [listDevices] returns the GUIDs of all of them, one each and in
    the order of the list (none, without error, for an empty list), and
    has freed that list; when the enumeration fails it throws and there
    is no list to free.  Either way the object is as before but for
    [err]. *)
Theorem listDevices_guids (bus : Bus) (c : Camera) :
  let e := fst (bus (log c) (objHandle c)) in
  let cameras := snd (bus (log c) (objHandle c)) in
  num cameras = List.length (ids cameras) ->
  if failed e
  then listDevices bus c =
         ([dc1394_camera_enumerate (objHandle c)],
          Throw (runtime_error "Failed to enumerate cameras") (set_err e c))
  else listDevices bus c =
         ([dc1394_camera_enumerate (objHandle c);
           dc1394_camera_free_list cameras],
          Return (map guid (ids cameras)) (set_err e c)) /\
       List.length (map guid (ids cameras)) = num cameras.
Proof.
  cbv zeta. unfold listDevices.
  destruct (bus (log c) (objHandle c)) as [e cameras]. cbn [fst snd err set_err].
  intros H. destruct (failed e); [reflexivity|].
  rewrite push_guids_map by lia. rewrite H at 1.
  cbn [skipn app]. rewrite firstn_all.
  split; [reflexivity|]. rewrite length_map. symmetry. exact H.
Qed.

Lemma listDevices_guids_witness :
  num (snd (bus_two (log cam_new) (objHandle cam_new))) =
    List.length (ids (snd (bus_two (log cam_new) (objHandle cam_new)))) /\
  (exists c', snd (listDevices bus_two cam_new) =
              Return [814436102632562; 2892819673481529] c') /\
  (exists c', snd (listDevices bus_none cam_new) = Return [] c').
Proof.
  assert (H : num (snd (bus_two (log cam_new) (objHandle cam_new))) =
              List.length (ids (snd (bus_two (log cam_new)
                                             (objHandle cam_new)))))
    by reflexivity.
  pose proof (listDevices_guids bus_two cam_new H) as T.
  lazy beta iota zeta delta [bus_two fst snd failed DC1394_SUCCESS negb Z.eqb]
    in T.
  destruct T as [T _].
  split; [exact H|]. split.
  - eexists. exact (f_equal snd T).
  - eexists. reflexivity.
Defined.

(** ** What the member functions keep *)

#[global] Instance not_turned_on_PreOrder : PreOrder not_turned_on.
Proof.
  split.
  - intros c H. exact H.
  - intros c1 c2 c3 H12 H23 H. apply H12, H23, H.
Qed.

Ltac frame_off :=
  frame_with ltac:(unfold not_turned_on; cbn;
                   first [ intros H; exact H | discriminate ]).

Lemma member_not_turned_on (drv : Driver) (dma : Z) (m : MemberCall) :
  m <> CallStartAcquisition ->
  respects not_turned_on (run_member drv dma m).
Proof.
  intros N. destruct m; cbn [run_member]; try contradiction.
  - cbv [open]. frame_off.
  - unfold_members. frame_off.
  - apply setParameter_respects; [exact _ | | intros p];
      unfold_members; frame_off.
  - unfold_members. frame_off.
  - unfold_members. frame_off.
Qed.

Lemma member_isDeviceOpened (drv : Driver) (dma : Z) (m : MemberCall) :
  opens_or_closes m = false ->
  preserves isDeviceOpened (run_member drv dma m).
Proof.
  intros N. destruct m; cbn [run_member]; try discriminate N.
  - apply setParameter_isDeviceOpened.
  - apply startAcquisition_isDeviceOpened.
  - apply stopAcquisition_isDeviceOpened.
  - unfold_members. frame.
Qed.

Lemma member_keeps_invariant (drv : Driver) (dma : Z) (m : MemberCall)
      (c : Camera) :
  (isTransmitting c = true -> isDeviceOpened c = true) ->
  (m = CallStartAcquisition -> isDeviceOpened c = true) ->
  isTransmitting (final (run_member drv dma m c)) = true ->
  isDeviceOpened (final (run_member drv dma m c)) = true.
Proof.
  intros I S.
  destruct m as [g| |ps| | |].
  - (* open *)
    cbn [run_member] in *. rewrite open_cases. cbv zeta.
    destruct (_ =? 0); cbn [final]; [|reflexivity].
    intros T. apply I. exact T.
  - (* close *)
    cbn [run_member].
    destruct (close drv c) as [[] c1|e c1] eqn:H; cbn [final].
    + destruct (close_return _ _ _ H) as [T _]. congruence.
    + destruct (close_throw _ _ _ _ H) as [_ [Hs _]].
      destruct (stopAcquisition_throw _ _ _ _ Hs) as [_ T].
      pose proof (stopAcquisition_isDeviceOpened drv c) as O.
      rewrite Hs in O. cbn [final] in O. unfold same in O.
      rewrite T, O. exact I.
  - pose proof (member_not_turned_on drv dma (CallSetParameter ps) ) as P.
    pose proof (member_isDeviceOpened drv dma (CallSetParameter ps) eq_refl c)
      as O.
    unfold same in O. intros T. rewrite O. apply I.
    apply (P ltac:(discriminate) c). exact T.
  - cbn [run_member]. specialize (S eq_refl).
    pose proof (startAcquisition_isDeviceOpened drv dma c) as O.
    unfold same in O. intros _. rewrite O. exact S.
  - pose proof (member_not_turned_on drv dma CallStopAcquisition) as P.
    pose proof (member_isDeviceOpened drv dma CallStopAcquisition eq_refl c)
      as O.
    unfold same in O. intros T. rewrite O. apply I.
    apply (P ltac:(discriminate) c). exact T.
  - pose proof (member_not_turned_on drv dma CallGrabFrame) as P.
    pose proof (member_isDeviceOpened drv dma CallGrabFrame eq_refl c) as O.
    unfold same in O. intros T. rewrite O. apply I.
    apply (P ltac:(discriminate) c). exact T.
Qed.

(** X16: "transmitting implies open" is kept by every sequence of calls
    of [open], [close], [setParameter], [startAcquisition],
    [stopAcquisition] and [grabFrame], whatever the driver answers and
    whether the calls return or throw, provided [startAcquisition] is
    only called on an object that is open. *)
Theorem transmitting_implies_open (drv : Driver) (dma : Z)
        (ms : list MemberCall) :
  forall c,
    (isTransmitting c = true -> isDeviceOpened c = true) ->
    starts_when_open drv dma ms c = true ->
    isTransmitting (session drv dma ms c) = true ->
    isDeviceOpened (session drv dma ms c) = true.
Proof.
  unfold session.
  induction ms as [|m rest IH]; intros c I S; cbn [fold_left].
  - exact I.
  - cbn [starts_when_open] in S. apply andb_true_iff in S.
    destruct S as [S1 S2].
    apply IH; [|exact S2].
    apply member_keeps_invariant; [exact I|].
    intros ->. exact S1.
Qed.

Lemma transmitting_implies_open_witness :
  let ms := [CallOpen 7; CallSetParameter [BusSpeed 2]; CallStartAcquisition;
             CallGrabFrame; CallSetParameter [FrameRate 32]] in
  starts_when_open drv_open 4 ms cam_new = true /\
  isTransmitting (session drv_open 4 ms cam_new) = true /\
  isDeviceOpened (session drv_open 4 ms cam_new) = true.
Proof.
  cbv zeta.
  set (ms := [CallOpen 7; CallSetParameter [BusSpeed 2]; CallStartAcquisition;
              CallGrabFrame; CallSetParameter [FrameRate 32]]).
  assert (H0 : isTransmitting cam_new = true -> isDeviceOpened cam_new = true)
    by (vm_compute; discriminate).
  assert (H1 : starts_when_open drv_open 4 ms cam_new = true)
    by (vm_compute; reflexivity).
  assert (H2 : isTransmitting (session drv_open 4 ms cam_new) = true)
    by (vm_compute; reflexivity).
  split; [exact H1|]. split; [exact H2|].
  exact (transmitting_implies_open drv_open 4 ms cam_new H0 H1 H2).
Defined.

(** X17: no member function ever stores to [objHandle], to
    [isCapturingVideo] or to what the viewer was shown; [camHandle] is
    stored to by [open] alone and [isDeviceOpened] by [open] and [close]
    alone; and only [startAcquisition] can make an object count as
    transmitting that did not before. *)
Theorem member_calls_leave_alone (drv : Driver) (dma : Z) (m : MemberCall)
        (c : Camera) :
  let c' := final (run_member drv dma m c) in
  objHandle c' = objHandle c /\
  isCapturingVideo c' = isCapturingVideo c /\
  viewer c' = viewer c /\
  (camHandle c' <> camHandle c -> exists g, m = CallOpen g) /\
  (isDeviceOpened c' <> isDeviceOpened c -> opens_or_closes m = true) /\
  (isTransmitting c = false -> isTransmitting c' = true ->
   m = CallStartAcquisition).
Proof.
  cbv zeta.
  assert (A : forall X (f : Camera -> X),
             (forall b c0, f (set_isDeviceOpened b c0) = f c0) ->
             (forall b c0, f (set_isTransmitting b c0) = f c0) ->
             (forall b c0, f (set_err b c0) = f c0) ->
             (forall b c0, f (set_frameHandle b c0) = f c0) ->
             (forall b c0, f (set_camHandle b c0) = f c0) ->
             (forall b c0, f (set_log b c0) = f c0) ->
             preserves f (run_member drv dma m)).
  { intros X f H1 H2 H3 H4 H5 H6.
    destruct m; cbn [run_member];
      [ cbv [open]
      | unfold_members
      | apply setParameter_respects; [exact _ | | intros p]; unfold_members
      | unfold_members | unfold_members | unfold_members ];
      frame_with ltac:(unfold same;
                       first [ reflexivity | apply H1 | apply H2 | apply H3
                             | apply H4 | apply H5 | apply H6 ]). }
  split; [apply (A _ objHandle); reflexivity|].
  split; [apply (A _ isCapturingVideo); reflexivity|].
  split; [apply (A _ viewer); reflexivity|].
  split; [|split].
  - intros N. destruct m; try (eexists; reflexivity); exfalso; apply N.
    + apply close_camHandle.
    + apply setParameter_camHandle.
    + apply startAcquisition_camHandle.
    + apply stopAcquisition_camHandle.
    + cbn [run_member]. assert (P : preserves camHandle (grabFrame drv ;; ret tt)%cam)
        by (unfold_members; frame). apply P.
  - intros N. destruct (opens_or_closes m) eqn:E; [reflexivity|].
    exfalso. apply N. apply (member_isDeviceOpened drv dma m E).
  - intros F T.
    destruct m; try reflexivity; exfalso.
    all: match goal with
         | |- False =>
             let P := fresh in
             pose proof (fun N => member_not_turned_on drv dma _ N c T) as P;
             rewrite P in F; [discriminate F | discriminate]
         end.
Qed.

Lemma member_calls_leave_alone_witness :
  let c' := final (run_member drv_open 4 (CallOpen 7) cam_new) in
  camHandle c' <> camHandle cam_new /\
  isDeviceOpened c' <> isDeviceOpened cam_new /\
  objHandle c' = objHandle cam_new /\
  opens_or_closes (CallOpen 7) = true.
Proof.
  cbv zeta.
  assert (H1 : camHandle (final (run_member drv_open 4 (CallOpen 7) cam_new))
               <> camHandle cam_new) by (vm_compute; discriminate).
  assert (H2 : isDeviceOpened
                 (final (run_member drv_open 4 (CallOpen 7) cam_new))
               <> isDeviceOpened cam_new) by (vm_compute; discriminate).
  destruct (member_calls_leave_alone drv_open 4 (CallOpen 7) cam_new)
    as [A [_ [_ [_ [B _]]]]].
  split; [exact H1|]. split; [exact H2|]. split; [exact A | exact (B H2)].
Defined.

Lemma Camera_ext (a b : Camera) :
  objHandle a = objHandle b -> camHandle a = camHandle b ->
  err a = err b -> isDeviceOpened a = isDeviceOpened b ->
  isTransmitting a = isTransmitting b ->
  isCapturingVideo a = isCapturingVideo b ->
  frameHandle a = frameHandle b -> log a = log b -> viewer a = viewer b ->
  a = b.
Proof.
  destruct a, b. cbn. intros. subst. reflexivity.
Qed.

Lemma startAcquisition_return_log (drv : Driver) (dma : Z) (c c1 : Camera) :
  startAcquisition drv dma c = Return tt c1 ->
  isTransmitting c1 = true /\
  exists l, log c1 = log c ++ l /\
            calls l = [dc1394_capture_setup dma;
                       dc1394_video_set_transmission DC1394_ON].
Proof.
  rewrite startAcquisition_cases. cbv zeta.
  destruct (failed _); [discriminate|].
  destruct (failed _); [destruct (stopAcquisition drv _); discriminate|].
  intros H. injection H as <-. split; [reflexivity|].
  eexists. split;
    [ cbv [recorded called];
      cbn [log set_log set_err set_isTransmitting camHandle];
      rewrite <- app_assoc; reflexivity
    | reflexivity ].
Qed.

Lemma stopAcquisition_return_log (drv : Driver) (c c2 : Camera) :
  stopAcquisition drv c = Return tt c2 ->
  isTransmitting c2 = false /\ err c2 = DC1394_SUCCESS /\
  exists l, log c2 = log c ++ l /\
            calls l = [dc1394_capture_stop;
                       dc1394_video_set_transmission DC1394_OFF].
Proof.
  rewrite stopAcquisition_cases. cbv zeta.
  destruct (failed _); [discriminate|].
  destruct (failed (err _)) eqn:F; [discriminate|].
  intros H. injection H as <-. split; [reflexivity|].
  split.
  - unfold failed in F. apply negb_false_iff, Z.eqb_eq in F. exact F.
  - eexists. split;
      [ cbv [recorded called];
        cbn [log set_log set_err set_isTransmitting camHandle];
        rewrite <- app_assoc; reflexivity
      | reflexivity ].
Qed.

(** X18: on an object that is not transmitting, a [startAcquisition]
    and a [stopAcquisition] that both return make the four calls capture
    setup, transmission on, capture stop, transmission off, and leave the
    object exactly as it was but for [err], which holds the success
    code, and the history. *)
Theorem start_stop_round_trip (drv : Driver) (dma : Z) (c c1 c2 : Camera) :
  isTransmitting c = false ->
  startAcquisition drv dma c = Return tt c1 ->
  stopAcquisition drv c1 = Return tt c2 ->
  isTransmitting c1 = true /\
  steps c c2 = [dc1394_capture_setup dma;
                dc1394_video_set_transmission DC1394_ON;
                dc1394_capture_stop;
                dc1394_video_set_transmission DC1394_OFF] /\
  c2 = set_err DC1394_SUCCESS (set_log (log c2) c).
Proof.
  intros Tx H1 H2.
  destruct (startAcquisition_return_log _ _ _ _ H1) as [T1 [l1 [L1 C1]]].
  destruct (stopAcquisition_return_log _ _ _ H2) as [T2 [E2 [l2 [L2 C2]]]].
  assert (K : forall X (f : Camera -> X),
             preserves f (startAcquisition drv dma) ->
             preserves f (stopAcquisition drv) -> f c2 = f c).
  { intros X f P1 P2. specialize (P1 c). specialize (P2 c1).
    rewrite H1 in P1. rewrite H2 in P2. unfold same in *. cbn [final] in *.
    congruence. }
  split; [exact T1|]. split.
  - apply (steps_calls c c2 (l1 ++ l2)).
    + rewrite L2, L1. symmetry. apply app_assoc.
    + unfold calls in *. rewrite map_app, C1, C2. reflexivity.
  - apply Camera_ext; cbn [objHandle camHandle err isDeviceOpened
                           isTransmitting isCapturingVideo frameHandle log
                           viewer set_err set_log].
    + apply K; unfold_members; frame.
    + apply K; unfold_members; frame.
    + exact E2.
    + apply K; unfold_members; frame.
    + congruence.
    + apply K; unfold_members; frame.
    + apply K; unfold_members; frame.
    + reflexivity.
    + apply K; unfold_members; frame.
Qed.

Lemma start_stop_round_trip_witness :
  let c2 := final (stopAcquisition drv_ok cam_tx) in
  isTransmitting cam_open = false /\
  startAcquisition drv_ok 4 cam_open = Return tt cam_tx /\
  stopAcquisition drv_ok cam_tx = Return tt c2 /\
  c2 = set_err DC1394_SUCCESS (set_log (log c2) cam_open).
Proof.
  cbv zeta.
  assert (H0 : isTransmitting cam_open = false) by (vm_compute; reflexivity).
  assert (H1 : startAcquisition drv_ok 4 cam_open = Return tt cam_tx)
    by (vm_compute; reflexivity).
  assert (H2 : stopAcquisition drv_ok cam_tx =
               Return tt (final (stopAcquisition drv_ok cam_tx)))
    by (vm_compute; reflexivity).
  split; [exact H0|]. split; [exact H1|]. split; [exact H2|].
  apply (start_stop_round_trip drv_ok 4 cam_open cam_tx _ H0 H1 H2).
Defined.
